(** * Payment transactions: validation, fees, daily limit and status moves

    A shallow embedding of the payment slice of the banking portal:
    - [server/models/Transaction.js]: the Mongoose schema, its pre-save hook
      and the five [markAs...] instance methods;
    - [server/routes/payments.js] (the MongoDB version): the handlers of
      [POST /make-payment], [GET /transactions/:id] and
      [PUT /transactions/:id/cancel].

    - [server/middleware/inputValidation.js]: the validators of the SWIFT
      code and of the amount.

    JavaScript numbers are IEEE 754 binary64 values, modelled by the
    Standard Library's [spec_float] with precision 53 and maximal exponent
    1024, so [NaN], signed zeros, infinities and rounding are those of the
    running program.  Strings are sequences of ASCII characters.  Dates
    are time values in milliseconds, read through the calendar of the
    language in the time zone of the host, which the environment gives.
    The collection is a list of documents in insertion order.  Audit logging,
    authentication and rate limiting do not touch the collection and are
    left out. *)

From Stdlib Require Import ZArith NArith List String Ascii Bool Lia.
From Stdlib Require Import SpecFloat.
Import ListNotations.
Open Scope Z_scope.

(** ** The JavaScript values the handlers compute with *)
Module JS.

(** *** Numbers *)

Definition Number := spec_float.
Definition prec : Z := 53.
Definition emax : Z := 1024.

Definition NaN : Number := S754_nan.

(** An integer literal. *)
Definition num_of_Z (z : Z) : Number := binary_normalize prec emax z 0 false.

(** The binary64 value nearest to [m * 10^e] (ties to even), for [0 <= m]:
    the value of a decimal literal with digits [m] and exponent [e].  For a
    negative exponent the quotient is taken with more than 64 significant
    bits and a sticky last bit, which rounds like the exact quotient. *)
Definition num_of_decimal (neg : bool) (m e : Z) : Number :=
  if m =? 0 then S754_zero neg
  else if 0 <=? e
  then binary_normalize prec emax (cond_Zopp neg (m * 10 ^ e)) 0 false
  else
    let d := 10 ^ (- e) in
    let k := Z.max 0 (64 + Z.log2 d + 1 - Z.log2 m) in
    let (q, r) := Z.div_eucl (m * 2 ^ k) d in
    let m' := 2 * q + (if r =? 0 then 0 else 1) in
    binary_normalize prec emax (cond_Zopp neg m') (- (k + 1)) false.

Definition add (x y : Number) : Number := SFadd prec emax x y.
(** [x < y], [x <= y], [x > y]: false as soon as one side is [NaN]. *)
Definition lt (x y : Number) : bool := SFltb x y.
Definition le (x y : Number) : bool := SFleb x y.
Definition gt (x y : Number) : bool := SFltb y x.
Definition ge (x y : Number) : bool := SFleb y x.

(** ToBoolean on a number: [0], [-0] and [NaN] are falsy. *)
Definition truthy (x : Number) : bool :=
  match x with
  | S754_zero _ | S754_nan => false
  | _ => true
  end.

(** [x || d] on numbers. *)
Definition or_else (x d : Number) : Number := if truthy x then x else d.

(** [parseFloat(x)] for [x] already a number: [x] is first converted to a
    string and read back, which returns [x] except that [-0] prints as
    ["0"]. *)
Definition parseFloat_num (x : Number) : Number :=
  match x with
  | S754_zero _ => S754_zero false
  | _ => x
  end.

(** *** Strings *)

Definition chars (s : string) : list ascii := list_ascii_of_string s.
Definition str (l : list ascii) : string := string_of_list_ascii l.

Definition charCode (c : ascii) : N := N_of_ascii c.

Definition between (lo hi : N) (c : ascii) : bool :=
  ((lo <=? charCode c) && (charCode c <=? hi))%N.

Definition isDigit (c : ascii) : bool := between 48 57 c.
Definition isUpper (c : ascii) : bool := between 65 90 c.
Definition isLower (c : ascii) : bool := between 97 122 c.
Definition isAlpha (c : ascii) : bool := isUpper c || isLower c.
Definition isAlnum (c : ascii) : bool := isAlpha c || isDigit c.
Definition isUpperAlnum (c : ascii) : bool := isUpper c || isDigit c.

(** White space and line terminators (the class [\s], and what [trim] and
    [parseFloat] skip): TAB, LF, VT, FF, CR and SPACE. *)
Definition isWhite (c : ascii) : bool :=
  between 9 13 c || (charCode c =? 32)%N.

Definition isAlphaOrWhite (c : ascii) : bool := isAlpha c || isWhite c.
Definition isAlnumOrWhite (c : ascii) : bool := isAlnum c || isWhite c.

Fixpoint trimStartL (l : list ascii) : list ascii :=
  match l with
  | c :: r => if isWhite c then trimStartL r else l
  | [] => []
  end.

Fixpoint trimEndL (l : list ascii) : list ascii :=
  match l with
  | [] => []
  | c :: r =>
      match trimEndL r with
      | [] => if isWhite c then [] else [c]
      | r' => c :: r'
      end
  end.

(** A sequence that does not start with white space. *)
Definition trimmedStart (l : list ascii) : Prop :=
  match l with
  | c :: _ => isWhite c = false
  | [] => True
  end.

(** [s.trim()] *)
Definition trim (s : string) : string := str (trimEndL (trimStartL (chars s))).

Definition upperChar (c : ascii) : ascii :=
  if isLower c then ascii_of_N (charCode c - 32) else c.

(** [s.toUpperCase()] *)
Definition toUpperCase (s : string) : string := str (map upperChar (chars s)).

Definition strlen (s : string) : Z := Z.of_nat (List.length (chars s)).

(** [!s] for a value that is a string or [undefined]. *)
Definition falsy_str (o : option string) : bool :=
  match o with
  | None => true
  | Some s => match chars s with [] => true | _ => false end
  end.

(** [o || d] for such a value. *)
Definition str_or {A} (o : option string) (some : string -> A) (d : A) : A :=
  match o with
  | Some s => if falsy_str o then d else some s
  | None => d
  end.

(** *** Regular expressions of the schema

    Every pattern of the schema is anchored at both ends and is a
    sequence of bounded repetitions of a character class. *)

(** [/^[cls]{lo,hi}$/] *)
Definition match_class (cls : ascii -> bool) (lo hi : nat) (s : string) : bool :=
  let l := chars s in
  forallb cls l && (lo <=? List.length l)%nat && (List.length l <=? hi)%nat.

(** [/^[A-Z]{6}[A-Z0-9]{2,5}$/] *)
Definition swiftCodePattern (s : string) : bool :=
  let l := chars s in
  (List.length (firstn 6 l) =? 6)%nat && forallb isUpper (firstn 6 l)
  && forallb isUpperAlnum (skipn 6 l)
  && (2 <=? List.length (skipn 6 l))%nat && (List.length (skipn 6 l) <=? 5)%nat.

(** *** Reading numbers *)

Fixpoint span (p : ascii -> bool) (l : list ascii) : list ascii * list ascii :=
  match l with
  | c :: r => if p c then let (a, b) := span p r in (c :: a, b) else ([], l)
  | [] => ([], [])
  end.

(** [/^\d+(\.\d{1,2})?$/] *)
Definition amountPattern (s : string) : bool :=
  let '(ip, r) := span isDigit (chars s) in
  match ip, r with
  | [], _ => false
  | _ :: _, [] => true
  | _ :: _, c :: f =>
      (charCode c =? 46)%N && forallb isDigit f
      && (1 <=? List.length f)%nat && (List.length f <=? 2)%nat
  end.

Definition digitsZ (ds : list ascii) : Z :=
  fold_left (fun acc c => 10 * acc + (Z.of_N (charCode c) - 48)) ds 0.

Fixpoint isPrefix (p l : list ascii) : bool :=
  match p, l with
  | [], _ => true
  | a :: p', b :: l' => (charCode a =? charCode b)%N && isPrefix p' l'
  | _ :: _, [] => false
  end.

(** The optional exponent part [e], [e+] or [e-] followed by digits; it
    counts only when at least one digit follows. *)
Definition exponentPart (l : list ascii) : Z :=
  match l with
  | c :: r =>
      if (charCode c =? 101)%N || (charCode c =? 69)%N then
        let '(neg, r') :=
          match r with
          | d :: r'' =>
              if (charCode d =? 45)%N then (true, r'')
              else if (charCode d =? 43)%N then (false, r'')
              else (false, r)
          | [] => (false, r)
          end in
        match fst (span isDigit r') with
        | [] => 0
        | ds => cond_Zopp neg (digitsZ ds)
        end
      else 0
  | [] => 0
  end.

(** [parseFloat(s)]: leading white space is skipped, then the longest
    prefix that is a decimal literal (sign, [Infinity], digits with an
    optional fraction and exponent) is read; [NaN] when there is none. *)
Definition parseFloat (s : string) : Number :=
  let l := trimStartL (chars s) in
  let '(neg, l1) :=
    match l with
    | c :: r =>
        if (charCode c =? 45)%N then (true, r)
        else if (charCode c =? 43)%N then (false, r)
        else (false, l)
    | [] => (false, l)
    end in
  if isPrefix (chars "Infinity") l1 then S754_infinity neg
  else
    let '(ip, r1) := span isDigit l1 in
    let '(fp, r2) :=
      match r1 with
      | c :: r => if (charCode c =? 46)%N then span isDigit r else ([], r1)
      | [] => ([], r1)
      end in
    match ip ++ fp with
    | [] => NaN
    | ds => num_of_decimal neg (digitsZ ds)
              (exponentPart r2 - Z.of_nat (List.length fp))
    end.

(** [parseFloat(v)] for [v] a string or [undefined]
    ([undefined] reads as the string ["undefined"], hence [NaN]). *)
Definition parseFloat_opt (o : option string) : Number :=
  match o with
  | Some s => parseFloat s
  | None => NaN
  end.

End JS.

(** ** [server/models/Transaction.js] *)
Module Model.
Import JS.

Definition ObjectId := N.
(** A [Date], in milliseconds since the epoch. *)
Definition Date := Z.

Inductive Status :=
| PENDING | VERIFIED | PROCESSING | COMPLETED | REJECTED | CANCELLED.

Definition status_eqb (a b : Status) : bool :=
  match a, b with
  | PENDING, PENDING | VERIFIED, VERIFIED | PROCESSING, PROCESSING
  | COMPLETED, COMPLETED | REJECTED, REJECTED | CANCELLED, CANCELLED => true
  | _, _ => false
  end.

Definition status_name (s : Status) : string :=
  match s with
  | PENDING => "PENDING" | VERIFIED => "VERIFIED"
  | PROCESSING => "PROCESSING" | COMPLETED => "COMPLETED"
  | REJECTED => "REJECTED" | CANCELLED => "CANCELLED"
  end.

Record Metadata := mkMetadata {
  m_userAgent : option string;
  m_ipAddress : option string;
  m_timestamp : Date
}.

(** A document of the collection.  [None] is a field that is [null] or
    not set. *)
Record Transaction := mkTransaction {
  _id : ObjectId;
  userId : ObjectId;
  amount : Number;
  currency : option string;
  provider : option string;
  recipientName : option string;
  recipientAccountNumber : option string;
  recipientBankCode : option string;
  swiftCode : option string;
  recipientBankName : option string;
  recipientBankAddress : option string;
  purpose : option string;
  reference : option string;
  status : Status;
  exchangeRate : option Number;
  fees : Number;
  totalAmount : option Number;
  verificationCode : option string;
  verifiedAt : option Date;
  processedAt : option Date;
  completedAt : option Date;
  rejectionReason : option string;
  ipAddress : option string;
  userAgent : option string;
  metadata : option Metadata;
  createdAt : Date;
  updatedAt : Date
}.

Definition set_status (v : Status) (t : Transaction) : Transaction :=
  {| _id := _id t; userId := userId t; amount := amount t;
     currency := currency t; provider := provider t;
     recipientName := recipientName t;
     recipientAccountNumber := recipientAccountNumber t;
     recipientBankCode := recipientBankCode t; swiftCode := swiftCode t;
     recipientBankName := recipientBankName t;
     recipientBankAddress := recipientBankAddress t; purpose := purpose t;
     reference := reference t; status := v; exchangeRate := exchangeRate t;
     fees := fees t; totalAmount := totalAmount t;
     verificationCode := verificationCode t; verifiedAt := verifiedAt t;
     processedAt := processedAt t; completedAt := completedAt t;
     rejectionReason := rejectionReason t; ipAddress := ipAddress t;
     userAgent := userAgent t; metadata := metadata t;
     createdAt := createdAt t; updatedAt := updatedAt t |}.

Definition set_totalAmount (v : option Number) (t : Transaction) : Transaction :=
  {| _id := _id t; userId := userId t; amount := amount t;
     currency := currency t; provider := provider t;
     recipientName := recipientName t;
     recipientAccountNumber := recipientAccountNumber t;
     recipientBankCode := recipientBankCode t; swiftCode := swiftCode t;
     recipientBankName := recipientBankName t;
     recipientBankAddress := recipientBankAddress t; purpose := purpose t;
     reference := reference t; status := status t;
     exchangeRate := exchangeRate t; fees := fees t; totalAmount := v;
     verificationCode := verificationCode t; verifiedAt := verifiedAt t;
     processedAt := processedAt t; completedAt := completedAt t;
     rejectionReason := rejectionReason t; ipAddress := ipAddress t;
     userAgent := userAgent t; metadata := metadata t;
     createdAt := createdAt t; updatedAt := updatedAt t |}.

Definition set_verificationCode (v : option string) (t : Transaction) : Transaction :=
  {| _id := _id t; userId := userId t; amount := amount t;
     currency := currency t; provider := provider t;
     recipientName := recipientName t;
     recipientAccountNumber := recipientAccountNumber t;
     recipientBankCode := recipientBankCode t; swiftCode := swiftCode t;
     recipientBankName := recipientBankName t;
     recipientBankAddress := recipientBankAddress t; purpose := purpose t;
     reference := reference t; status := status t;
     exchangeRate := exchangeRate t; fees := fees t;
     totalAmount := totalAmount t; verificationCode := v;
     verifiedAt := verifiedAt t; processedAt := processedAt t;
     completedAt := completedAt t; rejectionReason := rejectionReason t;
     ipAddress := ipAddress t; userAgent := userAgent t;
     metadata := metadata t; createdAt := createdAt t;
     updatedAt := updatedAt t |}.

Definition set_verifiedAt (v : option Date) (t : Transaction) : Transaction :=
  {| _id := _id t; userId := userId t; amount := amount t;
     currency := currency t; provider := provider t;
     recipientName := recipientName t;
     recipientAccountNumber := recipientAccountNumber t;
     recipientBankCode := recipientBankCode t; swiftCode := swiftCode t;
     recipientBankName := recipientBankName t;
     recipientBankAddress := recipientBankAddress t; purpose := purpose t;
     reference := reference t; status := status t;
     exchangeRate := exchangeRate t; fees := fees t;
     totalAmount := totalAmount t; verificationCode := verificationCode t;
     verifiedAt := v; processedAt := processedAt t;
     completedAt := completedAt t; rejectionReason := rejectionReason t;
     ipAddress := ipAddress t; userAgent := userAgent t;
     metadata := metadata t; createdAt := createdAt t;
     updatedAt := updatedAt t |}.

Definition set_processedAt (v : option Date) (t : Transaction) : Transaction :=
  {| _id := _id t; userId := userId t; amount := amount t;
     currency := currency t; provider := provider t;
     recipientName := recipientName t;
     recipientAccountNumber := recipientAccountNumber t;
     recipientBankCode := recipientBankCode t; swiftCode := swiftCode t;
     recipientBankName := recipientBankName t;
     recipientBankAddress := recipientBankAddress t; purpose := purpose t;
     reference := reference t; status := status t;
     exchangeRate := exchangeRate t; fees := fees t;
     totalAmount := totalAmount t; verificationCode := verificationCode t;
     verifiedAt := verifiedAt t; processedAt := v;
     completedAt := completedAt t; rejectionReason := rejectionReason t;
     ipAddress := ipAddress t; userAgent := userAgent t;
     metadata := metadata t; createdAt := createdAt t;
     updatedAt := updatedAt t |}.

Definition set_completedAt (v : option Date) (t : Transaction) : Transaction :=
  {| _id := _id t; userId := userId t; amount := amount t;
     currency := currency t; provider := provider t;
     recipientName := recipientName t;
     recipientAccountNumber := recipientAccountNumber t;
     recipientBankCode := recipientBankCode t; swiftCode := swiftCode t;
     recipientBankName := recipientBankName t;
     recipientBankAddress := recipientBankAddress t; purpose := purpose t;
     reference := reference t; status := status t;
     exchangeRate := exchangeRate t; fees := fees t;
     totalAmount := totalAmount t; verificationCode := verificationCode t;
     verifiedAt := verifiedAt t; processedAt := processedAt t;
     completedAt := v; rejectionReason := rejectionReason t;
     ipAddress := ipAddress t; userAgent := userAgent t;
     metadata := metadata t; createdAt := createdAt t;
     updatedAt := updatedAt t |}.

Definition set_rejectionReason (v : option string) (t : Transaction) : Transaction :=
  {| _id := _id t; userId := userId t; amount := amount t;
     currency := currency t; provider := provider t;
     recipientName := recipientName t;
     recipientAccountNumber := recipientAccountNumber t;
     recipientBankCode := recipientBankCode t; swiftCode := swiftCode t;
     recipientBankName := recipientBankName t;
     recipientBankAddress := recipientBankAddress t; purpose := purpose t;
     reference := reference t; status := status t;
     exchangeRate := exchangeRate t; fees := fees t;
     totalAmount := totalAmount t; verificationCode := verificationCode t;
     verifiedAt := verifiedAt t; processedAt := processedAt t;
     completedAt := completedAt t; rejectionReason := v;
     ipAddress := ipAddress t; userAgent := userAgent t;
     metadata := metadata t; createdAt := createdAt t;
     updatedAt := updatedAt t |}.

Definition set_updatedAt (v : Date) (t : Transaction) : Transaction :=
  {| _id := _id t; userId := userId t; amount := amount t;
     currency := currency t; provider := provider t;
     recipientName := recipientName t;
     recipientAccountNumber := recipientAccountNumber t;
     recipientBankCode := recipientBankCode t; swiftCode := swiftCode t;
     recipientBankName := recipientBankName t;
     recipientBankAddress := recipientBankAddress t; purpose := purpose t;
     reference := reference t; status := status t;
     exchangeRate := exchangeRate t; fees := fees t;
     totalAmount := totalAmount t; verificationCode := verificationCode t;
     verifiedAt := verifiedAt t; processedAt := processedAt t;
     completedAt := completedAt t; rejectionReason := rejectionReason t;
     ipAddress := ipAddress t; userAgent := userAgent t;
     metadata := metadata t; createdAt := createdAt t; updatedAt := v |}.

(** The collection, in insertion order. *)
Definition Store := list Transaction.

(** What the process reads from its surroundings during one request. *)
Record Env := mkEnv {
  now : Date;                          (* [new Date()] *)
  LocalTZA : Z -> bool -> Z;           (* the offset of local time from UTC, in
                                          ms, at the UTC time (flag set) or
                                          the local time (flag clear) given *)
  objectId : ObjectId;                 (* the next generated [_id] *)
  randomHex : string;                  (* [crypto.randomBytes(3).toString('hex')] *)
  MIN_PAYMENT_AMOUNT : option string;  (* [process.env] *)
  MAX_PAYMENT_AMOUNT : option string
}.

(** *** Schema validators *)

Definition supportedCurrencies : list string :=
  ["USD"; "EUR"; "GBP"; "ZAR"; "JPY"; "CAD"; "AUD"; "CHF"; "SEK"; "NOK"]%string.
Definition supportedProviders : list string :=
  ["SWIFT"; "FEDWIRE"; "CHIPS"]%string.

(** [required] on a String path: a string that is not empty. *)
Definition required (o : option string) : bool := negb (falsy_str o).

(** [enum]: passes on a value that is not set. *)
Definition enum (values : list string) (o : option string) : bool :=
  match o with
  | None => true
  | Some s => existsb (String.eqb s) values
  end.

Definition minlength (n : Z) (o : option string) : bool :=
  match o with None => true | Some s => n <=? strlen s end.

Definition maxlength (n : Z) (o : option string) : bool :=
  match o with None => true | Some s => strlen s <=? n end.

(** [match]: passes on [null] and on the empty string. *)
Definition matches (re : string -> bool) (o : option string) : bool :=
  match o with
  | None => true
  | Some s => if falsy_str o then true else re s
  end.

Definition is_nan (x : Number) : bool :=
  match x with S754_nan => true | _ => false end.

(** A Number path: [NaN] does not cast; [min] and [max] as declared. *)
Definition number_min (m x : Number) : bool := negb (is_nan x) && ge x m.
Definition number_max (m x : Number) : bool := negb (is_nan x) && le x m.

Definition amount_min : Number := num_of_decimal false 1 (-2).
Definition amount_max : Number := num_of_decimal false 99999999999 (-2).

Definition check (path : string) (ok : bool) : list string :=
  if ok then [] else [path].

(** The paths that fail validation, in the order of the schema. *)
Definition validate (t : Transaction) : list string :=
  (check "amount" (number_min amount_min (amount t)
                   && number_max amount_max (amount t))
   ++ check "currency" (required (currency t)
                        && enum supportedCurrencies (currency t))
   ++ check "provider" (required (provider t)
                        && enum supportedProviders (provider t))
   ++ check "recipientName"
        (required (recipientName t) && minlength 3 (recipientName t)
         && maxlength 50 (recipientName t)
         && matches (match_class isAlphaOrWhite 3 50) (recipientName t))
   ++ check "recipientAccountNumber"
        (required (recipientAccountNumber t)
         && matches (match_class isAlnum 8 20) (recipientAccountNumber t))
   ++ check "recipientBankCode"
        (required (recipientBankCode t)
         && matches (match_class isUpperAlnum 8 11) (recipientBankCode t))
   ++ check "swiftCode"
        (required (swiftCode t) && matches swiftCodePattern (swiftCode t))
   ++ check "recipientBankName"
        (required (recipientBankName t) && minlength 3 (recipientBankName t)
         && maxlength 100 (recipientBankName t)
         && matches (match_class isAlphaOrWhite 3 100) (recipientBankName t))
   ++ check "recipientBankAddress" (maxlength 500 (recipientBankAddress t))
   ++ check "purpose"
        (maxlength 100 (purpose t)
         && matches (match_class isAlnumOrWhite 0 100) (purpose t))
   ++ check "reference"
        (maxlength 50 (reference t)
         && matches (match_class isAlnum 0 50) (reference t))
   ++ check "exchangeRate"
        (match exchangeRate t with
         | None => true
         | Some r => number_min (num_of_Z 0) r
         end)
   ++ check "fees" (number_min (num_of_Z 0) (fees t))
   ++ check "totalAmount"
        (match totalAmount t with
         | None => true
         | Some x => negb (is_nan x)
         end))%list.

(** What a rejected promise carries. *)
Inductive Error :=
| ValidationError (paths : list string).

(** *** The pre-save hook *)

Definition pre_save (env : Env) (t : Transaction) : Transaction :=
  (* Calculate total amount including fees *)
  let t1 :=
    set_totalAmount
      (Some (add (parseFloat_num (amount t))
                 (parseFloat_num (or_else (fees t) (num_of_Z 0))))) t in
  (* Generate verification code if not already set *)
  if falsy_str (verificationCode t1)
  then set_verificationCode (Some (toUpperCase (randomHex env))) t1
  else t1.

(** *** Saving *)

(** The update of a stored document: the first document with this [_id]
    is replaced. *)
Fixpoint updateOne (t : Transaction) (st : Store) : Store :=
  match st with
  | d :: r => if (_id d =? _id t)%N then t :: r else d :: updateOne t r
  | [] => []
  end.

Definition option_eqb {A} (eqb : A -> A -> bool) (x y : option A) : bool :=
  match x, y with
  | Some a, Some b => eqb a b
  | None, None => true
  | _, _ => false
  end.

(** Whether an assignment of an instance method changed a path: [t] is
    the document as loaded, [t'] the document after the assignments. *)
Definition isModified (t t' : Transaction) : bool :=
  negb (status_eqb (status t) (status t')
        && option_eqb Z.eqb (verifiedAt t) (verifiedAt t')
        && option_eqb Z.eqb (processedAt t) (processedAt t')
        && option_eqb Z.eqb (completedAt t) (completedAt t')
        && option_eqb String.eqb (rejectionReason t) (rejectionReason t')).

(** [this.save()] on a document loaded from the collection as [t] and
    assigned to since, which gave [t']: [updatedAt] is stamped if an
    assignment changed a path, the hook runs, and the document is written
    back.  The paths the instance methods modify carry no validator that
    can fail. *)
Definition save (env : Env) (t t' : Transaction) (st : Store)
  : Transaction * Store :=
  let t1 := if isModified t t' then set_updatedAt (now env) t' else t' in
  let t2 := pre_save env t1 in
  (t2, updateOne t2 st).

(** The object handed to [Transaction.create] by the payment route. *)
Record NewTransaction := mkNewTransaction {
  n_userId : ObjectId;
  n_amount : Number;
  n_currency : option string;
  n_provider : option string;
  n_recipientName : option string;
  n_recipientAccountNumber : option string;
  n_recipientBankCode : option string;
  n_swiftCode : option string;
  n_recipientBankName : option string;
  n_recipientBankAddress : option string;
  n_purpose : option string;
  n_reference : option string;
  n_fees : Number;
  n_totalAmount : option Number;
  n_ipAddress : option string;
  n_userAgent : option string;
  n_metadata : option Metadata
}.

(** The new document: the given fields, the schema defaults
    ([status] is ['PENDING']), a generated [_id] and the timestamps. *)
Definition new_document (env : Env) (n : NewTransaction) : Transaction :=
  {| _id := objectId env; userId := n_userId n; amount := n_amount n;
     currency := n_currency n; provider := n_provider n;
     recipientName := n_recipientName n;
     recipientAccountNumber := n_recipientAccountNumber n;
     recipientBankCode := n_recipientBankCode n;
     swiftCode := n_swiftCode n;
     recipientBankName := n_recipientBankName n;
     recipientBankAddress := n_recipientBankAddress n;
     purpose := n_purpose n; reference := n_reference n;
     status := PENDING; exchangeRate := None; fees := n_fees n;
     totalAmount := n_totalAmount n; verificationCode := None;
     verifiedAt := None; processedAt := None; completedAt := None;
     rejectionReason := None; ipAddress := n_ipAddress n;
     userAgent := n_userAgent n; metadata := n_metadata n;
     createdAt := now env; updatedAt := now env |}.

(** [Transaction.create(n)]: the new document is validated, passes the
    hook and is inserted; a validation failure rejects and inserts
    nothing. *)
Definition create (env : Env) (n : NewTransaction) (st : Store)
  : Error + Transaction * Store :=
  let doc := new_document env n in
  match validate doc with
  | [] => let t := pre_save env doc in inr (t, st ++ [t])
  | paths => inl (ValidationError paths)
  end.

(** *** Instance methods *)

Definition markAsVerified (env : Env) (t : Transaction) (st : Store) :=
  save env t (set_verifiedAt (Some (now env)) (set_status VERIFIED t)) st.

Definition markAsProcessing (env : Env) (t : Transaction) (st : Store) :=
  save env t (set_processedAt (Some (now env)) (set_status PROCESSING t)) st.

Definition markAsCompleted (env : Env) (t : Transaction) (st : Store) :=
  save env t (set_completedAt (Some (now env)) (set_status COMPLETED t)) st.

Definition markAsRejected (env : Env) (reason : option string)
    (t : Transaction) (st : Store) :=
  save env t (set_rejectionReason reason (set_status REJECTED t)) st.

Definition markAsCancelled (env : Env) (t : Transaction) (st : Store) :=
  save env t (set_status CANCELLED t) st.

(** The five methods under one name. *)
Inductive Transition :=
| Verify | BeginProcessing | Complete | Reject (reason : option string)
| Cancel.

Definition apply_transition (env : Env) (tr : Transition)
    (t : Transaction) (st : Store) : Transaction * Store :=
  match tr with
  | Verify => markAsVerified env t st
  | BeginProcessing => markAsProcessing env t st
  | Complete => markAsCompleted env t st
  | Reject reason => markAsRejected env reason t st
  | Cancel => markAsCancelled env t st
  end.

Definition target (tr : Transition) : Status :=
  match tr with
  | Verify => VERIFIED
  | BeginProcessing => PROCESSING
  | Complete => COMPLETED
  | Reject _ => REJECTED
  | Cancel => CANCELLED
  end.

End Model.

(** ** [server/routes/payments.js] *)
Module Payments.
Import JS Model.

(** *** Requests and responses *)

(** [req.body] of a payment submission; each field is a string or is
    missing. *)
Record PaymentBody := mkPaymentBody {
  b_amount : option string;
  b_currency : option string;
  b_provider : option string;
  b_recipientName : option string;
  b_recipientAccountNumber : option string;
  b_swiftCode : option string;
  b_recipientBankName : option string;
  b_recipientBankAddress : option string;
  b_purpose : option string;
  b_reference : option string
}.

(** The request as the handlers see it, after [auth] has set [req.user]. *)
Record Request := mkRequest {
  user : ObjectId;              (* [req.user._id || req.user.id] *)
  body : PaymentBody;
  param_id : ObjectId;          (* [req.params.id] *)
  ip : option string;           (* [req.ip] *)
  user_agent : option string    (* [req.get('User-Agent')] *)
}.

(** A piece of a template literal: text, or an interpolated number. *)
Inductive Piece :=
| Text (s : string)
| Interp (x : Number).

(** The values sent with [res.json]. *)
#[local] Unset Elimination Schemes.
Inductive Json :=
| JNull
| JBool (b : bool)
| JNum (x : Number)
| JStr (s : string)
| JTemplate (ps : list Piece)
| JId (i : ObjectId)
| JDate (d : Date)
| JObj (fields : list (string * Json)).
#[local] Set Elimination Schemes.

Record Response := mkResponse {
  code : Z;        (* [res.status(...)], 200 when not set *)
  json : Json
}.

(** How a handler ends: it answers, or its promise rejects and the error
    goes to [next]. *)
Inductive Outcome :=
| Respond (r : Response)
| Throw (e : Error).

Definition jopt (o : option string) : Json :=
  match o with Some s => JStr s | None => JNull end.
Definition jnum_opt (o : option Number) : Json :=
  match o with Some x => JNum x | None => JNull end.
Definition jdate_opt (o : option Date) : Json :=
  match o with Some d => JDate d | None => JNull end.

(** The field [k] of an object. *)
Fixpoint lookup (k : string) (fields : list (string * Json)) : option Json :=
  match fields with
  | (k', v) :: r => if String.eqb k k' then Some v else lookup k r
  | [] => None
  end.

Definition field (k : string) (j : Json) : option Json :=
  match j with
  | JObj fields => lookup k fields
  | _ => None
  end.

Definition failure (c : Z) (error : Json) : Outcome :=
  Respond {| code := c;
             json := JObj [("success", JBool false); ("error", error)]%string |}.

(** *** POST /make-payment *)

Definition minAmount (env : Env) : Number :=
  or_else (parseFloat_opt (MIN_PAYMENT_AMOUNT env)) (num_of_Z 1).
Definition maxAmount (env : Env) : Number :=
  or_else (parseFloat_opt (MAX_PAYMENT_AMOUNT env)) (num_of_Z 100000).

Definition dailyLimit : Number := num_of_Z 50000.

(** *** Dates

    The time values and the calendar of the language, as its
    specification defines them; time values stay far inside their range,
    so that [TimeClip] changes nothing. *)
Definition msPerDay : Z := 86400000.

Definition Day (t : Z) : Z := t / msPerDay.
Definition TimeWithinDay (t : Z) : Z := t mod msPerDay.

Definition DaysInYear (y : Z) : Z :=
  if negb (y mod 4 =? 0) then 365
  else if negb (y mod 100 =? 0) then 366
  else if negb (y mod 400 =? 0) then 365
  else 366.

Definition DayFromYear (y : Z) : Z :=
  365 * (y - 1970) + (y - 1969) / 4 - (y - 1901) / 100 + (y - 1601) / 400.

(** The first year, from [y] upwards, whose successor starts after
    [day]. *)
Fixpoint yearUp (fuel : nat) (y day : Z) : Z :=
  match fuel with
  | O => y
  | S k => if DayFromYear (y + 1) <=? day then yearUp k (y + 1) day else y
  end.

(** The largest [y] with [TimeFromYear(y) <= t]: the search starts at a
    year that is not after it. *)
Definition YearFromTime (t : Z) : Z :=
  let day := Day t in
  yearUp (Z.to_nat (Z.abs day / 100000) + 2)
         (1970 + (if 0 <=? day then day / 366 else day / 365)) day.

Definition InLeapYear (t : Z) : Z :=
  if DaysInYear (YearFromTime t) =? 365 then 0 else 1.

Definition DayWithinYear (t : Z) : Z := Day t - DayFromYear (YearFromTime t).

(** The day of the year on which month [m] starts. *)
Definition monthStart (m leap : Z) : Z :=
  match m with
  | 0 => 0
  | 1 => 31
  | 2 => 59 + leap
  | 3 => 90 + leap
  | 4 => 120 + leap
  | 5 => 151 + leap
  | 6 => 181 + leap
  | 7 => 212 + leap
  | 8 => 243 + leap
  | 9 => 273 + leap
  | 10 => 304 + leap
  | _ => 334 + leap
  end.

Definition MonthFromTime (t : Z) : Z :=
  let d := DayWithinYear t in
  let leap := InLeapYear t in
  if d <? 31 then 0
  else if d <? 59 + leap then 1
  else if d <? 90 + leap then 2
  else if d <? 120 + leap then 3
  else if d <? 151 + leap then 4
  else if d <? 181 + leap then 5
  else if d <? 212 + leap then 6
  else if d <? 243 + leap then 7
  else if d <? 273 + leap then 8
  else if d <? 304 + leap then 9
  else if d <? 334 + leap then 10
  else 11.

Definition DateFromTime (t : Z) : Z :=
  DayWithinYear t - monthStart (MonthFromTime t) (InLeapYear t) + 1.

(** [MakeDay(year, month, date)]: the day number of the first of the
    month, plus [date - 1]. *)
Definition MakeDay (year month date : Z) : Z :=
  let ym := year + month / 12 in
  let mn := month mod 12 in
  DayFromYear ym
  + monthStart mn (if DaysInYear ym =? 365 then 0 else 1) + date - 1.

Definition MakeTime (hour min sec ms : Z) : Z :=
  hour * 3600000 + min * 60000 + sec * 1000 + ms.

Definition MakeDate (day time : Z) : Z := day * msPerDay + time.

(** [LocalTime(t)] and [UTC(t)] in the time zone of the host. *)
Definition LocalTime (env : Env) (t : Date) : Z := t + LocalTZA env t true.
Definition UTC (env : Env) (t : Z) : Date := t - LocalTZA env t false.

(** [d.setHours(hour, min, sec, ms)], [d.getDate()] and [d.setDate(date)] *)
Definition setHours (env : Env) (d : Date) (hour min sec ms : Z) : Date :=
  UTC env (MakeDate (Day (LocalTime env d)) (MakeTime hour min sec ms)).

Definition getDate (env : Env) (d : Date) : Z :=
  DateFromTime (LocalTime env d).

Definition setDate (env : Env) (d : Date) (date : Z) : Date :=
  let t := LocalTime env d in
  UTC env (MakeDate (MakeDay (YearFromTime t) (MonthFromTime t) date)
                    (TimeWithinDay t)).

(** [today = new Date(); today.setHours(0, 0, 0, 0)] and
    [tomorrow = new Date(today); tomorrow.setDate(tomorrow.getDate() + 1)] *)
Definition today (env : Env) : Date := setHours env (now env) 0 0 0 0.
Definition tomorrow (env : Env) : Date :=
  setDate env (today env) (getDate env (today env) + 1).

Definition countedStatus (s : Status) : bool :=
  match s with
  | PENDING | VERIFIED | PROCESSING | COMPLETED => true
  | REJECTED | CANCELLED => false
  end.

(** [Transaction.find({ userId, status: { $in: [...] },
                        createdAt: { $gte: today, $lt: tomorrow } })] *)
Definition todayTransactions (env : Env) (u : ObjectId) (st : Store)
  : list Transaction :=
  filter (fun tx => (userId tx =? u)%N && countedStatus (status tx)
                    && (today env <=? createdAt tx)
                    && (createdAt tx <? tomorrow env)) st.

(** [todayTransactions.reduce((sum, tx) => sum + parseFloat(tx.amount), 0)] *)
Definition todayTotal (env : Env) (u : ObjectId) (st : Store) : Number :=
  fold_left (fun sum tx => add sum (parseFloat_num (amount tx)))
            (todayTransactions env u st) (num_of_Z 0).

(** Calculate fees based on amount. *)
Definition calculateFees (amountNum : Number) : Number :=
  if le amountNum (num_of_Z 1000) then num_of_Z 15
  else if le amountNum (num_of_Z 10000) then num_of_Z 25
  else num_of_Z 50.

(** [swiftCode.trim().toUpperCase()] *)
Definition normalizeSwiftCode (swiftCode : string) : string :=
  toUpperCase (trim swiftCode).

Definition or_null (o : option string) : option string :=
  str_or o Some None.

Definition created_json (t : Transaction) : Json :=
  JObj [("success", JBool true);
        ("message", JStr "Payment transaction created successfully");
        ("data", JObj [("transaction", JObj [
           ("id", JId (_id t));
           ("amount", JNum (amount t));
           ("currency", jopt (currency t));
           ("provider", jopt (provider t));
           ("recipientName", jopt (recipientName t));
           ("recipientAccountNumber", jopt (recipientAccountNumber t));
           ("swiftCode", jopt (swiftCode t));
           ("recipientBankName", jopt (recipientBankName t));
           ("purpose", jopt (purpose t));
           ("reference", jopt (reference t));
           ("fees", JNum (fees t));
           ("totalAmount", jnum_opt (totalAmount t));
           ("status", JStr (status_name (status t)));
           ("verificationCode", jopt (verificationCode t));
           ("createdAt", JDate (createdAt t))])])]%string.

(** The object literal handed to [Transaction.create]. *)
Definition payment_fields (env : Env) (req : Request)
    (amountNum fees totalAmount : Number) (normalizedSwiftCode : string)
  : NewTransaction :=
  let b := body req in
  {| n_userId := user req;
     n_amount := amountNum;
     n_currency := b_currency b;
     n_provider := str_or (b_provider b) Some (Some "SWIFT"%string);
     n_recipientName := b_recipientName b;
     n_recipientAccountNumber := b_recipientAccountNumber b;
     (* Use normalized SWIFT code as bank code *)
     n_recipientBankCode := Some normalizedSwiftCode;
     n_swiftCode := Some normalizedSwiftCode;
     n_recipientBankName := b_recipientBankName b;
     n_recipientBankAddress := or_null (b_recipientBankAddress b);
     n_purpose := or_null (b_purpose b);
     n_reference := or_null (b_reference b);
     n_fees := fees;
     n_totalAmount := Some totalAmount;
     n_ipAddress := ip req;
     n_userAgent := user_agent req;
     n_metadata := Some {| m_userAgent := user_agent req;
                           m_ipAddress := ip req;
                           m_timestamp := now env |} |}.

Definition amountOutOfRange (env : Env) : Json :=
  JTemplate [Text "Amount must be between "; Interp (minAmount env);
             Text " and "; Interp (maxAmount env)].

Definition dailyLimitExceeded : Json :=
  JStr "Daily transaction limit exceeded".

Definition swiftRequired : Json := JStr "SWIFT code is required".

Definition swiftInvalid : Json :=
  JStr "Invalid SWIFT code format. Must be 8-11 characters: 6 letters followed by 2-5 alphanumeric characters".

Definition make_payment (env : Env) (req : Request) (st : Store)
  : Outcome * Store :=
  let b := body req in
  let userId := user req in
  (* Additional validation *)
  let amountNum := parseFloat_opt (b_amount b) in
  if lt amountNum (minAmount env) || gt amountNum (maxAmount env) then
    (failure 400 (amountOutOfRange env), st)
  else
  (* Check daily transaction limits *)
  if gt (add (todayTotal env userId st) amountNum) dailyLimit then
    (failure 400 dailyLimitExceeded, st)
  else
  (* Calculate fees based on amount and currency *)
  let fees := calculateFees amountNum in
  (* Calculate total amount (amount + fees) *)
  let totalAmount := add amountNum fees in
  (* Validate and normalize SWIFT code *)
  match b_swiftCode b with
  | None => (failure 400 swiftRequired, st)
  | Some swiftCode =>
    if falsy_str (Some swiftCode) then (failure 400 swiftRequired, st)
    else
    (* Normalize SWIFT code to uppercase *)
    let normalizedSwiftCode := normalizeSwiftCode swiftCode in
    (* Validate SWIFT code format *)
    if negb (swiftCodePattern normalizedSwiftCode) then
      (failure 400 swiftInvalid, st)
    else
    (* Create transaction *)
    match create env (payment_fields env req amountNum fees totalAmount
                                     normalizedSwiftCode) st with
    | inl e => (Throw e, st)
    | inr (transaction, st') =>
        (Respond {| code := 201; json := created_json transaction |}, st')
    end
  end.

(** *** GET /transactions/:id and PUT /transactions/:id/cancel *)

(** [Transaction.findOne({ _id: id, userId })] *)
Definition findOne (id u : ObjectId) (st : Store) : option Transaction :=
  find (fun t => (_id t =? id)%N && (userId t =? u)%N) st.

Definition notFound : Outcome :=
  failure 404 (JStr "Transaction not found").

(** A member whose value is [undefined] is left out of the answer. *)
Definition jmember {A} (k : string) (j : A -> Json) (o : option A)
  : list (string * Json) :=
  match o with
  | Some v => [(k, j v)]
  | None => []
  end.

Definition details_json (t : Transaction) : Json :=
  JObj [("success", JBool true);
        ("data", JObj [("transaction", JObj ([
           ("id", JId (_id t));
           ("amount", JNum (amount t));
           ("currency", jopt (currency t));
           ("provider", jopt (provider t));
           ("recipientName", jopt (recipientName t));
           ("recipientAccountNumber", jopt (recipientAccountNumber t));
           ("swiftCode", jopt (swiftCode t));
           ("recipientBankName", jopt (recipientBankName t));
           ("recipientBankAddress", jopt (recipientBankAddress t));
           ("purpose", jopt (purpose t));
           ("reference", jopt (reference t));
           ("fees", JNum (fees t));
           ("totalAmount", jnum_opt (totalAmount t));
           ("status", JStr (status_name (status t)));
           ("verificationCode", jopt (verificationCode t));
           ("createdAt", JDate (createdAt t));
           ("updatedAt", JDate (updatedAt t))]
           ++ jmember "verifiedAt" JDate (verifiedAt t)
           ++ jmember "processedAt" JDate (processedAt t)
           ++ jmember "completedAt" JDate (completedAt t)
           ++ jmember "rejectionReason" JStr (rejectionReason t)))])]%string.

Definition get_transaction (req : Request) (st : Store) : Outcome :=
  match findOne (param_id req) (user req) st with
  | None => notFound
  | Some transaction =>
      Respond {| code := 200; json := details_json transaction |}
  end.

Definition cancelled_json (t : Transaction) : Json :=
  JObj [("success", JBool true);
        ("message", JStr "Transaction cancelled successfully");
        ("data", JObj [("transaction", JObj [
           ("id", JId (_id t));
           ("status", JStr (status_name (status t)))])])]%string.

Definition cancel_transaction (env : Env) (req : Request) (st : Store)
  : Outcome * Store :=
  match findOne (param_id req) (user req) st with
  | None => (notFound, st)
  | Some transaction =>
      if negb (status_eqb (status transaction) PENDING) then
        (failure 400 (JStr "Only pending transactions can be cancelled"), st)
      else
        let (transaction', st') := markAsCancelled env transaction st in
        (Respond {| code := 200; json := cancelled_json transaction' |}, st')
  end.

End Payments.

(** ** [server/middleware/inputValidation.js] *)
Module InputValidation.
Import JS Model Payments.

(** What a validator returns: [{ isValid: false, error }] or
    [{ isValid: true, value, numericValue }]. *)
Inductive Checked :=
| Invalid (error : list Piece)
| Valid (value : string) (numericValue : option Number).

Section Validators.

(** The two third-party filters of [sanitizeInput]: [xss(input, options)]
    and [validator.escape]. *)
Variable xss : string -> string.
Variable escape : string -> string.

(** [input.replace(/[\0-\x1F\x7F]/g, '')] *)
Definition stripControl (s : string) : string :=
  str (filter (fun c => negb (between 0 31 c || (charCode c =? 127)%N))
              (chars s)).

Definition sanitizeInput (input : string) : string :=
  trim (escape (xss (stripControl input))).

Definition amountLimits_min (env : Env) : Number :=
  or_else (parseFloat_opt (MIN_PAYMENT_AMOUNT env)) (num_of_Z 1).
Definition amountLimits_max (env : Env) : Number :=
  or_else (parseFloat_opt (MAX_PAYMENT_AMOUNT env)) (num_of_Z 100000).

Definition validateSwiftCode (swiftCode : option string) : Checked :=
  match swiftCode with
  | None => Invalid [Text "SWIFT code is required"]
  | Some s =>
      if falsy_str swiftCode then Invalid [Text "SWIFT code is required"]
      else
        let sanitized := toUpperCase (sanitizeInput s) in
        if negb (swiftCodePattern sanitized) then
          Invalid [Text "SWIFT code must be 8-11 characters: 6 letters + 2-5 alphanumeric"]
        else Valid sanitized None
  end.

Definition validateAmount (env : Env) (amount : option string) : Checked :=
  match amount with
  | None => Invalid [Text "Amount is required"]
  | Some s =>
      if falsy_str amount then Invalid [Text "Amount is required"]
      else
        let sanitized := sanitizeInput s in
        if negb (amountPattern sanitized) then
          Invalid [Text "Amount must be a valid number with up to 2 decimal places"]
        else
          let numAmount := parseFloat sanitized in
          if lt numAmount (amountLimits_min env) then
            Invalid [Text "Minimum amount is ";
                     Interp (amountLimits_min env)]
          else if gt numAmount (amountLimits_max env) then
            Invalid [Text "Maximum amount is ";
                     Interp (amountLimits_max env)]
          else Valid sanitized (Some numAmount)
  end.

End Validators.

End InputValidation.

(** ** The life of the collection, and the words of the specification *)
Module Lifecycle.
Import JS Model Payments.

(** The collections that the operations can produce from the empty one:
    a creation, or one of the five instance methods on a stored
    transaction. *)
Inductive reachable : Store -> Prop :=
| reach_empty : reachable []
| reach_create env n st t st' :
    reachable st -> create env n st = inr (t, st') -> reachable st'
| reach_transition env tr t st :
    reachable st -> In t st ->
    reachable (snd (apply_transition env tr t st)).

(** What every save establishes: the amount and the fees are as the
    schema wants them and the total is their sum. *)
Definition doc_ok (t : Transaction) : Prop :=
  number_min amount_min (amount t) = true
  /\ number_min (num_of_Z 0) (fees t) = true
  /\ totalAmount t = Some (add (amount t) (fees t)).

(** The precondition the specification gives each transition:
    verify from PENDING, beginProcessing from VERIFIED, complete from
    PROCESSING, reject from PENDING or VERIFIED, cancel from PENDING. *)
Definition spec_precondition (tr : Transition) (s : Status) : bool :=
  match tr, s with
  | Verify, PENDING => true
  | BeginProcessing, VERIFIED => true
  | Complete, PROCESSING => true
  | Reject _, (PENDING | VERIFIED) => true
  | Cancel, PENDING => true
  | _, _ => false
  end.

(** The amount of a submission passes the range check of the route. *)
Definition amountInRange (env : Env) (req : Request) : bool :=
  let amountNum := parseFloat_opt (b_amount (body req)) in
  negb (lt amountNum (minAmount env) || gt amountNum (maxAmount env)).

(** The document a submission asks to create, once its SWIFT code [s] is
    known to be present. *)
Definition submitted (env : Env) (req : Request) (s : string) : Transaction :=
  let amountNum := parseFloat_opt (b_amount (body req)) in
  new_document env
    (payment_fields env req amountNum (calculateFees amountNum)
       (add amountNum (calculateFees amountNum)) (normalizeSwiftCode s)).

(** The checks of a submission other than the range and the daily limit:
    the SWIFT code is present and well formed, and the schema accepts the
    document. *)
Definition otherValidationsPass (env : Env) (req : Request) : bool :=
  match b_swiftCode (body req) with
  | Some s =>
      negb (falsy_str (Some s))
      && swiftCodePattern (normalizeSwiftCode s)
      && match validate (submitted env req s) with
         | [] => true
         | _ => false
         end
  | None => false
  end.

(** The UTC offset is [c] at the moment of the request and at both ends
    of its local day. *)
Definition steadyOffset (env : Env) (c : Z) : Prop :=
  let midnight := Day (LocalTime env (now env)) * msPerDay in
  LocalTZA env (now env) true = c /\ LocalTZA env midnight false = c
  /\ LocalTZA env (today env) true = c
  /\ LocalTZA env (midnight + msPerDay) false = c.

(** The sum as the specification words it: over the window
    [[midnight, midnight + 24h)]. *)
Definition total24h (env : Env) (u : ObjectId) (st : Store) : Number :=
  fold_left (fun sum tx => add sum (parseFloat_num (amount tx)))
    (filter (fun tx => (userId tx =? u)%N && countedStatus (status tx)
                       && (today env <=? createdAt tx)
                       && (createdAt tx <? today env + msPerDay)) st)
    (num_of_Z 0).

(** The content the specification gives a daily-limit rejection:
    [DailyLimitExceeded{limit, attempted, available}]. *)
Definition reports_limit (j : Json) : Prop :=
  exists l a v,
    field "limit" j = Some l /\ field "attempted" j = Some a
    /\ field "available" j = Some v.

(** The content the specification gives a validation failure: a list of
    (field, message) pairs. *)
Definition lists_fields (j : Json) : Prop :=
  exists d, field "details" j = Some d \/ field "fields" j = Some d.

End Lifecycle.

(** ** Sample data *)
Module Samples.
Import JS Model Payments.
Open Scope string_scope.

Definition env0 : Env :=
  {| now := 1700000000000; LocalTZA := fun _ _ => 7200000; objectId := 7%N;
     randomHex := "a1b2c3"; MIN_PAYMENT_AMOUNT := None;
     MAX_PAYMENT_AMOUNT := None |}.

Definition body_of (amount swiftCode recipientName : string) : PaymentBody :=
  {| b_amount := Some amount; b_currency := Some "USD";
     b_provider := None; b_recipientName := Some recipientName;
     b_recipientAccountNumber := Some "ABCD12345678";
     b_swiftCode := Some swiftCode;
     b_recipientBankName := Some "Chase Bank";
     b_recipientBankAddress := None; b_purpose := None;
     b_reference := None |}.

Definition request_of (u id : ObjectId) (b : PaymentBody) : Request :=
  {| user := u; body := b; param_id := id; ip := None;
     user_agent := None |}.

(** The end-to-end submission of the specification. *)
Definition req0 : Request :=
  request_of 1%N 0%N (body_of "500.00" "chasus33" "John Smith").

Definition req0_upper : Request :=
  request_of 1%N 0%N (body_of "500.00" "CHASUS33" "John Smith").

(** A stored transaction of user 1 with the given amount and status,
    created today. *)
Definition stored (id : ObjectId) (a : Number) (s : Status) : Transaction :=
  {| _id := id; userId := 1%N; amount := a; currency := Some "USD";
     provider := Some "SWIFT"; recipientName := Some "John Smith";
     recipientAccountNumber := Some "ABCD12345678";
     recipientBankCode := Some "CHASUS33"; swiftCode := Some "CHASUS33";
     recipientBankName := Some "Chase Bank"; recipientBankAddress := None;
     purpose := None; reference := None; status := s;
     exchangeRate := None; fees := num_of_Z 50;
     totalAmount := Some (add a (num_of_Z 50));
     verificationCode := Some "0A1B2C"; verifiedAt := None;
     processedAt := None; completedAt := None; rejectionReason := None;
     ipAddress := None; userAgent := None; metadata := None;
     createdAt := 1699999900000; updatedAt := 1699999900000 |}.

(** One PENDING transaction of 49,900.00 today. *)
Definition st_49900 : Store := [stored 3%N (num_of_Z 49900) PENDING].

Definition req_200 : Request :=
  request_of 1%N 0%N (body_of "200.00" "CHASUS33" "John Smith").

Definition req_100 : Request :=
  request_of 1%N 0%N (body_of "100.00" "CHASUS33" "John Smith").

Definition tx_completed : Transaction := stored 3%N (num_of_Z 500) COMPLETED.
Definition tx_pending : Transaction := stored 3%N (num_of_Z 500) PENDING.
Definition tx_verified : Transaction := stored 3%N (num_of_Z 500) VERIFIED.

(** A submission with three invalid fields: the amount is below the
    minimum, the SWIFT code is malformed and the name holds a digit. *)
Definition req_three_invalid : Request :=
  request_of 1%N 0%N (body_of "0.50" "bad" "J0hn").

(** A submission with a valid amount and two invalid fields. *)
Definition req_two_invalid : Request :=
  request_of 1%N 0%N (body_of "500.00" "bad" "J0hn").

(** A submission that passes the checks of the route and has two fields
    the schema refuses: the name and the account number. *)
Definition req_schema_invalid : Request :=
  request_of 1%N 0%N
    {| b_amount := Some "500.00"; b_currency := Some "USD";
       b_provider := None; b_recipientName := Some "J0hn";
       b_recipientAccountNumber := Some "12-34";
       b_swiftCode := Some "chasus33";
       b_recipientBankName := Some "Chase Bank";
       b_recipientBankAddress := None; b_purpose := None;
       b_reference := None |}.

(** The transaction of the end-to-end submission, and the collection
    after it was created and then verified. *)
Definition n0 : NewTransaction :=
  let a := parseFloat "500.00" in
  payment_fields env0 req0 a (calculateFees a) (add a (calculateFees a))
                 "CHASUS33".
Definition t0 : Transaction := pre_save env0 (new_document env0 n0).
Definition t1 : Transaction := fst (apply_transition env0 Verify t0 [t0]).
Definition st1 : Store := snd (apply_transition env0 Verify t0 [t0]).

(** One minute later. *)
Definition env_later : Env :=
  {| now := 1700000060000; LocalTZA := fun _ _ => 7200000; objectId := 8%N;
     randomHex := "d4e5f6"; MIN_PAYMENT_AMOUNT := None;
     MAX_PAYMENT_AMOUNT := None |}.

Definition req_too_large : Request :=
  request_of 1%N 0%N (body_of "100001.00" "CHASUS33" "John Smith").

(** A host on New York time on 5 November 2023, the day the clocks went
    back from UTC-4 to UTC-5 at 06:00 UTC (02:00 local): the moment is
    23:30 local time of that day.  Local times of the repeated hour are
    read as the earlier instant. *)
Definition env_clocks_back : Env :=
  {| now := 1699245000000;
     LocalTZA := fun t isUTC =>
                   if isUTC then
                     if (t <? 1699164000000)%Z then -14400000 else -18000000
                   else
                     if (t <? 1699149600000)%Z then -14400000 else -18000000;
     objectId := 7%N; randomHex := "a1b2c3"; MIN_PAYMENT_AMOUNT := None;
     MAX_PAYMENT_AMOUNT := None |}.

(** One PENDING transaction of 49,900.00 created at 23:20 local time of
    that day, 24 hours and 20 minutes after its midnight. *)
Definition st_late_evening : Store :=
  [{| _id := 3%N; userId := 1%N; amount := num_of_Z 49900;
      currency := Some "USD"; provider := Some "SWIFT";
      recipientName := Some "John Smith";
      recipientAccountNumber := Some "ABCD12345678";
      recipientBankCode := Some "CHASUS33"; swiftCode := Some "CHASUS33";
      recipientBankName := Some "Chase Bank"; recipientBankAddress := None;
      purpose := None; reference := None; status := PENDING;
      exchangeRate := None; fees := num_of_Z 50;
      totalAmount := Some (add (num_of_Z 49900) (num_of_Z 50));
      verificationCode := Some "0A1B2C"; verifiedAt := None;
      processedAt := None; completedAt := None; rejectionReason := None;
      ipAddress := None; userAgent := None; metadata := None;
      createdAt := 1699244400000; updatedAt := 1699244400000 |}].

End Samples.

(** ** [server/routes/payments.js], the other handlers *)
Module PaymentsMore.
Import JS Model Payments.

(** *** POST /validate-swift

    [inputValidation] is not a property of what the middleware module
    exports, so the test is the one of the pattern written in the route;
    [test] reads a missing code as the string ["undefined"]. *)
Definition validate_swift (req : Request) : Outcome :=
  let swiftCode := b_swiftCode (body req) in
  let isValid :=
    swiftCodePattern (match swiftCode with
                      | Some s => s
                      | None => "undefined"%string
                      end) in
  if negb isValid then failure 400 (JStr "Invalid SWIFT code format")
  else
    Respond {| code := 200;
               json := JObj [("success", JBool true);
                             ("data", JObj [
                                ("swiftCode", jopt swiftCode);
                                ("isValid", JBool true);
                                ("bankName", JStr "Mock Bank Name");
                                ("country", JStr "Mock Country");
                                ("city", JStr "Mock City")])]%string |}.

End PaymentsMore.

(** ** [server/middleware/inputValidation.js], the other validators *)
Module InputValidationMore.
Import JS Model Payments InputValidation.

(** *** The checksum of an ID number

    [Number(c)] for a one-character string: the digit, [0] for white
    space, [NaN] (here [None]) otherwise.  The sums are small integers,
    which binary64 arithmetic computes exactly. *)
Definition toNumber (c : ascii) : option Z :=
  if isDigit c then Some (Z.of_N (charCode c) - 48)
  else if isWhite c then Some 0
  else None.

Definition times2 (digit : option Z) : option Z :=
  match digit with
  | Some x => let y := x * 2 in Some (if 9 <? y then y - 9 else y)
  | None => None
  end.

Definition plus (a b : option Z) : option Z :=
  match a, b with
  | Some x, Some y => Some (x + y)
  | _, _ => None
  end.

(** The loop of [validateLuhn], over the digits from the last to the
    first. *)
Fixpoint luhnLoop (digits : list (option Z)) (sum : option Z) (isEven : bool)
  : option Z :=
  match digits with
  | [] => sum
  | digit :: rest =>
      luhnLoop rest (plus sum (if isEven then times2 digit else digit))
               (negb isEven)
  end.

(** [sum % 10 === 0] *)
Definition validateLuhn (number : string) : bool :=
  match luhnLoop (rev (map toNumber (chars number))) (Some 0) false with
  | Some sum => Z.rem sum 10 =? 0
  | None => false
  end.

(** [this.supportedCurrencies] *)
Definition supportedCurrencies : list string :=
  ["USD"; "EUR"; "GBP"; "ZAR"; "JPY"; "CAD"; "AUD"; "CHF"; "SEK"; "NOK"]%string.

Section Validators.

Variable xss : string -> string.
Variable escape : string -> string.

Definition validateIdNumber (idNumber : option string) : Checked :=
  match idNumber with
  | None => Invalid [Text "ID number is required"]
  | Some s =>
      if falsy_str idNumber then Invalid [Text "ID number is required"]
      else
        let sanitized := sanitizeInput xss escape s in
        if negb (match_class isDigit 13 13 sanitized) then
          Invalid [Text "ID number must be exactly 13 digits"]
        else if negb (validateLuhn sanitized) then
          Invalid [Text "Invalid ID number checksum"]
        else Valid sanitized None
  end.

Definition validateCurrency (currency : option string) : Checked :=
  match currency with
  | None => Invalid [Text "Currency is required"]
  | Some s =>
      if falsy_str currency then Invalid [Text "Currency is required"]
      else
        let sanitized := toUpperCase (sanitizeInput xss escape s) in
        if negb (match_class isUpper 3 3 sanitized) then
          Invalid [Text "Currency must be a 3-letter code"]
        else if negb (existsb (String.eqb sanitized) supportedCurrencies) then
          Invalid [Text "Currency not supported. Supported currencies: ";
                   Text (String.concat ", " supportedCurrencies)]
        else Valid sanitized None
  end.

(** The shape shared by the validators of a required field with one
    pattern. *)
Definition validateRequired (required_msg pattern_msg : string)
    (pattern : string -> bool) (input : option string) : Checked :=
  match input with
  | None => Invalid [Text required_msg]
  | Some s =>
      if falsy_str input then Invalid [Text required_msg]
      else
        let sanitized := sanitizeInput xss escape s in
        if negb (pattern sanitized) then Invalid [Text pattern_msg]
        else Valid sanitized None
  end.

Definition validateRecipientAccount : option string -> Checked :=
  validateRequired "Recipient account number is required"
    "Recipient account number must be 8-20 alphanumeric characters"
    (match_class isAlnum 8 20).

Definition validateRecipientName : option string -> Checked :=
  validateRequired "Recipient name is required"
    "Recipient name must be 3-50 characters and contain only letters and spaces"
    (match_class isAlphaOrWhite 3 50).

Definition validateBankName : option string -> Checked :=
  validateRequired "Bank name is required"
    "Bank name must be 3-100 characters and contain only letters and spaces"
    (match_class isAlphaOrWhite 3 100).

(** The shape shared by the validators of an optional field. *)
Definition validateOptional (pattern_msg : string)
    (pattern : string -> bool) (input : option string) : Checked :=
  match input with
  | None => Valid "" None
  | Some s =>
      if falsy_str input then Valid "" None
      else
        let sanitized := sanitizeInput xss escape s in
        if negb (pattern sanitized) then Invalid [Text pattern_msg]
        else Valid sanitized None
  end.

Definition validatePurpose : option string -> Checked :=
  validateOptional
    "Purpose must be 0-100 characters and contain only letters, numbers, and spaces"
    (match_class isAlnumOrWhite 0 100).

Definition validateReference : option string -> Checked :=
  validateOptional
    "Reference must be 0-50 characters and contain only letters and numbers"
    (match_class isAlnum 0 50).

End Validators.

End InputValidationMore.

(** ** [server/models/User.js] and the login route of [server/routes/auth.js] *)
Module Users.
Import JS Model Payments.

(** A user document.  [failedLoginAttempts] only ever holds a small
    natural number, which binary64 arithmetic handles exactly; it is kept
    as an integer. *)
Record User := mkUser {
  u_id : ObjectId;
  fullName : string;
  idNumber : string;
  accountNumber : string;
  username : string;
  passwordHash : string;
  salt : string;
  isActive : bool;
  lastLoginAt : option Date;
  passwordChangedAt : Date;
  failedLoginAttempts : Z;
  lockedUntil : option Date;
  twoFactorSecret : option string;
  twoFactorEnabled : bool;
  email : option string;
  phoneNumber : option string;
  u_createdAt : Date;
  u_updatedAt : Date
}.

Definition set_failedLoginAttempts (v : Z) (u : User) : User :=
  {| u_id := u_id u; fullName := fullName u; idNumber := idNumber u;
     accountNumber := accountNumber u; username := username u;
     passwordHash := passwordHash u; salt := salt u; isActive := isActive u;
     lastLoginAt := lastLoginAt u; passwordChangedAt := passwordChangedAt u;
     failedLoginAttempts := v; lockedUntil := lockedUntil u;
     twoFactorSecret := twoFactorSecret u;
     twoFactorEnabled := twoFactorEnabled u; email := email u;
     phoneNumber := phoneNumber u; u_createdAt := u_createdAt u;
     u_updatedAt := u_updatedAt u |}.

Definition set_lockedUntil (v : option Date) (u : User) : User :=
  {| u_id := u_id u; fullName := fullName u; idNumber := idNumber u;
     accountNumber := accountNumber u; username := username u;
     passwordHash := passwordHash u; salt := salt u; isActive := isActive u;
     lastLoginAt := lastLoginAt u; passwordChangedAt := passwordChangedAt u;
     failedLoginAttempts := failedLoginAttempts u; lockedUntil := v;
     twoFactorSecret := twoFactorSecret u;
     twoFactorEnabled := twoFactorEnabled u; email := email u;
     phoneNumber := phoneNumber u; u_createdAt := u_createdAt u;
     u_updatedAt := u_updatedAt u |}.

Definition set_lastLoginAt (v : option Date) (u : User) : User :=
  {| u_id := u_id u; fullName := fullName u; idNumber := idNumber u;
     accountNumber := accountNumber u; username := username u;
     passwordHash := passwordHash u; salt := salt u; isActive := isActive u;
     lastLoginAt := v; passwordChangedAt := passwordChangedAt u;
     failedLoginAttempts := failedLoginAttempts u;
     lockedUntil := lockedUntil u; twoFactorSecret := twoFactorSecret u;
     twoFactorEnabled := twoFactorEnabled u; email := email u;
     phoneNumber := phoneNumber u; u_createdAt := u_createdAt u;
     u_updatedAt := u_updatedAt u |}.

Definition set_u_updatedAt (v : Date) (u : User) : User :=
  {| u_id := u_id u; fullName := fullName u; idNumber := idNumber u;
     accountNumber := accountNumber u; username := username u;
     passwordHash := passwordHash u; salt := salt u; isActive := isActive u;
     lastLoginAt := lastLoginAt u; passwordChangedAt := passwordChangedAt u;
     failedLoginAttempts := failedLoginAttempts u;
     lockedUntil := lockedUntil u; twoFactorSecret := twoFactorSecret u;
     twoFactorEnabled := twoFactorEnabled u; email := email u;
     phoneNumber := phoneNumber u; u_createdAt := u_createdAt u;
     u_updatedAt := v |}.

Definition UserStore := list User.

(** The virtual [isAccountLocked]:
    [!!(this.lockedUntil && this.lockedUntil > Date.now())] *)
Definition isAccountLocked (env : Env) (u : User) : bool :=
  match lockedUntil u with
  | Some d => now env <? d
  | None => false
  end.

Fixpoint updateUser (u : User) (users : UserStore) : UserStore :=
  match users with
  | d :: r => if (u_id d =? u_id u)%N then u :: r else d :: updateUser u r
  | [] => []
  end.

(** [this.save()] when the password was not modified: the hook does
    nothing, [updatedAt] is stamped and the document is written back. *)
Definition saveUser (env : Env) (u : User) (users : UserStore)
  : User * UserStore :=
  let u' := set_u_updatedAt (now env) u in
  (u', updateUser u' users).

Definition maxAttempts : Z := 5.
Definition lockTime : Z := 15 * 60 * 1000.

Definition incrementFailedAttempts (env : Env) (u : User) (users : UserStore)
  : User * UserStore :=
  let u1 :=
    if (maxAttempts <=? failedLoginAttempts u + 1)
       && negb (isAccountLocked env u)
    then set_lockedUntil (Some (now env + lockTime)) u
    else u in
  saveUser env (set_failedLoginAttempts (failedLoginAttempts u1 + 1) u1) users.

Definition resetFailedAttempts (env : Env) (u : User) (users : UserStore)
  : User * UserStore :=
  saveUser env (set_lockedUntil None (set_failedLoginAttempts 0 u)) users.

Definition updateLastLogin (env : Env) (u : User) (users : UserStore)
  : User * UserStore :=
  saveUser env (set_lastLoginAt (Some (now env)) u) users.

(** Why [findByCredentials] throws. *)
Inductive CredentialsError :=
| InvalidCredentials
| AccountLocked.

Definition sameString (o : option string) (s : string) : bool :=
  match o with
  | Some x => String.eqb x s
  | None => false
  end.

(** The filter [{ username, accountNumber, isActive: true }]. *)
Definition credentials (un an : option string) (u : User) : bool :=
  sameString un (username u) && sameString an (accountNumber u)
  && isActive u.

(** [this.findOne({ username, accountNumber, isActive: true })], then the
    two checks. *)
Definition findByCredentials (env : Env) (un an : option string)
    (users : UserStore) : CredentialsError + User :=
  match find (credentials un an) users with
  | None => inl InvalidCredentials
  | Some user =>
      if isAccountLocked env user then inl AccountLocked else inr user
  end.

(** The body of a login request. *)
Record LoginBody := mkLoginBody {
  l_username : option string;
  l_accountNumber : option string;
  l_password : option string
}.

Section Login.

(** [argon2.verify(hash, plain)]: [None] when it throws. *)
Variable argon2_verify : string -> string -> option bool.
(** [generateToken] and [generateRefreshToken], which sign with the
    secret of the environment: [None] when [jwt.sign] throws. *)
Variable generateToken : ObjectId -> Date -> option string.
Variable generateRefreshToken : ObjectId -> Date -> option string.

(** [user.validatePassword(password)]; a missing password is
    concatenated as ["undefined"]. *)
Definition validatePassword (u : User) (password : option string)
  : option bool :=
  let plain := match password with
               | Some p => p
               | None => "undefined"%string
               end in
  argon2_verify (passwordHash u) (plain ++ salt u)%string.

Definition invalidCredentials : Outcome :=
  failure 401 (JStr "Invalid credentials").

Definition login_json (u : User) (token refreshToken : string) : Json :=
  JObj [("success", JBool true);
        ("message", JStr "Login successful");
        ("data", JObj [
           ("user", JObj [
              ("id", JId (u_id u));
              ("fullName", JStr (fullName u));
              ("username", JStr (username u));
              ("accountNumber", JStr (accountNumber u));
              ("email", jopt (email u));
              ("phoneNumber", jopt (phoneNumber u));
              ("lastLoginAt", jdate_opt (lastLoginAt u))]);
           ("token", JStr token);
           ("refreshToken", JStr refreshToken)])]%string.

(** POST /login.  Whatever is thrown inside is answered 401. *)
Definition login (env : Env) (b : LoginBody) (users : UserStore)
  : Outcome * UserStore :=
  (* Find user by credentials *)
  match findByCredentials env (l_username b) (l_accountNumber b) users with
  | inl _ => (invalidCredentials, users)
  | inr user =>
      (* Validate password *)
      match validatePassword user (l_password b) with
      | None => (invalidCredentials, users)
      | Some false =>
          (* Increment failed attempts *)
          let (_, users') := incrementFailedAttempts env user users in
          (invalidCredentials, users')
      | Some true =>
          (* Reset failed attempts on successful login *)
          let (user1, users1) := resetFailedAttempts env user users in
          let (user2, users2) := updateLastLogin env user1 users1 in
          (* Generate tokens *)
          match generateToken (u_id user2) (now env) with
          | None => (invalidCredentials, users2)
          | Some token =>
              match generateRefreshToken (u_id user2) (now env) with
              | None => (invalidCredentials, users2)
              | Some refreshToken =>
                  (Respond {| code := 200;
                              json := login_json user2 token refreshToken |},
                   users2)
              end
          end
      end
  end.

(** A series of login attempts with the same body, one at each of the
    given moments. *)
Definition attempts (b : LoginBody) (envs : list Env) (users : UserStore)
  : UserStore :=
  fold_left (fun us env => snd (login env b us)) envs users.

End Login.

End Users.

(** ** Regular expressions

    The patterns of the User schema have nested repetitions; they are
    written as terms and matched by derivatives.  [test r s] is
    [/^r$/.test(s)]. *)
Module Regex.
Import JS.

Inductive Re :=
| ReEmpty                       (* matches nothing *)
| ReEps                         (* the empty string *)
| ReClass (cls : ascii -> bool) (* one character of a class *)
| ReCat (a b : Re)
| ReAlt (a b : Re)
| ReStar (a : Re).

(** [a+], [a?], [a{n}], [a{0,n}], [a{lo,hi}] *)
Definition rePlus (a : Re) : Re := ReCat a (ReStar a).
Definition reOpt (a : Re) : Re := ReAlt a ReEps.
Fixpoint reTimes (n : nat) (a : Re) : Re :=
  match n with
  | O => ReEps
  | S k => ReCat a (reTimes k a)
  end.
Fixpoint reUpTo (n : nat) (a : Re) : Re :=
  match n with
  | O => ReEps
  | S k => reOpt (ReCat a (reUpTo k a))
  end.
Definition reRange (lo hi : nat) (a : Re) : Re :=
  ReCat (reTimes lo a) (reUpTo (hi - lo) a).

Fixpoint nullable (r : Re) : bool :=
  match r with
  | ReEmpty => false
  | ReEps => true
  | ReClass _ => false
  | ReCat a b => nullable a && nullable b
  | ReAlt a b => nullable a || nullable b
  | ReStar _ => true
  end.

(** Concatenation and alternation that drop what matches nothing. *)
Definition cat (a b : Re) : Re :=
  match a, b with
  | ReEmpty, _ => ReEmpty
  | _, ReEmpty => ReEmpty
  | ReEps, _ => b
  | _, _ => ReCat a b
  end.
Definition alt (a b : Re) : Re :=
  match a, b with
  | ReEmpty, _ => b
  | _, ReEmpty => a
  | _, _ => ReAlt a b
  end.

(** What [r] can still match after the character [c]. *)
Fixpoint deriv (c : ascii) (r : Re) : Re :=
  match r with
  | ReEmpty => ReEmpty
  | ReEps => ReEmpty
  | ReClass cls => if cls c then ReEps else ReEmpty
  | ReCat a b =>
      if nullable a then alt (cat (deriv c a) b) (deriv c b)
      else cat (deriv c a) b
  | ReAlt a b => alt (deriv c a) (deriv c b)
  | ReStar a => cat (deriv c a) (ReStar a)
  end.

Fixpoint matchesL (r : Re) (l : list ascii) : bool :=
  match l with
  | [] => nullable r
  | c :: l' => matchesL (deriv c r) l'
  end.

Definition test (r : Re) (s : string) : bool := matchesL r (chars s).

(** [\w] *)
Definition isWord (c : ascii) : bool := isAlnum c || (charCode c =? 95)%N.
Definition isChar (n : N) (c : ascii) : bool := (charCode c =? n)%N.

End Regex.

(** ** [server/models/User.js], creation, and POST /register *)
Module Registration.
Import JS Model Payments Users Regex.

(** [/^\w+([.-]?\w+)*@\w+([.-]?\w+)*(\.\w{2,3})+$/] *)
Definition emailPattern : Re :=
  let word := ReClass isWord in
  let words :=
    ReCat (rePlus word)
          (ReStar (ReCat (reOpt (ReClass (fun c => isChar 46 c || isChar 45 c)))
                         (rePlus word))) in
  ReCat words
    (ReCat (ReClass (isChar 64))
       (ReCat words
          (rePlus (ReCat (ReClass (isChar 46)) (reRange 2 3 word))))).

(** [/^[\+]?[1-9][\d]{0,15}$/] *)
Definition phonePattern : Re :=
  ReCat (reOpt (ReClass (isChar 43)))
    (ReCat (ReClass (between 49 57)) (reRange 0 15 (ReClass isDigit))).

(** [/^[a-zA-Z0-9_-]{3,30}$/] *)
Definition isUsernameChar (c : ascii) : bool := isWord c || isChar 45 c.

(** The fields handed to [User.create] by the register route. *)
Record NewUser := mkNewUser {
  n_fullName : option string;
  n_idNumber : option string;
  n_accountNumber : option string;
  n_username : option string;
  n_passwordHash : option string;
  n_email : option string;
  n_phoneNumber : option string
}.

(** The setter [trim: true] of [fullName]. *)
Definition trimmed (o : option string) : option string :=
  match o with
  | Some s => Some (trim s)
  | None => None
  end.

(** A custom validator [!v || pattern.test(v)]. *)
Definition emptyOr (r : Re) (o : option string) : bool :=
  match o with
  | Some s => if falsy_str o then true else test r s
  | None => true
  end.

(** The paths that fail validation, in the order of the schema. *)
Definition validateUser (n : NewUser) : list string :=
  (check "fullName"
     (required (trimmed (n_fullName n))
      && minlength 3 (trimmed (n_fullName n))
      && maxlength 50 (trimmed (n_fullName n))
      && matches (match_class isAlphaOrWhite 3 50) (trimmed (n_fullName n)))
   ++ check "idNumber"
        (required (n_idNumber n)
         && matches (match_class isDigit 13 13) (n_idNumber n))
   ++ check "accountNumber"
        (required (n_accountNumber n)
         && matches (match_class isDigit 10 12) (n_accountNumber n))
   ++ check "username"
        (required (n_username n) && minlength 3 (n_username n)
         && maxlength 30 (n_username n)
         && matches (match_class isUsernameChar 3 30) (n_username n))
   ++ check "passwordHash" (required (n_passwordHash n))
   ++ check "email" (emptyOr emailPattern (n_email n))
   ++ check "phoneNumber" (emptyOr phonePattern (n_phoneNumber n)))%list.

Inductive CreateError :=
| UserValidationError (paths : list string)
| HashError
| DuplicateKey.

Definition text (o : option string) : string :=
  match o with Some s => s | None => ""%string end.

(** One of the three unique indexes has the value already. *)
Definition clashes (n : NewUser) (u : User) : bool :=
  String.eqb (text (n_idNumber n)) (idNumber u)
  || String.eqb (text (n_accountNumber n)) (accountNumber u)
  || String.eqb (text (n_username n)) (username u).

Section Register.

(** [argon2.hash(plain, options)], which draws random bytes of its own:
    [None] when it throws. *)
Variable argon2_hash : string -> string -> option string.
Variable generateToken : ObjectId -> Date -> option string.
Variable generateRefreshToken : ObjectId -> Date -> option string.

(** [User.create(n)]: the document is validated; the hook draws the salt
    [randomSalt], hashes the password with it ([argon2.hash] drawing
    [randomBytes]) and stamps [passwordChangedAt]; the document is
    inserted unless a unique index refuses it. *)
Definition createUser (env : Env) (randomSalt randomBytes : string)
    (n : NewUser) (users : UserStore) : CreateError + User * UserStore :=
  match validateUser n with
  | _ :: _ as paths => inl (UserValidationError paths)
  | [] =>
      match argon2_hash randomBytes
              (text (n_passwordHash n) ++ randomSalt)%string with
      | None => inl HashError
      | Some hash =>
          if existsb (clashes n) users then inl DuplicateKey
          else
            let u :=
              {| u_id := objectId env;
                 fullName := text (trimmed (n_fullName n));
                 idNumber := text (n_idNumber n);
                 accountNumber := text (n_accountNumber n);
                 username := text (n_username n);
                 passwordHash := hash; salt := randomSalt;
                 isActive := true; lastLoginAt := None;
                 passwordChangedAt := now env;
                 failedLoginAttempts := 0; lockedUntil := None;
                 twoFactorSecret := None; twoFactorEnabled := false;
                 email := n_email n; phoneNumber := n_phoneNumber n;
                 u_createdAt := now env; u_updatedAt := now env |} in
            inr (u, users ++ [u])
      end
  end.

Record RegisterBody := mkRegisterBody {
  r_fullName : option string;
  r_idNumber : option string;
  r_accountNumber : option string;
  r_username : option string;
  r_password : option string;
  r_passwordHash : option string;
  r_email : option string;
  r_phoneNumber : option string
}.

(** [passwordHash || password] *)
Definition userPassword (b : RegisterBody) : option string :=
  if falsy_str (r_passwordHash b) then r_password b else r_passwordHash b.

(** [{ $or: [{ idNumber }, { accountNumber }, { username }] }] *)
Definition existing (b : RegisterBody) (u : User) : bool :=
  sameString (r_idNumber b) (idNumber u)
  || sameString (r_accountNumber b) (accountNumber u)
  || sameString (r_username b) (username u).

Definition registered_json (u : User) (token refreshToken : string) : Json :=
  JObj [("success", JBool true);
        ("message", JStr "User registered successfully");
        ("data", JObj [
           ("user", JObj [
              ("id", JId (u_id u));
              ("fullName", JStr (fullName u));
              ("username", JStr (username u));
              ("accountNumber", JStr (accountNumber u));
              ("email", jopt (email u));
              ("phoneNumber", jopt (phoneNumber u));
              ("createdAt", JDate (u_createdAt u))]);
           ("token", JStr token);
           ("refreshToken", JStr refreshToken)])]%string.

(** How the handler ends: it answers, or signing a token throws and the
    error goes to [next]. *)
Inductive RegisterOutcome :=
| Answered (r : Response)
| SigningThrew.

(** POST /register, outside development (the answer to a failed creation
    then carries no [details]). *)
Definition register (env : Env) (randomSalt randomBytes : string)
    (b : RegisterBody) (users : UserStore) : RegisterOutcome * UserStore :=
  (* Check if user already exists *)
  match find (existing b) users with
  | Some _ =>
      (Answered {| code := 400;
                   json := JObj [("success", JBool false);
                                 ("error", JStr "User already exists with this ID number, account number, or username")]%string |},
       users)
  | None =>
      (* Create new user *)
      match createUser env randomSalt randomBytes
              {| n_fullName := r_fullName b; n_idNumber := r_idNumber b;
                 n_accountNumber := r_accountNumber b;
                 n_username := r_username b;
                 n_passwordHash := userPassword b;
                 n_email := or_null (r_email b);
                 n_phoneNumber := or_null (r_phoneNumber b) |} users with
      | inl _ =>
          (Answered {| code := 400;
                       json := JObj [("success", JBool false);
                                     ("error", JStr "Registration failed. Please check your input data.")]%string |},
           users)
      | inr (user, users') =>
          (* Generate tokens *)
          match generateToken (u_id user) (now env),
                generateRefreshToken (u_id user) (now env) with
          | Some token, Some refreshToken =>
              (Answered {| code := 201;
                           json := registered_json user token refreshToken |},
               users')
          | _, _ => (SigningThrew, users')
          end
      end
  end.

End Register.

(** No two users share a username, an ID number or an account number. *)
Definition distinctUsers (users : UserStore) : Prop :=
  NoDup (map username users) /\ NoDup (map idNumber users)
  /\ NoDup (map accountNumber users).

(** What identifies a user and lets them in. *)
Definition identity (u : User)
  : ObjectId * string * string * string * string * string * string * bool :=
  (u_id u, fullName u, idNumber u, accountNumber u, username u,
   passwordHash u, salt u, isActive u).

(** The characters an email address of the schema is made of. *)
Definition isEmailChar (c : ascii) : bool :=
  isWord c || isChar 46 c || isChar 45 c || isChar 64 c.

(** Every character class of [r] lies within [P]. *)
Fixpoint within (P : ascii -> bool) (r : Re) : Prop :=
  match r with
  | ReEmpty | ReEps => True
  | ReClass cls => forall c, cls c = true -> P c = true
  | ReCat a b | ReAlt a b => within P a /\ within P b
  | ReStar a => within P a
  end.

End Registration.

(** ** [server/middleware/inputValidation.js]: the fields of a user *)
Module UserValidation.
Import JS Model Payments InputValidation InputValidationMore Regex Registration.

Definition lowerChar (c : ascii) : ascii :=
  if isUpper c then ascii_of_N (charCode c + 32) else c.

(** [s.toLowerCase()], for a string of ASCII characters, which is what
    has passed the pattern of a username. *)
Definition toLowerCase (s : string) : string := str (map lowerChar (chars s)).

Definition isLineTerminator (c : ascii) : bool := isChar 10 c || isChar 13 c.

(** [/(.)\1{3,}/]: some character other than a line terminator, four
    times in a row. *)
Fixpoint repeated4 (l : list ascii) : bool :=
  match l with
  | [] => false
  | a :: r =>
      match r with
      | b :: c :: d :: _ =>
          negb (isLineTerminator a) && Ascii.eqb a b && Ascii.eqb a c
          && Ascii.eqb a d
      | _ => false
      end || repeated4 r
  end.

Definition startsWith (c : ascii) (s : string) : bool :=
  match chars s with
  | x :: _ => Ascii.eqb x c
  | [] => false
  end.

Definition endsWith (c : ascii) (s : string) : bool :=
  match rev (chars s) with
  | x :: _ => Ascii.eqb x c
  | [] => false
  end.

Definition reservedUsernames : list string :=
  ["admin"; "administrator"; "root"; "user"; "guest"; "test"; "api";
   "www"; "mail"; "ftp"; "support"; "help"; "info"; "contact";
   "about"; "privacy"; "terms"; "login"; "logout"; "register";
   "password"; "reset"; "forgot"; "account"; "profile"; "settings";
   "payment"; "transaction"; "bank"; "swift"]%string.

Section Validators.

Variable xss : string -> string.
Variable escape : string -> string.

Definition validateFullName (name : option string) : Checked :=
  match name with
  | None => Invalid [Text "Full name is required"]
  | Some s =>
      if falsy_str name then Invalid [Text "Full name is required"]
      else
        let sanitized := sanitizeInput xss escape s in
        if negb (match_class isAlphaOrWhite 3 50 sanitized) then
          Invalid [Text "Full name must be 3-50 characters long and contain only letters and spaces"]
        (* Check for suspicious patterns *)
        else if repeated4 (chars sanitized) then
          Invalid [Text "Full name contains repeated characters"]
        else Valid sanitized None
  end.

Definition validateAccountNumber : option string -> Checked :=
  validateRequired xss escape "Account number is required"
    "Account number must be 10-12 digits" (match_class isDigit 10 12).

Definition validateUsername (username : option string) : Checked :=
  match username with
  | None => Invalid [Text "Username is required"]
  | Some s =>
      if falsy_str username then Invalid [Text "Username is required"]
      else
        let sanitized := sanitizeInput xss escape s in
        if negb (match_class isUsernameChar 3 30 sanitized) then
          Invalid [Text "Username must be 3-30 characters and contain only letters, numbers, underscores, and hyphens"]
        (* Cannot start or end with special characters *)
        else if startsWith "_" sanitized || startsWith "-" sanitized
                || endsWith "_" sanitized || endsWith "-" sanitized then
          Invalid [Text "Username cannot start or end with underscore or hyphen"]
        (* Check for reserved usernames *)
        else if existsb (String.eqb (toLowerCase sanitized))
                        reservedUsernames then
          Invalid [Text "This username is reserved"]
        else Valid sanitized None
  end.

Definition validatePhoneNumber : option string -> Checked :=
  validateRequired xss escape "Phone number is required"
    "Invalid phone number format" (test phonePattern).

End Validators.

End UserValidation.

(** ** Sample users *)
Module UserSamples.
Import JS Model Payments Users.
Open Scope string_scope.

(** A stand-in for [argon2.verify]: the hash is the plain text itself. *)
Definition verify0 (hash plain : string) : option bool :=
  Some (String.eqb hash plain).

Definition sign0 (id : ObjectId) (d : Date) : option string := Some "token".

Definition alice : User :=
  {| u_id := 1%N; fullName := "Alice Example"; idNumber := "8001015009087";
     accountNumber := "1234567890"; username := "alice";
     passwordHash := "Correct#Horse9salt"; salt := "salt"; isActive := true;
     lastLoginAt := None; passwordChangedAt := 1690000000000;
     failedLoginAttempts := 0; lockedUntil := None;
     twoFactorSecret := None; twoFactorEnabled := false; email := None;
     phoneNumber := None; u_createdAt := 1690000000000;
     u_updatedAt := 1690000000000 |}.

Definition users0 : UserStore := [alice].

Definition wrong : LoginBody :=
  {| l_username := Some "alice"; l_accountNumber := Some "1234567890";
     l_password := Some "guess" |}.

Definition right : LoginBody :=
  {| l_username := Some "alice"; l_accountNumber := Some "1234567890";
     l_password := Some "Correct#Horse9" |}.

Definition at_time (t : Date) : Env :=
  {| now := t; LocalTZA := fun _ _ => 7200000; objectId := 9%N; randomHex := "a1b2c3";
     MIN_PAYMENT_AMOUNT := None; MAX_PAYMENT_AMOUNT := None |}.

(** Five attempts, one minute apart. *)
Definition five_times : list Env :=
  [at_time 1700000000000; at_time 1700000060000; at_time 1700000120000;
   at_time 1700000180000; at_time 1700000240000].

(** Alice with five failures on record and a lock that has expired. *)
Definition alice_after_lock : User :=
  set_lockedUntil (Some 1699990000000) (set_failedLoginAttempts 5 alice).

End UserSamples.

(** ** Sample registrations *)
Module RegistrationSamples.
Import JS Model Payments Users Registration.
Open Scope string_scope.

(** A stand-in for [argon2.hash] that agrees with [UserSamples.verify0]. *)
Definition hash0 (randomBytes plain : string) : option string := Some plain.

Definition bob : RegisterBody :=
  {| r_fullName := Some " Bob Builder "; r_idNumber := Some "9202204720082";
     r_accountNumber := Some "9876543210"; r_username := Some "bob_b";
     r_password := Some "Strong#Pass7"; r_passwordHash := None;
     r_email := Some "bob.builder@example.co.za"; r_phoneNumber := None |}.

(** The same registration with a tagged address. *)
Definition bob_tagged : RegisterBody :=
  {| r_fullName := Some " Bob Builder "; r_idNumber := Some "9202204720082";
     r_accountNumber := Some "9876543210"; r_username := Some "bob_b";
     r_password := Some "Strong#Pass7"; r_passwordHash := None;
     r_email := Some "bob+bank@example.com"; r_phoneNumber := None |}.

(** Filters that find nothing to change. *)
Definition plain (s : string) : string := s.

Definition carol : RegisterBody :=
  {| r_fullName := Some "Carol Danvers";
     r_idNumber := Some "9202204720083";
     r_accountNumber := Some "55501234567"; r_username := Some "carol-d";
     r_password := Some "Strong#Pass7"; r_passwordHash := None;
     r_email := Some "carol@example.com";
     r_phoneNumber := Some "+27821234567" |}.

End RegistrationSamples.

(** * Properties *)

Import JS Model Payments Lifecycle.

(** ** Numbers *)
Section NumberFacts.

Lemma SFcompare_antisym (x y : Number) :
  SFcompare y x = option_map CompOpp (SFcompare x y).
Proof.
  destruct x as [sx|sx| |sx mx ex], y as [sy|sy| |sy my ey]; simpl;
    try reflexivity;
    try (destruct sx; reflexivity); try (destruct sy; reflexivity);
    try (destruct sx, sy; reflexivity).
  change (Pos.compare_cont Eq my mx) with (Pos.compare my mx).
  change (Pos.compare_cont Eq mx my) with (Pos.compare mx my).
  rewrite (Z.compare_antisym ex ey), (Pos.compare_antisym mx my).
  destruct sx, sy; simpl; try reflexivity;
    destruct (ex ?= ey); simpl; try reflexivity;
    destruct (mx ?= my)%positive; reflexivity.
Qed.

Lemma lt_not_ge (x y : Number) : lt x y = true -> le y x = false.
Proof.
  unfold lt, le, SFltb, SFleb. rewrite (SFcompare_antisym x y).
  destruct (SFcompare x y) as [[]|]; simpl; congruence.
Qed.

Lemma le_not_gt (x y : Number) : le x y = true -> gt x y = false.
Proof.
  unfold gt, le, SFltb, SFleb. rewrite (SFcompare_antisym x y).
  destruct (SFcompare x y) as [[]|]; simpl; congruence.
Qed.

(** What the hook computes is the sum of the stored amount and fees, for
    every amount and every fee the schema accepts. *)
Lemma hook_total (a f : Number) :
  number_min amount_min a = true -> number_min (num_of_Z 0) f = true ->
  add (parseFloat_num a) (parseFloat_num (or_else f (num_of_Z 0))) = add a f.
Proof.
  unfold number_min, ge, le.
  destruct a as [sa|sa| |sa ma ea]; try (vm_compute; discriminate);
    destruct f as [sf|sf| |sf mf ef]; try (vm_compute; discriminate);
    intros Ha Hf; reflexivity.
Qed.

Lemma calculateFees_valid (a : Number) :
  number_min (num_of_Z 0) (calculateFees a) = true.
Proof.
  unfold calculateFees.
  destruct (le a (num_of_Z 1000)); [reflexivity|].
  destruct (le a (num_of_Z 10000)); reflexivity.
Qed.

End NumberFacts.

(** ** The model *)
Section ModelFacts.

Lemma check_nil (path : string) (ok : bool) : check path ok = [] -> ok = true.
Proof. destruct ok; [reflexivity | discriminate]. Qed.

Lemma validate_numbers (t : Transaction) :
  validate t = [] ->
  number_min amount_min (amount t) = true
  /\ number_min (num_of_Z 0) (fees t) = true.
Proof.
  unfold validate. intros H.
  apply app_eq_nil in H as [Ha H]. apply check_nil in Ha.
  apply andb_true_iff in Ha as [Ha _].
  do 11 (apply app_eq_nil in H as [_ H]).
  apply app_eq_nil in H as [Hf _]. apply check_nil in Hf.
  split; assumption.
Qed.

(** The hook touches [totalAmount] and [verificationCode] only. *)
Lemma pre_save_fields (env : Env) (t : Transaction) :
  let t' := pre_save env t in
  _id t' = _id t /\ userId t' = userId t /\ amount t' = amount t
  /\ fees t' = fees t /\ status t' = status t
  /\ swiftCode t' = swiftCode t /\ createdAt t' = createdAt t
  /\ totalAmount t' =
     Some (add (parseFloat_num (amount t))
               (parseFloat_num (or_else (fees t) (num_of_Z 0)))).
Proof.
  unfold pre_save. destruct (falsy_str _); simpl; repeat split.
Qed.

Lemma pre_save_ok (env : Env) (t : Transaction) :
  number_min amount_min (amount t) = true ->
  number_min (num_of_Z 0) (fees t) = true ->
  doc_ok (pre_save env t).
Proof.
  intros Ha Hf.
  destruct (pre_save_fields env t) as (_ & _ & Ea & Ef & _ & _ & _ & Et).
  unfold doc_ok. rewrite Ea, Ef, Et, (hook_total _ _ Ha Hf). auto.
Qed.

Lemma save_ok (env : Env) (t0 t : Transaction) (st : Store) :
  number_min amount_min (amount t) = true ->
  number_min (num_of_Z 0) (fees t) = true ->
  doc_ok (fst (save env t0 t st)).
Proof.
  intros Ha Hf. unfold save. cbn [fst].
  destruct (isModified t0 t); apply pre_save_ok; assumption.
Qed.

Lemma updateOne_Forall (P : Transaction -> Prop) (t : Transaction) (st : Store) :
  P t -> Forall P st -> Forall P (updateOne t st).
Proof.
  intros Pt H. induction H as [|d r Pd Hr IH]; simpl; [constructor|].
  destruct (_id d =? _id t)%N; constructor; assumption.
Qed.

Lemma create_ok (env : Env) (n : NewTransaction) (st st' : Store)
    (t : Transaction) :
  create env n st = inr (t, st') ->
  t = pre_save env (new_document env n)
  /\ validate (new_document env n) = [] /\ st' = st ++ [t].
Proof.
  unfold create. destruct (validate (new_document env n)) eqn:V;
    [|discriminate].
  intros H; inversion H; subst. auto.
Qed.

Lemma transition_ok (env : Env) (tr : Transition) (t : Transaction)
    (st : Store) :
  doc_ok t -> doc_ok (fst (apply_transition env tr t st)).
Proof.
  intros (A & F & _).
  destruct tr;
    cbv [apply_transition markAsVerified markAsProcessing markAsCompleted
         markAsRejected markAsCancelled];
    apply save_ok; simpl; assumption.
Qed.

Lemma transition_store (env : Env) (tr : Transition) (t : Transaction)
    (st : Store) :
  snd (apply_transition env tr t st)
  = updateOne (fst (apply_transition env tr t st)) st.
Proof. destruct tr; reflexivity. Qed.

Lemma reachable_ok (st : Store) : reachable st -> Forall doc_ok st.
Proof.
  induction 1 as [|env n st t st' _ IH Hc|env tr t st _ IH Hin].
  - constructor.
  - apply create_ok in Hc as (-> & V & ->).
    apply Forall_app; split; [assumption|].
    constructor; [|constructor].
    apply validate_numbers in V as [Ha Hf]. now apply pre_save_ok.
  - rewrite transition_store. apply updateOne_Forall; [|assumption].
    apply transition_ok. rewrite Forall_forall in IH. now apply IH.
Qed.

End ModelFacts.

(** C1.  In every collection the operations can produce — after each
    creation and after each of [markAsVerified], [markAsProcessing],
    [markAsCompleted], [markAsRejected] and [markAsCancelled], all of which
    save — the stored [totalAmount] of every transaction is the sum of its
    [amount] and its [fees]. *)
Theorem total_is_amount_plus_fees (st : Store) :
  reachable st ->
  forall t, In t st -> totalAmount t = Some (add (amount t) (fees t)).
Proof.
  intros R t Hin. apply reachable_ok in R.
  rewrite Forall_forall in R. now destruct (R t Hin) as (_ & _ & T).
Qed.

Lemma total_is_amount_plus_fees_witness :
  reachable Samples.st1 /\ In Samples.t1 Samples.st1
  /\ totalAmount Samples.t1
     = Some (add (amount Samples.t1) (fees Samples.t1)).
Proof.
  assert (R : reachable Samples.st1).
  { apply (reach_transition Samples.env0 Verify Samples.t0 [Samples.t0]).
    - apply (reach_create Samples.env0 Samples.n0 [] Samples.t0 [Samples.t0]).
      + constructor.
      + vm_compute. reflexivity.
    - left. reflexivity. }
  assert (I : In Samples.t1 Samples.st1) by (left; vm_compute; reflexivity).
  split; [exact R|]. split; [exact I|].
  exact (total_is_amount_plus_fees Samples.st1 R Samples.t1 I).
Defined.

(** ** The payment route *)
Section RouteFacts.

Lemma failure_code (c : Z) (e : Json) (r : Response) :
  failure c e = Respond r -> code r = c.
Proof. unfold failure. intros H; inversion H; reflexivity. Qed.

(** A refusal does not answer 201. *)
Ltac refused H Hc :=
  unfold failure in H; inversion H; subst; simpl in Hc; discriminate.

(** A submission answered with 201 went through every check, and the new
    document was appended to the collection. *)
Lemma make_payment_created (env : Env) (req : Request) (st st' : Store)
    (r : Response) :
  make_payment env req st = (Respond r, st') -> code r = 201 ->
  exists s,
    b_swiftCode (body req) = Some s
    /\ amountInRange env req = true
    /\ gt (add (todayTotal env (user req) st)
               (parseFloat_opt (b_amount (body req)))) dailyLimit = false
    /\ swiftCodePattern (normalizeSwiftCode s) = true
    /\ validate (submitted env req s) = []
    /\ st' = st ++ [pre_save env (submitted env req s)]
    /\ r = {| code := 201;
              json := created_json (pre_save env (submitted env req s)) |}.
Proof.
  unfold make_payment, amountInRange. intros H Hc.
  destruct (lt _ _ || gt _ _) eqn:R.
  { refused H Hc. }
  destruct (gt _ dailyLimit) eqn:L.
  { refused H Hc. }
  destruct (b_swiftCode (body req)) as [s|] eqn:S.
  2:{ refused H Hc. }
  destruct (falsy_str (Some s)) eqn:F.
  { refused H Hc. }
  destruct (swiftCodePattern (normalizeSwiftCode s)) eqn:P; simpl in H.
  2:{ refused H Hc. }
  destruct (create env _ st) as [e|[t st2]] eqn:C; [discriminate|].
  apply create_ok in C as (Et & V & Es).
  inversion H; subst. exists s. unfold submitted. auto 10.
Qed.

(** The fields of the document a successful submission creates. *)
Lemma submitted_fields (env : Env) (req : Request) (s : string) :
  let a := parseFloat_opt (b_amount (body req)) in
  let t := pre_save env (submitted env req s) in
  validate (submitted env req s) = [] ->
  userId t = user req /\ amount t = a /\ fees t = calculateFees a
  /\ totalAmount t = Some (add a (calculateFees a))
  /\ status t = PENDING /\ swiftCode t = Some (normalizeSwiftCode s)
  /\ createdAt t = now env.
Proof.
  intros a t V.
  destruct (pre_save_fields env (submitted env req s))
    as (_ & Eu & Ea & Ef & Es & Ew & Ec & Et).
  apply validate_numbers in V as [Ha Hf].
  fold t in Eu, Ea, Ef, Es, Ew, Ec, Et.
  rewrite (hook_total _ _ Ha Hf) in Et.
  rewrite Eu, Ea, Ef, Es, Ew, Ec, Et. simpl. auto 10.
Qed.

Lemma make_payment_accepts (env : Env) (req : Request) (st : Store) :
  amountInRange env req = true ->
  gt (add (todayTotal env (user req) st)
          (parseFloat_opt (b_amount (body req)))) dailyLimit = false ->
  otherValidationsPass env req = true ->
  exists s,
    b_swiftCode (body req) = Some s
    /\ validate (submitted env req s) = []
    /\ make_payment env req st
       = (Respond {| code := 201;
                     json := created_json (pre_save env (submitted env req s)) |},
          st ++ [pre_save env (submitted env req s)]).
Proof.
  unfold amountInRange, otherValidationsPass, make_payment.
  intros R L O. apply negb_true_iff in R. rewrite R, L.
  destruct (b_swiftCode (body req)) as [s|]; [|discriminate].
  apply andb_true_iff in O as [O V]. apply andb_true_iff in O as [F P].
  apply negb_true_iff in F. rewrite F, P. simpl.
  exists s. unfold create. fold (submitted env req s).
  destruct (validate (submitted env req s)); [|discriminate]. auto.
Qed.

End RouteFacts.

(** ** Fees *)
Section FeeFacts.

Lemma le_1000_10000 (a : Number) :
  le a (num_of_Z 1000) = true -> le a (num_of_Z 10000) = true.
Proof.
  unfold le, SFleb.
  let c := eval vm_compute in (num_of_Z 1000) in
    change (num_of_Z 1000) with c.
  let c := eval vm_compute in (num_of_Z 10000) in
    change (num_of_Z 10000) with c.
  destruct a as [s|s| |s m e].
  - reflexivity.
  - destruct s; simpl; congruence.
  - simpl; congruence.
  - cbv [SFcompare]. destruct s; [reflexivity|].
    destruct (Z.compare_spec e (-43)); destruct (Z.compare_spec e (-39));
      try lia; congruence.
Qed.

Lemma fees_low (a : Number) :
  le a (num_of_Z 1000) = true -> calculateFees a = num_of_Z 15.
Proof. unfold calculateFees. now intros ->. Qed.

Lemma fees_middle (a : Number) :
  lt (num_of_Z 1000) a = true -> le a (num_of_Z 10000) = true ->
  calculateFees a = num_of_Z 25.
Proof.
  unfold calculateFees. intros L H. now rewrite (lt_not_ge _ _ L), H.
Qed.

Lemma fees_high (a : Number) :
  gt a (num_of_Z 10000) = true -> calculateFees a = num_of_Z 50.
Proof.
  unfold calculateFees, gt. intros G. fold (lt (num_of_Z 10000) a) in G.
  pose proof (lt_not_ge _ _ G) as N.
  destruct (le a (num_of_Z 1000)) eqn:L.
  - apply le_1000_10000 in L. congruence.
  - now rewrite N.
Qed.

End FeeFacts.

(** C2.  The fee is 15 for an amount up to 1000, 25 for an amount above
    1000 and up to 10000, and 50 for an amount above 10000; so it is at
    999.99, 1000.00, 1000.01, 9999.99, 10000.00 and 10000.01; and the
    transaction a submission creates stores the parsed amount, the fee of
    that amount, and their sum as [totalAmount]. *)
Theorem fee_step_function :
  (forall a, le a (num_of_Z 1000) = true -> calculateFees a = num_of_Z 15)
  /\ (forall a, lt (num_of_Z 1000) a = true -> le a (num_of_Z 10000) = true ->
                calculateFees a = num_of_Z 25)
  /\ (forall a, gt a (num_of_Z 10000) = true -> calculateFees a = num_of_Z 50)
  /\ calculateFees (parseFloat "999.99") = num_of_Z 15
  /\ calculateFees (parseFloat "1000.00") = num_of_Z 15
  /\ calculateFees (parseFloat "1000.01") = num_of_Z 25
  /\ calculateFees (parseFloat "9999.99") = num_of_Z 25
  /\ calculateFees (parseFloat "10000.00") = num_of_Z 25
  /\ calculateFees (parseFloat "10000.01") = num_of_Z 50
  /\ (forall env req st r st',
        make_payment env req st = (Respond r, st') -> code r = 201 ->
        exists t,
          st' = st ++ [t]
          /\ amount t = parseFloat_opt (b_amount (body req))
          /\ fees t = calculateFees (amount t)
          /\ totalAmount t = Some (add (amount t) (fees t))).
Proof.
  split; [exact fees_low|]. split; [exact fees_middle|].
  split; [exact fees_high|].
  do 6 (split; [vm_compute; reflexivity|]).
  intros env req st r st' H Hc.
  apply make_payment_created in H as (s & _ & _ & _ & _ & V & -> & _);
    [|exact Hc].
  exists (pre_save env (submitted env req s)). split; [reflexivity|].
  destruct (submitted_fields env req s V) as (_ & Ea & Ef & Et & _).
  rewrite Ea, Ef, Et. auto.
Qed.

Lemma fee_step_function_witness :
  calculateFees (parseFloat "500.00") = num_of_Z 15
  /\ calculateFees (parseFloat "5000.00") = num_of_Z 25
  /\ calculateFees (parseFloat "50000.00") = num_of_Z 50
  /\ exists t,
       snd (make_payment Samples.env0 Samples.req0 []) = [] ++ [t]
       /\ amount t = parseFloat "500.00"
       /\ fees t = calculateFees (amount t)
       /\ totalAmount t = Some (add (amount t) (fees t)).
Proof.
  destruct fee_step_function as (L & M & H & _ & _ & _ & _ & _ & _ & C).
  split; [apply L; vm_compute; reflexivity|].
  split; [apply M; vm_compute; reflexivity|].
  split; [apply H; vm_compute; reflexivity|].
  apply (C Samples.env0 Samples.req0 []
           {| code := 201; json := created_json Samples.t0 |});
    vm_compute; reflexivity.
Defined.

(** ** The daily limit *)
Section LimitFacts.

(** [getDate() + 1] handed to [setDate] names the day after. *)
Lemma MonthFromTime_range (t : Z) : 0 <= MonthFromTime t <= 11.
Proof.
  unfold MonthFromTime.
  repeat match goal with
         | |- context [if ?c then _ else _] => destruct c
         end; lia.
Qed.

Lemma MakeDay_next (t : Z) :
  MakeDay (YearFromTime t) (MonthFromTime t) (DateFromTime t + 1) = Day t + 1.
Proof.
  pose proof (MonthFromTime_range t) as R.
  unfold MakeDay, DateFromTime, DayWithinYear, InLeapYear.
  rewrite (Z.div_small (MonthFromTime t) 12), (Z.mod_small (MonthFromTime t) 12)
    by lia.
  rewrite Z.add_0_r. lia.
Qed.

(** [today] and [tomorrow] in terms of the local time of the request. *)
Lemma today_eq (env : Env) :
  today env
  = Day (LocalTime env (now env)) * 86400000
    - LocalTZA env (Day (LocalTime env (now env)) * 86400000) false.
Proof.
  unfold today, setHours, UTC, MakeDate, MakeTime, msPerDay.
  now rewrite Z.add_0_r.
Qed.

Lemma tomorrow_eq (env : Env) :
  tomorrow env
  = UTC env ((Day (LocalTime env (today env)) + 1) * 86400000
             + LocalTime env (today env) mod 86400000).
Proof.
  unfold tomorrow, setDate, getDate. rewrite MakeDay_next. reflexivity.
Qed.

(** When local time reads [today] as the midnight it was made from,
    [tomorrow] is the next local midnight. *)
Lemma tomorrow_next_midnight (env : Env) :
  let midnight := Day (LocalTime env (now env)) * 86400000 in
  LocalTZA env (today env) true = LocalTZA env midnight false ->
  tomorrow env
  = midnight + 86400000 - LocalTZA env (midnight + 86400000) false.
Proof.
  intros midnight H. rewrite tomorrow_eq.
  assert (L : LocalTime env (today env) = midnight).
  { unfold LocalTime. rewrite H. rewrite today_eq. fold midnight. lia. }
  rewrite L. unfold midnight, Day, msPerDay.
  rewrite Z.div_mul, Z_mod_mult by lia. unfold UTC.
  replace ((LocalTime env (now env) / 86400000 + 1) * 86400000 + 0)
    with (LocalTime env (now env) / 86400000 * 86400000 + 86400000) by lia.
  reflexivity.
Qed.

Lemma steady_day (env : Env) (c : Z) :
  steadyOffset env c ->
  (today env + c) mod 86400000 = 0
  /\ today env <= now env < tomorrow env
  /\ tomorrow env = today env + 86400000.
Proof.
  unfold steadyOffset, msPerDay. intros (Hn & Hm & Ht & Hm').
  pose proof (tomorrow_next_midnight env) as T. cbv zeta in T.
  rewrite Ht, Hm, Hm' in T. specialize (T eq_refl).
  pose proof (today_eq env) as D. rewrite Hm in D.
  assert (L : LocalTime env (now env) = now env + c)
    by (unfold LocalTime; now rewrite Hn).
  rewrite L in *. unfold Day, msPerDay in *.
  pose proof (Z.mod_pos_bound (now env + c) 86400000 eq_refl) as B.
  pose proof (Z.div_mod (now env + c) 86400000) as M.
  split; [|lia].
  replace (today env + c) with ((now env + c) / 86400000 * 86400000) by lia.
  apply Z_mod_mult.
Qed.

Lemma countedStatus_spec (s : Status) :
  countedStatus s = true <-> In s [PENDING; VERIFIED; PROCESSING; COMPLETED].
Proof.
  destruct s; simpl; split; intros H; auto; try discriminate;
    repeat (destruct H as [H|H]; try discriminate); contradiction.
Qed.

Lemma todayTransactions_spec (env : Env) (u : ObjectId) (st : Store)
    (t : Transaction) :
  In t (todayTransactions env u st) <->
  (In t st /\ userId t = u
   /\ In (status t) [PENDING; VERIFIED; PROCESSING; COMPLETED]
   /\ today env <= createdAt t < tomorrow env).
Proof.
  unfold todayTransactions. rewrite filter_In.
  rewrite !andb_true_iff, N.eqb_eq, Z.leb_le, Z.ltb_lt, countedStatus_spec.
  tauto.
Qed.

End LimitFacts.

(** C3.  For a submission whose amount [A] passes the range check, with [S]
    the sum of the amounts of the user's transactions created in
    [[today, tomorrow)] whose status is PENDING, VERIFIED, PROCESSING or
    COMPLETED: when [S + A > 50000] the submission is refused with the
    daily-limit error and the collection is unchanged; when
    [S + A <= 50000] and the other validations pass, a PENDING transaction
    of the user with amount [A] is created.  The window is the local
    calendar day of the host: [today] is the instant of local midnight
    of the current local date and [tomorrow] that of the next local
    midnight.  It is [[midnight, midnight + 24h)] and holds the moment of
    the request when the UTC offset is the same at the request and at
    both ends of the day; its length differs from 24 hours by the change
    of the offset otherwise. *)
Theorem daily_limit_condition (env : Env) (req : Request) (st : Store) :
  let A := parseFloat_opt (b_amount (body req)) in
  let S := todayTotal env (user req) st in
  let midnight := Day (LocalTime env (now env)) * 86400000 in
  amountInRange env req = true ->
  (today env = midnight - LocalTZA env midnight false
   /\ (LocalTZA env (today env) true = LocalTZA env midnight false ->
       tomorrow env
       = midnight + 86400000 - LocalTZA env (midnight + 86400000) false)
   /\ (forall c, steadyOffset env c ->
         (today env + c) mod 86400000 = 0
         /\ today env <= now env < tomorrow env
         /\ tomorrow env = today env + 86400000))
  /\ (forall t,
        In t (todayTransactions env (user req) st) <->
        (In t st /\ userId t = user req
         /\ In (status t) [PENDING; VERIFIED; PROCESSING; COMPLETED]
         /\ today env <= createdAt t < tomorrow env))
  /\ (gt (add S A) (num_of_Z 50000) = true ->
      make_payment env req st = (failure 400 dailyLimitExceeded, st))
  /\ (le (add S A) (num_of_Z 50000) = true ->
      otherValidationsPass env req = true ->
      exists t,
        make_payment env req st
        = (Respond {| code := 201; json := created_json t |}, st ++ [t])
        /\ status t = PENDING /\ userId t = user req /\ amount t = A).
Proof.
  intros A S midnight R.
  split.
  { split; [apply today_eq|].
    split; [apply tomorrow_next_midnight|apply steady_day]. }
  split; [intros t; apply todayTransactions_spec|].
  split.
  - intros G. unfold make_payment. unfold amountInRange in R.
    apply negb_true_iff in R. rewrite R.
    fold A. fold S. unfold dailyLimit. now rewrite G.
  - intros L O. apply le_not_gt in L.
    destruct (make_payment_accepts env req st R L O) as (s & _ & V & E).
    exists (pre_save env (submitted env req s)). split; [exact E|].
    destruct (submitted_fields env req s V) as (Eu & Ea & _ & _ & Es & _).
    auto.
Qed.

Lemma daily_limit_condition_witness :
  amountInRange Samples.env0 Samples.req_200 = true
  /\ (today Samples.env0 = 1699999200000
      /\ tomorrow Samples.env0 = 1699999200000 + 86400000)
  /\ make_payment Samples.env0 Samples.req_200 Samples.st_49900
     = (failure 400 dailyLimitExceeded, Samples.st_49900)
  /\ amountInRange Samples.env0 Samples.req_100 = true
  /\ exists t,
       make_payment Samples.env0 Samples.req_100 Samples.st_49900
       = (Respond {| code := 201; json := created_json t |},
          Samples.st_49900 ++ [t])
       /\ status t = PENDING /\ userId t = 1%N
       /\ amount t = parseFloat "100.00".
Proof.
  pose proof (daily_limit_condition Samples.env0 Samples.req_200
                Samples.st_49900) as H200.
  pose proof (daily_limit_condition Samples.env0 Samples.req_100
                Samples.st_49900) as H100.
  cbv zeta in H200, H100.
  assert (R200 : amountInRange Samples.env0 Samples.req_200 = true)
    by (vm_compute; reflexivity).
  assert (R100 : amountInRange Samples.env0 Samples.req_100 = true)
    by (vm_compute; reflexivity).
  destruct (H200 R200) as ((D & _ & W) & _ & G & _).
  destruct (H100 R100) as (_ & _ & _ & L).
  split; [exact R200|]. split.
  - destruct (W 7200000) as (_ & _ & T).
    + repeat split; vm_compute; reflexivity.
    + rewrite T. split; [|f_equal]; rewrite D; vm_compute; reflexivity.
  - split; [apply G; vm_compute; reflexivity|].
    split; [exact R100|]. apply L; vm_compute; reflexivity.
Defined.

(** The claim as worded, refuted.  On a host whose clocks go back during
    the day, the local day lasts 25 hours.  At 23:30 of such a day, a
    user whose one transaction of the day, of 49,900.00, was created at
    23:20, more than 24 hours after midnight, has no transaction in
    [[midnight, midnight + 24h)]: the sum over that window is 0 and with
    200.00 more stays under the limit, every other validation passes,
    and yet the submission of 200.00 is refused with the daily-limit
    error, because the route counts up to the next local midnight. *)
Lemma daily_limit_window_counterexample :
  today Samples.env_clocks_back = 1699156800000
  /\ tomorrow Samples.env_clocks_back = 1699156800000 + 25 * 3600000
  /\ amountInRange Samples.env_clocks_back Samples.req_200 = true
  /\ otherValidationsPass Samples.env_clocks_back Samples.req_200 = true
  /\ total24h Samples.env_clocks_back 1%N Samples.st_late_evening
     = num_of_Z 0
  /\ le (add (total24h Samples.env_clocks_back 1%N Samples.st_late_evening)
             (parseFloat "200.00")) (num_of_Z 50000) = true
  /\ make_payment Samples.env_clocks_back Samples.req_200
       Samples.st_late_evening
     = (failure 400 dailyLimitExceeded, Samples.st_late_evening).
Proof. repeat split; vm_compute; reflexivity. Qed.

(** ** Status moves *)
Section TransitionFacts.

Lemma transition_status (env : Env) (tr : Transition) (t : Transaction)
    (st : Store) :
  status (fst (apply_transition env tr t st)) = target tr.
Proof.
  destruct tr;
    cbv [apply_transition markAsVerified markAsProcessing markAsCompleted
         markAsRejected markAsCancelled save fst];
    match goal with
    | |- status (pre_save ?e ?x) = _ =>
        destruct (pre_save_fields e x) as (_ & _ & _ & _ & Es & _);
        rewrite Es
    end;
    match goal with
    | |- context [isModified ?a ?b] => destruct (isModified a b)
    end;
    reflexivity.
Qed.

Lemma transition_id (env : Env) (tr : Transition) (t : Transaction)
    (st : Store) :
  _id (fst (apply_transition env tr t st)) = _id t
  /\ userId (fst (apply_transition env tr t st)) = userId t.
Proof.
  destruct tr;
    cbv [apply_transition markAsVerified markAsProcessing markAsCompleted
         markAsRejected markAsCancelled save fst];
    match goal with
    | |- _id (pre_save ?e ?x) = _ /\ _ =>
        destruct (pre_save_fields e x) as (Ei & Eu & _);
        rewrite Ei, Eu
    end;
    match goal with
    | |- context [isModified ?a ?b] => destruct (isModified a b)
    end;
    split; reflexivity.
Qed.

Lemma findOne_some (id u : ObjectId) (st : Store) (t : Transaction) :
  findOne id u st = Some t -> In t st /\ _id t = id /\ userId t = u.
Proof.
  unfold findOne. intros H. apply find_some in H as [I H].
  apply andb_true_iff in H as [A B].
  apply N.eqb_eq in A. apply N.eqb_eq in B. auto.
Qed.

Lemma findOne_updateOne (id u : ObjectId) (st : Store) (t t' : Transaction) :
  findOne id u st = Some t -> _id t' = _id t -> userId t' = userId t ->
  findOne id u (updateOne t' st) = Some t'.
Proof.
  intros F Ei Eu.
  destruct (findOne_some id u st t F) as (_ & Hi & Hu).
  assert (P : ((_id t' =? id)%N && (userId t' =? u)%N) = true).
  { rewrite Ei, Eu, Hi, Hu, !N.eqb_refl. reflexivity. }
  unfold findOne in *.
  induction st as [|d r IH]; simpl in *; [discriminate|].
  destruct (_id d =? _id t')%N eqn:D; simpl.
  - now rewrite P.
  - assert (N : (_id d =? id)%N = false) by (rewrite <- Hi, <- Ei; exact D).
    rewrite N in *. simpl in *. now apply IH.
Qed.

Lemma cancel_refused (env : Env) (req : Request) (st : Store)
    (t : Transaction) :
  findOne (param_id req) (user req) st = Some t -> status t <> PENDING ->
  cancel_transaction env req st
  = (failure 400 (JStr "Only pending transactions can be cancelled"), st).
Proof.
  intros F N. unfold cancel_transaction. rewrite F.
  destruct (status t); try reflexivity. contradiction.
Qed.

End TransitionFacts.

(** C4, as the code has it.  The five instance methods carry no guard: in
    whatever status the transaction is, terminal or not, and however often
    it is called, each method sets its target status and saves.  The only
    guarded transition is the cancel route, which refuses a transaction
    that is not PENDING with status 400 and the fixed message
    "Only pending transactions can be cancelled" and leaves the collection
    unchanged. *)
Theorem transitions_apply_unguarded (env : Env) (tr : Transition)
    (t : Transaction) (st : Store) :
  status (fst (apply_transition env tr t st)) = target tr
  /\ snd (apply_transition env tr t st)
     = updateOne (fst (apply_transition env tr t st)) st
  /\ (forall req,
        findOne (param_id req) (user req) st = Some t ->
        status t <> PENDING ->
        cancel_transaction env req st
        = (failure 400 (JStr "Only pending transactions can be cancelled"),
           st)).
Proof.
  split; [apply transition_status|]. split; [apply transition_store|].
  intros req. apply cancel_refused.
Qed.

Lemma transitions_apply_unguarded_witness :
  findOne 3%N 1%N [Samples.tx_verified] = Some Samples.tx_verified
  /\ status Samples.tx_verified <> PENDING
  /\ cancel_transaction Samples.env0
       (Samples.request_of 1%N 3%N (Samples.body_of "" "" ""))
       [Samples.tx_verified]
     = (failure 400 (JStr "Only pending transactions can be cancelled"),
        [Samples.tx_verified]).
Proof.
  split; [reflexivity|]. split; [discriminate|].
  apply (transitions_apply_unguarded Samples.env0 Cancel Samples.tx_verified
           [Samples.tx_verified]);
    [reflexivity | discriminate].
Defined.

(** C4, as the claim states it, fails: [markAsVerified] on a COMPLETED
    transaction, which the precondition of the specification forbids, does
    not fail; the stored transaction becomes VERIFIED.  Called a second
    time on a transaction it has verified, it succeeds again and stamps
    [verifiedAt] anew. *)
Lemma transition_guard_counterexample :
  spec_precondition Verify (status Samples.tx_completed) = false
  /\ status (fst (apply_transition Samples.env0 Verify Samples.tx_completed
                    [Samples.tx_completed])) = VERIFIED
  /\ map status (snd (apply_transition Samples.env0 Verify Samples.tx_completed
                        [Samples.tx_completed])) = [VERIFIED]
  /\ snd (apply_transition Samples.env0 Verify Samples.tx_completed
            [Samples.tx_completed]) <> [Samples.tx_completed]
  /\ spec_precondition Verify (status Samples.t1) = false
  /\ verifiedAt Samples.t1 = Some 1700000000000
  /\ map verifiedAt (snd (apply_transition Samples.env_later Verify
                            Samples.t1 Samples.st1))
     = [Some 1700000060000].
Proof.
  split; [reflexivity|]. split; [reflexivity|]. split; [reflexivity|].
  split; [|repeat split].
  intros H. apply (f_equal (map status)) in H. discriminate H.
Qed.

(** C5.  The cancel route, for a transaction it finds: when the status is
    PENDING the request succeeds and the stored transaction becomes
    CANCELLED; in every other status the request is refused and the
    collection, hence the status, is unchanged. *)
Theorem cancel_exactly_from_pending (env : Env) (req : Request) (st : Store)
    (t : Transaction) :
  findOne (param_id req) (user req) st = Some t ->
  (status t = PENDING ->
   exists t',
     cancel_transaction env req st
     = (Respond {| code := 200; json := cancelled_json t' |}, updateOne t' st)
     /\ status t' = CANCELLED /\ _id t' = _id t
     /\ findOne (param_id req) (user req) (updateOne t' st) = Some t')
  /\ (status t <> PENDING ->
      cancel_transaction env req st
      = (failure 400 (JStr "Only pending transactions can be cancelled"), st)).
Proof.
  intros F. split.
  - intros P. exists (fst (markAsCancelled env t st)).
    pose proof (transition_status env Cancel t st) as Es.
    destruct (transition_id env Cancel t st) as [Ei Eu].
    simpl in Es, Ei, Eu.
    split; [|split; [exact Es|split; [exact Ei|]]].
    + unfold cancel_transaction. rewrite F, P. reflexivity.
    + now apply (findOne_updateOne _ _ st t).
  - intros N. now apply (cancel_refused env req st t).
Qed.

Lemma cancel_exactly_from_pending_witness :
  (exists t',
     cancel_transaction Samples.env0
       (Samples.request_of 1%N 3%N (Samples.body_of "" "" ""))
       [Samples.tx_pending]
     = (Respond {| code := 200; json := cancelled_json t' |},
        updateOne t' [Samples.tx_pending])
     /\ status t' = CANCELLED /\ _id t' = 3%N
     /\ findOne 3%N 1%N (updateOne t' [Samples.tx_pending]) = Some t')
  /\ cancel_transaction Samples.env0
       (Samples.request_of 1%N 3%N (Samples.body_of "" "" ""))
       [Samples.tx_verified]
     = (failure 400 (JStr "Only pending transactions can be cancelled"),
        [Samples.tx_verified]).
Proof.
  split.
  - apply (cancel_exactly_from_pending Samples.env0
             (Samples.request_of 1%N 3%N (Samples.body_of "" "" ""))
             [Samples.tx_pending] Samples.tx_pending);
      reflexivity.
  - apply (cancel_exactly_from_pending Samples.env0
             (Samples.request_of 1%N 3%N (Samples.body_of "" "" ""))
             [Samples.tx_verified] Samples.tx_verified);
      [reflexivity | discriminate].
Defined.

(** ** Strings *)
Section StringFacts.

Lemma chars_str (l : list ascii) : chars (str l) = l.
Proof. apply list_ascii_of_string_of_list_ascii. Qed.






Lemma trimEndL_idem (l : list ascii) : trimEndL (trimEndL l) = trimEndL l.
Proof.
  induction l as [|c r IH]; simpl; [reflexivity|].
  destruct (trimEndL r) as [|d r'] eqn:E.
  - destruct (isWhite c) eqn:W; simpl; [reflexivity|]. now rewrite W.
  - change (trimEndL (c :: d :: r')) with
      (match trimEndL (d :: r') with
       | [] => if isWhite c then [] else [c]
       | x => c :: x
       end).
    now rewrite IH.
Qed.

Lemma trimStartL_trimmed (l : list ascii) : trimmedStart (trimStartL l).
Proof.
  induction l as [|c r IH]; simpl; [exact I|].
  destruct (isWhite c) eqn:W; [exact IH|exact W].
Qed.

Lemma trimEndL_trimmed (l : list ascii) :
  trimmedStart l -> trimmedStart (trimEndL l).
Proof.
  destruct l as [|c r]; simpl; [auto|]. intros W.
  destruct (trimEndL r); [rewrite W|]; exact W.
Qed.

Lemma trimStartL_fixed (l : list ascii) : trimmedStart l -> trimStartL l = l.
Proof. destruct l as [|c r]; simpl; [auto|]. now intros ->. Qed.

Lemma trim_idem_chars (l : list ascii) :
  trimEndL (trimStartL (trimEndL (trimStartL l))) = trimEndL (trimStartL l).
Proof.
  rewrite (trimStartL_fixed (trimEndL (trimStartL l))).
  - apply trimEndL_idem.
  - apply trimEndL_trimmed, trimStartL_trimmed.
Qed.




End StringFacts.



(** C7.  With the limits unset in the environment the minimum is 1 and the
    maximum 100000; and a submission whose amount parses to a number below
    the minimum or above the maximum is refused with status 400 and the
    message "Amount must be between <min> and <max>", and the collection is
    unchanged: no transaction is created. *)
Theorem amount_range_rejection (env : Env) (req : Request) (st : Store) :
  let A := parseFloat_opt (b_amount (body req)) in
  (MIN_PAYMENT_AMOUNT env = None -> minAmount env = num_of_Z 1)
  /\ (MAX_PAYMENT_AMOUNT env = None -> maxAmount env = num_of_Z 100000)
  /\ (lt A (minAmount env) = true \/ gt A (maxAmount env) = true ->
      make_payment env req st = (failure 400 (amountOutOfRange env), st)
      /\ snd (make_payment env req st) = st).
Proof.
  intros A. split; [|split].
  - unfold minAmount. now intros ->.
  - unfold maxAmount. now intros ->.
  - intros H.
    assert (E : make_payment env req st
                = (failure 400 (amountOutOfRange env), st)).
    { unfold make_payment. fold A.
      replace (lt A (minAmount env) || gt A (maxAmount env)) with true;
        [reflexivity|].
      symmetry. apply orb_true_iff. exact H. }
    split; [exact E|now rewrite E].
Qed.

Lemma amount_range_rejection_witness :
  minAmount Samples.env0 = num_of_Z 1
  /\ maxAmount Samples.env0 = num_of_Z 100000
  /\ make_payment Samples.env0 Samples.req_too_large Samples.st_49900
     = (failure 400 (amountOutOfRange Samples.env0), Samples.st_49900)
  /\ make_payment Samples.env0 Samples.req_three_invalid Samples.st_49900
     = (failure 400 (amountOutOfRange Samples.env0), Samples.st_49900).
Proof.
  destruct (amount_range_rejection Samples.env0 Samples.req_too_large
              Samples.st_49900) as (Hmin & Hmax & Hhigh).
  destruct (amount_range_rejection Samples.env0 Samples.req_three_invalid
              Samples.st_49900) as (_ & _ & Hlow).
  split; [apply Hmin; reflexivity|]. split; [apply Hmax; reflexivity|].
  split.
  - apply Hhigh. right. vm_compute. reflexivity.
  - apply Hlow. left. vm_compute. reflexivity.
Defined.

(** ** What the refusals carry *)
Section ResponseFacts.

Lemma plain_refusal_reports_no_limit (c : Z) (e : Json) (r : Response) :
  failure c e = Respond r -> ~ reports_limit (json r).
Proof.
  unfold failure. intros H. inversion H; subst; simpl.
  intros (l & a & v & Hl & _). discriminate Hl.
Qed.

Lemma plain_refusal_lists_no_fields (c : Z) (e : Json) (r : Response) :
  failure c e = Respond r -> ~ lists_fields (json r).
Proof.
  unfold failure. intros H. inversion H; subst; simpl.
  intros (d & [Hd|Hd]); discriminate Hd.
Qed.

End ResponseFacts.

(** C8, as the code has it.  A submission refused for the daily limit is
    answered with status 400 and an object of two fields only, [success]
    set to [false] and [error] set to the fixed text
    "Daily transaction limit exceeded"; it reports neither the limit, nor
    the attempted amount, nor the amount still available.  The collection is
    unchanged. *)
Theorem daily_limit_refusal_content (env : Env) (req : Request) (st : Store) :
  amountInRange env req = true ->
  gt (add (todayTotal env (user req) st)
          (parseFloat_opt (b_amount (body req)))) dailyLimit = true ->
  make_payment env req st
  = (Respond {| code := 400;
                json := JObj [("success"%string, JBool false);
                              ("error"%string,
                               JStr "Daily transaction limit exceeded")] |},
     st)
  /\ forall r, fst (make_payment env req st) = Respond r ->
               ~ reports_limit (json r).
Proof.
  intros R G.
  assert (E : make_payment env req st = (failure 400 dailyLimitExceeded, st)).
  { unfold make_payment. unfold amountInRange in R.
    apply negb_true_iff in R. now rewrite R, G. }
  split; [exact E|].
  intros r Hr. rewrite E in Hr.
  now apply (plain_refusal_reports_no_limit 400 dailyLimitExceeded).
Qed.

Lemma daily_limit_refusal_content_witness :
  amountInRange Samples.env0 Samples.req_200 = true
  /\ gt (add (todayTotal Samples.env0 1%N Samples.st_49900)
             (parseFloat "200.00")) dailyLimit = true
  /\ make_payment Samples.env0 Samples.req_200 Samples.st_49900
     = (Respond {| code := 400;
                   json := JObj [("success"%string, JBool false);
                                 ("error"%string,
                                  JStr "Daily transaction limit exceeded")] |},
        Samples.st_49900).
Proof.
  assert (R : amountInRange Samples.env0 Samples.req_200 = true)
    by (vm_compute; reflexivity).
  assert (G : gt (add (todayTotal Samples.env0 (user Samples.req_200)
                         Samples.st_49900)
                      (parseFloat_opt (b_amount (body Samples.req_200))))
                 dailyLimit = true)
    by (vm_compute; reflexivity).
  split; [exact R|]. split; [exact G|].
  exact (proj1 (daily_limit_refusal_content Samples.env0 Samples.req_200
                  Samples.st_49900 R G)).
Defined.

(** C8, as the claim states it, fails: the user with one PENDING
    transaction of 49,900.00 today who submits 200.00 is refused, and the
    answer has no [limit], no [attempted] and no [available] field. *)
Lemma daily_limit_content_counterexample :
  exists r,
    make_payment Samples.env0 Samples.req_200 Samples.st_49900
    = (Respond r, Samples.st_49900)
    /\ code r = 400
    /\ field "error" (json r) = Some (JStr "Daily transaction limit exceeded")
    /\ field "limit" (json r) = None
    /\ field "attempted" (json r) = None
    /\ field "available" (json r) = None
    /\ ~ reports_limit (json r).
Proof.
  eexists. split; [vm_compute; reflexivity|].
  repeat (split; [reflexivity|]).
  intros (l & a & v & Hl & _). discriminate Hl.
Qed.

(** C9, evaluated on the route.  A submission with three invalid fields —
    an amount below the minimum, a malformed SWIFT code and a name with a
    digit — is answered with the amount error alone; with a valid amount,
    the malformed SWIFT code and the same name, with the SWIFT error alone.
    Neither answer lists fields.  A submission whose only invalid fields
    are refused by the schema is not answered by the route at all: the
    validation error is thrown.  Nothing is stored in any of the three
    cases. *)
Lemma route_reports_first_error_only :
  (exists r,
     make_payment Samples.env0 Samples.req_three_invalid [] = (Respond r, [])
     /\ r = {| code := 400;
               json := JObj [("success"%string, JBool false);
                             ("error"%string,
                              amountOutOfRange Samples.env0)] |}
     /\ ~ lists_fields (json r))
  /\ (exists r,
        make_payment Samples.env0 Samples.req_two_invalid [] = (Respond r, [])
        /\ r = {| code := 400;
                  json := JObj [("success"%string, JBool false);
                                ("error"%string, swiftInvalid)] |}
        /\ ~ lists_fields (json r))
  /\ make_payment Samples.env0 Samples.req_schema_invalid []
     = (Throw (ValidationError ["recipientName"; "recipientAccountNumber"]%string),
        []).
Proof.
  split; [|split];
    [eexists; (split; [vm_compute; reflexivity|]); (split; [reflexivity|]);
     intros (d & [Hd|Hd]); discriminate Hd ..
    | vm_compute; reflexivity].
Qed.

(** ** Ownership *)
Section OwnershipFacts.

Lemma NoDup_map_inj {A B} (f : A -> B) (l : list A) (a b : A) :
  NoDup (map f l) -> In a l -> In b l -> f a = f b -> a = b.
Proof.
  induction l as [|x r IH]; simpl; [contradiction|].
  intros N Ha Hb E. inversion N as [|? ? Hx Hr]; subst.
  destruct Ha as [->|Ha], Hb as [->|Hb]; auto.
  - exfalso. apply Hx. rewrite E. now apply in_map.
  - exfalso. apply Hx. rewrite <- E. now apply in_map.
Qed.

Lemma find_none_all {A} (p : A -> bool) (l : list A) :
  (forall x, In x l -> p x = false) -> find p l = None.
Proof.
  induction l as [|x r IH]; simpl; [reflexivity|]. intros H.
  rewrite (H x (or_introl eq_refl)). apply IH. intros y Hy. apply H. now right.
Qed.

Lemma findOne_foreign (st : Store) (t : Transaction) (u : ObjectId) :
  NoDup (map _id st) -> In t st -> userId t <> u ->
  findOne (_id t) u st = None.
Proof.
  intros N I U. unfold findOne. apply find_none_all. intros d Hd.
  destruct (_id d =? _id t)%N eqn:E; [|reflexivity]. simpl.
  apply N.eqb_eq in E.
  rewrite (NoDup_map_inj _id st d t N Hd I E).
  now apply N.eqb_neq.
Qed.

End OwnershipFacts.

(** C10.  In a collection whose [_id]s are distinct, for a stored
    transaction [t] and a requesting user who is not its owner: fetching
    [t] by id answers 404 "Transaction not found", and so does the attempt
    to cancel it, whatever the status of [t]; the collection is unchanged. *)
Theorem foreign_transaction_not_found (env : Env) (req : Request)
    (st : Store) (t : Transaction) :
  NoDup (map _id st) -> In t st -> param_id req = _id t ->
  userId t <> user req ->
  get_transaction req st
  = Respond {| code := 404;
               json := JObj [("success"%string, JBool false);
                             ("error"%string, JStr "Transaction not found")] |}
  /\ cancel_transaction env req st
     = (Respond {| code := 404;
                   json := JObj [("success"%string, JBool false);
                                 ("error"%string,
                                  JStr "Transaction not found")] |},
        st).
Proof.
  intros N I E U.
  pose proof (findOne_foreign st t (user req) N I U) as F.
  unfold get_transaction, cancel_transaction. rewrite E, F. split; reflexivity.
Qed.

Lemma foreign_transaction_not_found_witness :
  get_transaction (Samples.request_of 2%N 3%N (Samples.body_of "" "" ""))
                  [Samples.tx_verified]
  = Respond {| code := 404;
               json := JObj [("success"%string, JBool false);
                             ("error"%string, JStr "Transaction not found")] |}
  /\ cancel_transaction Samples.env0
       (Samples.request_of 2%N 3%N (Samples.body_of "" "" ""))
       [Samples.tx_verified]
     = (Respond {| code := 404;
                   json := JObj [("success"%string, JBool false);
                                 ("error"%string,
                                  JStr "Transaction not found")] |},
        [Samples.tx_verified]).
Proof.
  apply (foreign_transaction_not_found Samples.env0
           (Samples.request_of 2%N 3%N (Samples.body_of "" "" ""))
           [Samples.tx_verified] Samples.tx_verified).
  - repeat constructor. intros [].
  - left. reflexivity.
  - reflexivity.
  - discriminate.
Defined.

(** ** The routes keep the collection reachable *)
Section Reachability.

Lemma make_payment_reachable (env : Env) (req : Request) (st : Store) :
  reachable st -> reachable (snd (make_payment env req st)).
Proof.
  intros R. unfold make_payment.
  destruct (lt _ _ || gt _ _); [exact R|].
  destruct (gt _ dailyLimit); [exact R|].
  destruct (b_swiftCode (body req)) as [s|]; [|exact R].
  destruct (falsy_str (Some s)); [exact R|].
  destruct (negb _); [exact R|].
  destruct (create env _ st) as [e|[t st']] eqn:C; [exact R|].
  exact (reach_create _ _ _ _ _ R C).
Qed.

Lemma cancel_transaction_reachable (env : Env) (req : Request) (st : Store) :
  reachable st -> reachable (snd (cancel_transaction env req st)).
Proof.
  intros R. unfold cancel_transaction.
  destruct (findOne _ _ st) as [t|] eqn:F; [|exact R].
  destruct (negb _); [exact R|].
  apply findOne_some in F as (I & _).
  change (snd (let (transaction', st') := markAsCancelled env t st in
               (Respond {| code := 200;
                           json := cancelled_json transaction' |}, st')))
    with (snd (apply_transition env Cancel t st)).
  exact (reach_transition env Cancel t st R I).
Qed.

End Reachability.

(** ** The validators of [inputValidation.js] *)
Section ValidatorFacts.
Import InputValidation.

Variable xss : string -> string.
Variable escape : string -> string.

(** The SWIFT code is upper-cased before the format check, and the
    upper-cased code is the value returned. *)
Lemma validateSwiftCode_valid (swiftCode : option string) (v : string)
    (n : option Number) :
  validateSwiftCode xss escape swiftCode = Valid v n ->
  exists s,
    swiftCode = Some s /\ v = toUpperCase (sanitizeInput xss escape s)
    /\ swiftCodePattern v = true.
Proof.
  unfold validateSwiftCode. destruct swiftCode as [s|]; [|discriminate].
  destruct (falsy_str (Some s)); [discriminate|].
  destruct (swiftCodePattern _) eqn:P; simpl; [|discriminate].
  intros H; inversion H; subst. exists s. auto.
Qed.

(** An amount the validator accepts is within the limits: an amount
    below the minimum or above the maximum is not valid. *)
Lemma validateAmount_valid (env : Env) (amount : option string)
    (v : string) (n : option Number) :
  validateAmount xss escape env amount = Valid v n ->
  n = Some (parseFloat v) /\ amountPattern v = true
  /\ lt (parseFloat v) (amountLimits_min env) = false
  /\ gt (parseFloat v) (amountLimits_max env) = false.
Proof.
  unfold validateAmount. destruct amount as [s|]; [|discriminate].
  destruct (falsy_str (Some s)); [discriminate|].
  destruct (amountPattern _) eqn:P; simpl; [|discriminate].
  destruct (lt _ _) eqn:L; [discriminate|].
  destruct (gt _ _) eqn:G; [discriminate|].
  intros H; inversion H; subst. auto.
Qed.

End ValidatorFacts.


(** * Further properties *)

Import PaymentsMore InputValidation InputValidationMore.

(** ** What a submission does to the collection *)
Section SubmissionFacts.

Lemma findOne_app_new (id u : ObjectId) (st : Store) (t : Transaction) :
  (forall d, In d st -> _id d <> id) -> _id t = id -> userId t = u ->
  findOne id u (st ++ [t]) = Some t.
Proof.
  intros Hfresh Ei Eu. unfold findOne.
  induction st as [|d r IH]; simpl.
  - now rewrite Ei, Eu, !N.eqb_refl.
  - assert (N : (_id d =? id)%N = false).
    { apply N.eqb_neq. apply Hfresh. now left. }
    rewrite N. simpl. apply IH. intros x Hx. apply Hfresh. now right.
Qed.

Lemma parseFloat_num_valid (a : Number) :
  number_min amount_min a = true -> parseFloat_num a = a.
Proof.
  unfold number_min, ge, le.
  destruct a as [sa|sa| |sa ma ea]; try reflexivity.
  vm_compute. discriminate.
Qed.

Lemma todayTransactions_app (env : Env) (u : ObjectId) (st : Store)
    (t : Transaction) :
  userId t = u -> countedStatus (status t) = true ->
  today env <= createdAt t < tomorrow env ->
  todayTransactions env u (st ++ [t]) = todayTransactions env u st ++ [t].
Proof.
  intros Eu Es [Hlo Hhi]. unfold todayTransactions.
  rewrite filter_app. simpl.
  rewrite Eu, N.eqb_refl, Es. simpl.
  apply Z.leb_le in Hlo. apply Z.ltb_lt in Hhi. now rewrite Hlo, Hhi.
Qed.

End SubmissionFacts.

(** X1.  A submission either leaves the collection as it is or appends
    exactly one document to it: every answer other than 201 and every
    thrown error leaves the collection unchanged, and 201 is answered
    exactly when one document, the one shown in the answer, was appended.
    No stored transaction is ever modified or removed by a submission. *)
Theorem make_payment_store_effect (env : Env) (req : Request) (st : Store) :
  match fst (make_payment env req st) with
  | Respond r =>
      if code r =? 201
      then exists t, snd (make_payment env req st) = st ++ [t]
                     /\ json r = created_json t
      else snd (make_payment env req st) = st
  | Throw _ => snd (make_payment env req st) = st
  end.
Proof.
  unfold make_payment.
  destruct (lt _ _ || gt _ _); [reflexivity|].
  destruct (gt _ dailyLimit); [reflexivity|].
  destruct (b_swiftCode (body req)) as [s|]; [|reflexivity].
  destruct (falsy_str (Some s)); [reflexivity|].
  destruct (negb _); [reflexivity|].
  destruct (create env _ st) as [e|[t st']] eqn:C; simpl; [reflexivity|].
  apply create_ok in C as (_ & _ & ->). exists t. auto.
Qed.

(** X2.  Round trip: when a submission is answered 201 and the generated
    [_id] is not yet in the collection, the owner who then fetches the
    transaction by that id is answered 200 with the stored document, whose
    amount, fees, total, status and SWIFT code are those computed at
    creation. *)
Theorem created_then_fetched (env : Env) (req req' : Request)
    (st st' : Store) (r : Response) :
  make_payment env req st = (Respond r, st') -> code r = 201 ->
  (forall d, In d st -> _id d <> objectId env) ->
  user req' = user req -> param_id req' = objectId env ->
  exists t,
    st' = st ++ [t]
    /\ get_transaction req' st'
       = Respond {| code := 200; json := details_json t |}
    /\ _id t = objectId env /\ userId t = user req
    /\ amount t = parseFloat_opt (b_amount (body req))
    /\ fees t = calculateFees (amount t)
    /\ totalAmount t = Some (add (amount t) (fees t))
    /\ status t = PENDING.
Proof.
  intros H Hc Hfresh Eu Ep.
  apply make_payment_created in H as (s & _ & _ & _ & _ & V & -> & _);
    [|exact Hc].
  set (t := pre_save env (submitted env req s)).
  destruct (submitted_fields env req s V) as (Hu & Ha & Hf & Ht & Hs & _ & _).
  destruct (pre_save_fields env (submitted env req s)) as (Hi & _).
  fold t in Hu, Ha, Hf, Ht, Hs, Hi. simpl in Hi.
  exists t. split; [reflexivity|]. split.
  - unfold get_transaction. rewrite Ep, Eu.
    rewrite (findOne_app_new (objectId env) (user req) st t Hfresh Hi Hu).
    reflexivity.
  - rewrite Ha, Hf, Ht. auto 10.
Qed.

Lemma created_then_fetched_witness :
  exists t,
    snd (make_payment Samples.env0 Samples.req0 []) = [] ++ [t]
    /\ get_transaction (Samples.request_of 1%N 7%N (Samples.body_of "" "" ""))
         (snd (make_payment Samples.env0 Samples.req0 []))
       = Respond {| code := 200; json := details_json t |}
    /\ _id t = 7%N /\ userId t = 1%N
    /\ amount t = parseFloat "500.00"
    /\ fees t = calculateFees (amount t)
    /\ totalAmount t = Some (add (amount t) (fees t))
    /\ status t = PENDING.
Proof.
  apply (created_then_fetched Samples.env0 Samples.req0
           (Samples.request_of 1%N 7%N (Samples.body_of "" "" "")) []
           (snd (make_payment Samples.env0 Samples.req0 []))
           {| code := 201; json := created_json Samples.t0 |}).
  - vm_compute. reflexivity.
  - reflexivity.
  - intros d [].
  - reflexivity.
  - reflexivity.
Defined.

(** X3.  The daily limit accumulates: a transaction created by an accepted
    submission is counted by every later daily-limit check of the same
    user made on the same local day, whose total is the former total plus
    the new amount. *)
Theorem created_counts_toward_limit (env env' : Env) (req : Request)
    (st st' : Store) (r : Response) :
  make_payment env req st = (Respond r, st') -> code r = 201 ->
  today env' <= now env < tomorrow env' ->
  todayTotal env' (user req) st'
  = add (todayTotal env' (user req) st)
        (parseFloat_opt (b_amount (body req))).
Proof.
  intros H Hc Hday.
  apply make_payment_created in H as (s & _ & _ & _ & _ & V & -> & _);
    [|exact Hc].
  destruct (submitted_fields env req s V) as (Hu & Ha & _ & _ & Hs & _ & Hn).
  pose proof (validate_numbers _ V) as [Hv _].
  unfold todayTotal.
  rewrite (todayTransactions_app env' (user req) st _ Hu).
  - rewrite fold_left_app. cbn [fold_left]. rewrite Ha.
    change (amount (submitted env req s))
      with (parseFloat_opt (b_amount (body req))) in Hv.
    now rewrite (parseFloat_num_valid _ Hv).
  - now rewrite Hs.
  - now rewrite Hn.
Qed.

Lemma created_counts_toward_limit_witness :
  todayTotal Samples.env_later 1%N
    (snd (make_payment Samples.env0 Samples.req_100 Samples.st_49900))
  = add (todayTotal Samples.env_later 1%N Samples.st_49900)
        (parseFloat "100.00").
Proof.
  apply (created_counts_toward_limit Samples.env0 Samples.env_later
           Samples.req_100 Samples.st_49900
           (snd (make_payment Samples.env0 Samples.req_100 Samples.st_49900))
           {| code := 201;
              json := created_json
                        (pre_save Samples.env0
                           (submitted Samples.env0 Samples.req_100
                                      "CHASUS33")) |}).
  - vm_compute. reflexivity.
  - reflexivity.
  - vm_compute. split; [discriminate | reflexivity].
Defined.

(** ** Cancelling and the daily limit *)
Section CancelFacts.

Lemma filter_other_ids (P : Transaction -> bool) (id : ObjectId) (st : Store) :
  ~ In id (map _id st) ->
  filter (fun d => negb (_id d =? id)%N) (filter P st) = filter P st.
Proof.
  induction st as [|d r IH]; simpl; [reflexivity|]. intros N.
  assert (Hd : (_id d =? id)%N = false).
  { apply N.eqb_neq. intros E. apply N. now left. }
  assert (Hr : ~ In id (map _id r)) by (intros H; apply N; now right).
  destruct (P d); simpl; [rewrite Hd; simpl; f_equal|]; now apply IH.
Qed.

Lemma todayTransactions_updateOne (env : Env) (u : ObjectId) (st : Store)
    (t' : Transaction) :
  NoDup (map _id st) -> countedStatus (status t') = false ->
  In (_id t') (map _id st) ->
  todayTransactions env u (updateOne t' st)
  = filter (fun d => negb (_id d =? _id t')%N) (todayTransactions env u st).
Proof.
  unfold todayTransactions.
  set (P := fun tx => (userId tx =? u)%N && countedStatus (status tx)
                      && (today env <=? createdAt tx)
                      && (createdAt tx <? tomorrow env)).
  intros N C I. induction st as [|d r IH]; simpl in *; [contradiction|].
  inversion N as [|? ? Hd Hr]; subst.
  destruct (_id d =? _id t')%N eqn:E.
  - apply N.eqb_eq in E. rewrite E in Hd.
    assert (Pt : P t' = false).
    { unfold P. rewrite C, andb_false_r. reflexivity. }
    cbn [filter]. rewrite Pt.
    destruct (P d); cbn [filter].
    + rewrite E, N.eqb_refl. simpl. symmetry. now apply filter_other_ids.
    + symmetry. now apply filter_other_ids.
  - assert (I' : In (_id t') (map _id r)).
    { destruct I as [I|I]; [|exact I].
      rewrite I, N.eqb_refl in E. discriminate. }
    cbn [filter]. destruct (P d); cbn [filter];
      [rewrite E; simpl; f_equal|]; now apply IH.
Qed.

End CancelFacts.

(** X4.  Cancelling frees the daily allowance: after a successful cancel
    in a collection whose [_id]s are distinct, the transactions counted by
    a daily-limit check are the ones counted before without the cancelled
    one. *)
Theorem cancelled_not_counted (env env' : Env) (req : Request) (st : Store)
    (t : Transaction) (u : ObjectId) :
  NoDup (map _id st) ->
  findOne (param_id req) (user req) st = Some t -> status t = PENDING ->
  todayTransactions env' u (snd (cancel_transaction env req st))
  = filter (fun d => negb (_id d =? _id t)%N) (todayTransactions env' u st).
Proof.
  intros N F P.
  destruct (findOne_some _ _ _ _ F) as (I & _ & _).
  pose proof (transition_status env Cancel t st) as Es.
  destruct (transition_id env Cancel t st) as [Ei _].
  assert (E : snd (cancel_transaction env req st)
              = updateOne (fst (apply_transition env Cancel t st)) st).
  { unfold cancel_transaction. rewrite F, P. reflexivity. }
  rewrite E, <- Ei.
  apply todayTransactions_updateOne; [exact N| |].
  - now rewrite Es.
  - rewrite Ei. now apply in_map.
Qed.

Lemma cancelled_not_counted_witness :
  todayTransactions Samples.env_later 1%N
    (snd (cancel_transaction Samples.env0
            (Samples.request_of 1%N 3%N (Samples.body_of "" "" ""))
            Samples.st_49900))
  = filter (fun d => negb (_id d =? 3)%N)
           (todayTransactions Samples.env_later 1%N Samples.st_49900).
Proof.
  apply (cancelled_not_counted Samples.env0 Samples.env_later
           (Samples.request_of 1%N 3%N (Samples.body_of "" "" ""))
           Samples.st_49900
           (Samples.stored 3%N (num_of_Z 49900) PENDING) 1%N).
  - repeat constructor. intros [].
  - reflexivity.
  - reflexivity.
Defined.

(** X5.  A cancel cannot be repeated: once a cancel request has succeeded,
    the same request made again, at any later time, is refused with
    status 400 and changes nothing. *)
Theorem second_cancel_refused (env env' : Env) (req : Request) (st : Store)
    (t : Transaction) :
  findOne (param_id req) (user req) st = Some t -> status t = PENDING ->
  cancel_transaction env' req (snd (cancel_transaction env req st))
  = (failure 400 (JStr "Only pending transactions can be cancelled"),
     snd (cancel_transaction env req st)).
Proof.
  intros F P.
  pose proof (transition_status env Cancel t st) as Es.
  destruct (transition_id env Cancel t st) as [Ei Eu].
  assert (E : snd (cancel_transaction env req st)
              = updateOne (fst (apply_transition env Cancel t st)) st).
  { unfold cancel_transaction. rewrite F, P. reflexivity. }
  rewrite E.
  apply (cancel_refused env' req _ (fst (apply_transition env Cancel t st))).
  - now apply (findOne_updateOne _ _ st t).
  - rewrite Es. discriminate.
Qed.

Lemma second_cancel_refused_witness :
  cancel_transaction Samples.env_later
    (Samples.request_of 1%N 3%N (Samples.body_of "" "" ""))
    (snd (cancel_transaction Samples.env0
            (Samples.request_of 1%N 3%N (Samples.body_of "" "" ""))
            [Samples.tx_pending]))
  = (failure 400 (JStr "Only pending transactions can be cancelled"),
     snd (cancel_transaction Samples.env0
            (Samples.request_of 1%N 3%N (Samples.body_of "" "" ""))
            [Samples.tx_pending])).
Proof.
  apply (second_cancel_refused Samples.env0 Samples.env_later
           (Samples.request_of 1%N 3%N (Samples.body_of "" "" ""))
           [Samples.tx_pending] Samples.tx_pending);
    reflexivity.
Defined.

(** ** SWIFT codes that need no normalization *)
Section SwiftFacts.

Lemma str_chars (s : string) : str (chars s) = s.
Proof. apply string_of_list_ascii_of_string. Qed.

Lemma upperAlnum_not_white (c : ascii) :
  isUpperAlnum c = true -> isWhite c = false.
Proof. destruct c as [[] [] [] [] [] [] [] []]; vm_compute; congruence. Qed.

Lemma upperAlnum_fixed (c : ascii) :
  isUpperAlnum c = true -> upperChar c = c.
Proof. destruct c as [[] [] [] [] [] [] [] []]; vm_compute; congruence. Qed.

Lemma upper_is_upperAlnum (c : ascii) : isUpper c = true -> isUpperAlnum c = true.
Proof. unfold isUpperAlnum. now intros ->. Qed.

Lemma swiftCodePattern_chars (s : string) :
  swiftCodePattern s = true ->
  forallb isUpperAlnum (chars s) = true
  /\ (8 <= List.length (chars s) <= 11)%nat.
Proof.
  unfold swiftCodePattern. intros H.
  repeat (apply andb_true_iff in H as [H ?]).
  match goal with
  | L : (List.length (firstn 6 _) =? 6)%nat = true |- _ =>
      apply Nat.eqb_eq in L; rename L into H6
  end.
  match goal with
  | L : (2 <=? _)%nat = true |- _ => apply Nat.leb_le in L; rename L into Hlo
  end.
  match goal with
  | L : (_ <=? 5)%nat = true |- _ => apply Nat.leb_le in L; rename L into Hhi
  end.
  split.
  - rewrite <- (firstn_skipn 6 (chars s)), forallb_app.
    apply andb_true_iff. split; [|assumption].
    apply forallb_forall. intros c Hc. apply upper_is_upperAlnum.
    match goal with
    | L : forallb isUpper _ = true |- _ =>
        rewrite forallb_forall in L; now apply L
    end.
  - rewrite <- (firstn_skipn 6 (chars s)), length_app. lia.
Qed.

Lemma trimEndL_fixed (l : list ascii) :
  forallb (fun c => negb (isWhite c)) l = true -> trimEndL l = l.
Proof.
  induction l as [|c r IH]; simpl; [reflexivity|]. intros H.
  apply andb_true_iff in H as [Hc Hr]. apply negb_true_iff in Hc.
  rewrite (IH Hr), Hc. now destruct r.
Qed.

Lemma trimStartL_fixed_all (l : list ascii) :
  forallb (fun c => negb (isWhite c)) l = true -> trimStartL l = l.
Proof.
  destruct l as [|c r]; simpl; [reflexivity|]. intros H.
  apply andb_true_iff in H as [Hc _]. apply negb_true_iff in Hc.
  now rewrite Hc.
Qed.

Lemma normalizeSwiftCode_fixed (s : string) :
  swiftCodePattern s = true -> normalizeSwiftCode s = s.
Proof.
  intros H. apply swiftCodePattern_chars in H as [H _].
  assert (W : forallb (fun c => negb (isWhite c)) (chars s) = true).
  { apply forallb_forall. intros c Hc. rewrite forallb_forall in H.
    now rewrite (upperAlnum_not_white c (H c Hc)). }
  unfold normalizeSwiftCode, toUpperCase, trim.
  rewrite chars_str, (trimStartL_fixed_all _ W), (trimEndL_fixed _ W).
  rewrite <- (str_chars s) at 2. f_equal.
  rewrite <- (map_id (chars s)) at 2. apply map_ext_in.
  intros c Hc. rewrite forallb_forall in H. now apply upperAlnum_fixed, H.
Qed.

End SwiftFacts.

(** X6.  A SWIFT code that POST /validate-swift accepts needs no
    normalization: the payment route normalizes it to itself, its format
    check passes, the schema accepts it both as [swiftCode] and as
    [recipientBankCode], and a submission carrying it that is answered 201
    stores it as it was sent. *)
Theorem validated_swift_is_stored_unchanged (req : Request) (r : Response) :
  validate_swift req = Respond r -> code r = 200 ->
  exists s,
    b_swiftCode (body req) = Some s
    /\ normalizeSwiftCode s = s
    /\ swiftCodePattern (normalizeSwiftCode s) = true
    /\ (required (Some s) && matches swiftCodePattern (Some s)) = true
    /\ (required (Some s)
        && matches (match_class isUpperAlnum 8 11) (Some s)) = true
    /\ forall env st r' st',
         make_payment env req st = (Respond r', st') -> code r' = 201 ->
         exists t, st' = st ++ [t] /\ swiftCode t = Some s
                   /\ recipientBankCode t = Some s.
Proof.
  unfold validate_swift. intros H Hc.
  destruct (b_swiftCode (body req)) as [s|] eqn:S.
  2:{ simpl in H. unfold failure in H. inversion H; subst. discriminate Hc. }
  destruct (swiftCodePattern s) eqn:P; simpl in H.
  2:{ unfold failure in H. inversion H; subst. discriminate Hc. }
  pose proof (normalizeSwiftCode_fixed s P) as Fx.
  destruct (swiftCodePattern_chars s P) as [Ha [Hlo Hhi]].
  assert (Ne : falsy_str (Some s) = false).
  { unfold falsy_str. destruct (chars s); [simpl in Hlo; lia|reflexivity]. }
  exists s. split; [reflexivity|]. split; [exact Fx|].
  split; [now rewrite Fx|]. split.
  - unfold required, matches. now rewrite Ne, P.
  - split.
    + unfold required, matches, match_class. rewrite Ne, Ha.
      apply Nat.leb_le in Hlo. apply Nat.leb_le in Hhi.
      now rewrite Hlo, Hhi.
    + intros env st r' st' M Mc.
      apply make_payment_created in M as (s' & Hs' & _ & _ & _ & V & -> & _);
        [|exact Mc].
      rewrite S in Hs'. inversion Hs'; subst s'.
      exists (pre_save env (submitted env req s)). split; [reflexivity|].
      destruct (pre_save_fields env (submitted env req s))
        as (_ & _ & _ & _ & _ & Ew & _).
      unfold pre_save. destruct (falsy_str _); simpl; rewrite Fx; auto.
Qed.

Lemma validated_swift_is_stored_unchanged_witness :
  exists s,
    b_swiftCode (body Samples.req0_upper) = Some s
    /\ normalizeSwiftCode s = s
    /\ swiftCodePattern (normalizeSwiftCode s) = true
    /\ (required (Some s) && matches swiftCodePattern (Some s)) = true
    /\ (required (Some s)
        && matches (match_class isUpperAlnum 8 11) (Some s)) = true
    /\ forall env st r' st',
         make_payment env Samples.req0_upper st = (Respond r', st') ->
         code r' = 201 ->
         exists t, st' = st ++ [t] /\ swiftCode t = Some s
                   /\ recipientBankCode t = Some s.
Proof.
  apply (validated_swift_is_stored_unchanged Samples.req0_upper
           {| code := 200;
              json := JObj [("success", JBool true);
                            ("data", JObj [
                               ("swiftCode", JStr "CHASUS33");
                               ("isValid", JBool true);
                               ("bankName", JStr "Mock Bank Name");
                               ("country", JStr "Mock Country");
                               ("city", JStr "Mock City")])]%string |});
    reflexivity.
Defined.

(** ** Rounding never yields NaN *)
Section RoundingFacts.

Lemma shr_1_nonneg (mrs : shr_record) :
  0 <= shr_m mrs -> 0 <= shr_m (shr_1 mrs).
Proof.
  destruct mrs as [m r s]. simpl.
  destruct m as [|p|p]; simpl; try lia; destruct p; simpl; lia.
Qed.

Lemma iter_pos_shr_1_nonneg (p : positive) (mrs : shr_record) :
  0 <= shr_m mrs -> 0 <= shr_m (iter_pos shr_1 p mrs).
Proof.
  revert mrs. induction p as [p IH|p IH|]; intros mrs H; simpl.
  - apply IH, IH, shr_1_nonneg, H.
  - apply IH, IH, H.
  - apply shr_1_nonneg, H.
Qed.

Lemma shr_fexp_nonneg (m e : Z) (l : location) :
  0 <= m -> 0 <= shr_m (fst (shr_fexp prec emax m e l)).
Proof.
  intros H. unfold shr_fexp, shr.
  assert (H0 : 0 <= shr_m (shr_record_of_loc m l)).
  { destruct l as [|[]]; exact H. }
  destruct (Z.sub _ e); simpl; auto using iter_pos_shr_1_nonneg.
Qed.

Lemma round_nearest_even_nonneg (m : Z) (l : location) :
  0 <= m -> 0 <= round_nearest_even m l.
Proof.
  intros H. destruct l as [|[]]; simpl; try lia.
  destruct (Z.even m); lia.
Qed.

Lemma binary_round_aux_not_nan (sx : bool) (mx ex : Z) (lx : location) :
  0 <= mx -> is_nan (binary_round_aux prec emax sx mx ex lx) = false.
Proof.
  intros H. unfold binary_round_aux.
  pose proof (shr_fexp_nonneg mx ex lx H) as H1.
  destruct (shr_fexp prec emax mx ex lx) as [mrs' e']. simpl in H1.
  pose proof (shr_fexp_nonneg _ e' loc_Exact
                (round_nearest_even_nonneg _ (loc_of_shr_record mrs') H1))
    as H2.
  destruct (shr_fexp prec emax _ e' loc_Exact) as [mrs'' e'']. simpl in H2.
  destruct (shr_m mrs'') as [|m|m]; [reflexivity| |lia].
  destruct (Z.leb _ _); reflexivity.
Qed.

Lemma binary_normalize_not_nan (m e : Z) (szero : bool) :
  is_nan (binary_normalize prec emax m e szero) = false.
Proof.
  destruct m as [|p|p]; simpl; [reflexivity| |];
    unfold binary_round;
    destruct (shl_align _ _ _) as [mz ez];
    apply binary_round_aux_not_nan; lia.
Qed.

Lemma num_of_decimal_not_nan (neg : bool) (m e : Z) :
  is_nan (num_of_decimal neg m e) = false.
Proof.
  unfold num_of_decimal.
  destruct (m =? 0); [reflexivity|].
  destruct (0 <=? e); [apply binary_normalize_not_nan|].
  destruct (Z.div_eucl _ _) as [q r]. apply binary_normalize_not_nan.
Qed.

(** Two numbers of which none is NaN compare. *)
Lemma SFcompare_total (x y : Number) :
  is_nan x = false -> is_nan y = false -> SFcompare x y <> None.
Proof.
  destruct x as [sx|sx| |sx mx ex], y as [sy|sy| |sy my ey];
    simpl; intros; congruence.
Qed.

Lemma not_lt_le (x y : Number) :
  is_nan x = false -> is_nan y = false -> lt x y = false -> le y x = true.
Proof.
  unfold lt, le, SFltb, SFleb. intros Hx Hy.
  rewrite (SFcompare_antisym x y).
  pose proof (SFcompare_total x y Hx Hy) as T.
  destruct (SFcompare x y) as [[]|]; simpl; congruence.
Qed.

Lemma or_else_not_nan (x d : Number) :
  is_nan d = false -> is_nan (or_else x d) = false.
Proof. unfold or_else. destruct x; simpl; auto. Qed.

End RoundingFacts.

(** ** Amounts that match the pattern are numbers *)
Section AmountFacts.

Lemma span_digits_head (l ip r : list ascii) :
  span isDigit l = (ip, r) -> ip <> [] ->
  exists c l', l = c :: l' /\ isDigit c = true.
Proof.
  destruct l as [|c l']; simpl.
  - intros H; inversion H; subst. contradiction.
  - destruct (isDigit c) eqn:D.
    + intros _ _. eauto.
    + intros H; inversion H; subst. contradiction.
Qed.

Lemma digit_facts (c : ascii) :
  isDigit c = true ->
  isWhite c = false /\ (charCode c =? 45)%N = false
  /\ (charCode c =? 43)%N = false
  /\ forall l, isPrefix (chars "Infinity") (c :: l) = false.
Proof.
  destruct c as [[] [] [] [] [] [] [] []]; intros D;
    try (vm_compute in D; discriminate D);
    repeat split; reflexivity.
Qed.

Lemma parseFloat_of_amount (s : string) :
  amountPattern s = true -> is_nan (parseFloat s) = false.
Proof.
  unfold amountPattern. destruct (span isDigit (chars s)) as [ip r] eqn:S.
  destruct ip as [|i ip']; [discriminate|]. intros _.
  destruct (span_digits_head _ _ _ S) as (c & l' & El & Dc); [discriminate|].
  destruct (digit_facts c Dc) as (W & Hm & Hp & Hi).
  unfold parseFloat. rewrite El. cbn [trimStartL]. rewrite W, Hm, Hp, Hi.
  rewrite <- El, S.
  destruct (match r with
            | [] => ([], r)
            | c0 :: r0 =>
                if (charCode c0 =? 46)%N then span isDigit r0 else ([], r)
            end) as [fp r2].
  simpl. apply num_of_decimal_not_nan.
Qed.

End AmountFacts.

(** X7.  An amount that [validateAmount] accepts is a number: its numeric
    value is the parse of the returned string, is never NaN, and lies
    between the minimum and the maximum, both included. *)
Theorem validateAmount_accepts_numbers_in_range
    (xss escape : string -> string) (env : Env) (amount : option string)
    (v : string) (n : option Number) :
  InputValidation.validateAmount xss escape env amount = Valid v n ->
  n = Some (parseFloat v)
  /\ is_nan (parseFloat v) = false
  /\ le (InputValidation.amountLimits_min env) (parseFloat v) = true
  /\ le (parseFloat v) (InputValidation.amountLimits_max env) = true.
Proof.
  intros H.
  destruct (validateAmount_valid xss escape env amount v n H)
    as (En & P & L & G).
  pose proof (parseFloat_of_amount v P) as Nn.
  assert (Nmin : is_nan (InputValidation.amountLimits_min env) = false)
    by (apply or_else_not_nan; reflexivity).
  assert (Nmax : is_nan (InputValidation.amountLimits_max env) = false)
    by (apply or_else_not_nan; reflexivity).
  repeat split; auto using not_lt_le.
Qed.

Lemma validateAmount_accepts_numbers_in_range_witness :
  Some (parseFloat "100000.00") = Some (parseFloat "100000.00")
  /\ is_nan (parseFloat "100000.00") = false
  /\ le (InputValidation.amountLimits_min Samples.env0)
        (parseFloat "100000.00") = true
  /\ le (parseFloat "100000.00")
        (InputValidation.amountLimits_max Samples.env0) = true.
Proof.
  apply (validateAmount_accepts_numbers_in_range (fun x => x) (fun x => x)
           Samples.env0 (Some "100000.00"%string) "100000.00"%string
           (Some (parseFloat "100000.00"))).
  vm_compute. reflexivity.
Defined.

(** X8.  An amount that is missing or does not parse escapes both the
    range check and the daily-limit check of the route, every comparison
    with NaN being false; such a submission is refused for its SWIFT code
    or else rejected by the schema with an error on the path [amount], and
    in no case is anything stored. *)
Theorem unparsable_amount_never_stored (env : Env) (req : Request)
    (st : Store) :
  is_nan (parseFloat_opt (b_amount (body req))) = true ->
  snd (make_payment env req st) = st
  /\ (fst (make_payment env req st) = failure 400 swiftRequired
      \/ fst (make_payment env req st) = failure 400 swiftInvalid
      \/ exists paths,
           fst (make_payment env req st) = Throw (ValidationError paths)
           /\ In "amount"%string paths).
Proof.
  intros Hn. unfold make_payment.
  destruct (parseFloat_opt (b_amount (body req))) eqn:A; try discriminate Hn.
  replace (lt S754_nan (minAmount env) || gt S754_nan (maxAmount env))
    with false.
  2:{ unfold lt, gt, SFltb. destruct (maxAmount env); reflexivity. }
  replace (gt (add (todayTotal env (user req) st) S754_nan) dailyLimit)
    with false.
  2:{ unfold add. destruct (todayTotal env (user req) st); reflexivity. }
  destruct (b_swiftCode (body req)) as [s|]; [|auto].
  destruct (falsy_str (Some s)); [auto|].
  destruct (negb _); [auto|].
  unfold create, validate. cbn [new_document payment_fields amount n_amount].
  cbn [number_min is_nan negb andb check app].
  split; [reflexivity|]. right. right. eexists. split; [reflexivity|].
  now left.
Qed.

Lemma unparsable_amount_never_stored_witness :
  snd (make_payment Samples.env0
         (Samples.request_of 1%N 0%N
            (Samples.body_of "abc" "chasus33" "John Smith"))
         Samples.st_49900) = Samples.st_49900
  /\ (fst (make_payment Samples.env0
             (Samples.request_of 1%N 0%N
                (Samples.body_of "abc" "chasus33" "John Smith"))
             Samples.st_49900) = failure 400 swiftRequired
      \/ fst (make_payment Samples.env0
                (Samples.request_of 1%N 0%N
                   (Samples.body_of "abc" "chasus33" "John Smith"))
                Samples.st_49900) = failure 400 swiftInvalid
      \/ exists paths,
           fst (make_payment Samples.env0
                  (Samples.request_of 1%N 0%N
                     (Samples.body_of "abc" "chasus33" "John Smith"))
                  Samples.st_49900) = Throw (ValidationError paths)
           /\ In "amount"%string paths).
Proof.
  apply (unparsable_amount_never_stored Samples.env0
           (Samples.request_of 1%N 0%N
              (Samples.body_of "abc" "chasus33" "John Smith"))
           Samples.st_49900).
  reflexivity.
Defined.

(** ** The Luhn checksum *)
Section LuhnFacts.

Lemma luhnLoop_app (a b : list (option Z)) (sum : option Z) (e : bool) :
  luhnLoop (a ++ b) sum e
  = luhnLoop b (luhnLoop a sum e) (xorb e (Nat.odd (List.length a))).
Proof.
  revert sum e. induction a as [|x a IH]; intros sum e; simpl.
  - now rewrite xorb_false_r.
  - rewrite IH. f_equal. rewrite Nat.odd_succ, <- Nat.negb_odd.
    destruct e, (Nat.odd (List.length a)); reflexivity.
Qed.

(** The loop adds to the sum it starts from. *)
Lemma luhnLoop_shift (l : list (option Z)) (sum : option Z) (e : bool) :
  luhnLoop l sum e = plus sum (luhnLoop l (Some 0) e).
Proof.
  revert sum e. induction l as [|x l IH]; intros sum e; cbn [luhnLoop].
  - destruct sum; simpl; [f_equal; lia|reflexivity].
  - set (c := if e then times2 x else x).
    rewrite (IH (plus sum c)), (IH (plus (Some 0) c)).
    destruct sum as [s|], c as [y|],
      (luhnLoop l (Some 0) (negb e)) as [z|]; simpl; try reflexivity.
    f_equal. lia.
Qed.

Lemma toNumber_digit (c : ascii) :
  isDigit c = true ->
  exists v, toNumber c = Some v /\ 0 <= v <= 9
            /\ v = Z.of_N (charCode c) - 48.
Proof.
  intros D. unfold toNumber. rewrite D. eexists. split; [reflexivity|].
  split; [|reflexivity].
  unfold isDigit, between in D. apply andb_true_iff in D as [L H].
  apply N.leb_le in L. apply N.leb_le in H. lia.
Qed.

Lemma charCode_inj (c d : ascii) : charCode c = charCode d -> c = d.
Proof.
  unfold charCode. intros E.
  rewrite <- (ascii_N_embedding c), <- (ascii_N_embedding d). now rewrite E.
Qed.

(** What one digit adds to the sum, doubled or not, tells the digit. *)
Lemma contribution_differs (e : bool) (v w : Z) :
  0 <= v <= 9 -> 0 <= w <= 9 -> v <> w ->
  exists x y,
    (if e then times2 (Some v) else Some v) = Some x
    /\ (if e then times2 (Some w) else Some w) = Some y
    /\ -9 <= x - y <= 9 /\ x <> y.
Proof.
  intros Hv Hw N. destruct e; simpl.
  - eexists. eexists. split; [reflexivity|]. split; [reflexivity|].
    destruct (9 <? v * 2) eqn:A, (9 <? w * 2) eqn:B;
      try apply Z.ltb_lt in A; try apply Z.ltb_ge in A;
      try apply Z.ltb_lt in B; try apply Z.ltb_ge in B; lia.
  - exists v, w. repeat split; auto; lia.
Qed.

Lemma luhn_changed_digit (p q : list ascii) (d d' : ascii) :
  isDigit d = true -> isDigit d' = true -> d <> d' ->
  validateLuhn (str (p ++ d :: q)) = true ->
  validateLuhn (str (p ++ d' :: q)) = false.
Proof.
  intros D D' N. unfold validateLuhn. rewrite !chars_str.
  rewrite !map_app, !rev_app_distr. cbn [map rev]. rewrite <- !app_assoc.
  cbn [app]. rewrite !luhnLoop_app. cbn [luhnLoop].
  set (A := luhnLoop (rev (map toNumber q)) (Some 0) false).
  set (e := xorb false (Nat.odd (List.length (rev (map toNumber q))))).
  destruct (toNumber_digit d D) as (v & Ev & Bv & Cv).
  destruct (toNumber_digit d' D') as (w & Ew & Bw & Cw).
  assert (Nvw : v <> w).
  { intros E. apply N, charCode_inj. lia. }
  destruct (contribution_differs e v w Bv Bw Nvw) as (x & y & Ex & Ey & Bd & Nd).
  rewrite Ev, Ew, Ex, Ey.
  rewrite (luhnLoop_shift _ (plus A (Some x))),
          (luhnLoop_shift _ (plus A (Some y))).
  destruct A as [a|]; simpl; [|discriminate].
  destruct (luhnLoop (rev (map toNumber p)) (Some 0) (negb e)) as [b|];
    simpl; [|discriminate].
  intros H. apply Z.eqb_eq in H. apply Z.eqb_neq. intros H'.
  apply Z.rem_divide in H; [|lia]. apply Z.rem_divide in H'; [|lia].
  destruct H as [k Hk], H' as [k' Hk']. lia.
Qed.

End LuhnFacts.

(** X9.  The checksum of [validateLuhn] detects every single-digit error:
    when a string passes, the string obtained by replacing the digit at
    one position by a different digit does not. *)
Theorem luhn_detects_single_digit_error (s s' : string) (i : nat)
    (d d' : ascii) :
  nth_error (chars s) i = Some d ->
  chars s' = firstn i (chars s) ++ d' :: skipn (S i) (chars s) ->
  isDigit d = true -> isDigit d' = true -> d <> d' ->
  validateLuhn s = true -> validateLuhn s' = false.
Proof.
  intros Hn Hs' D D' N V.
  destruct (nth_error_split _ _ Hn) as (p & q & El & Ei).
  assert (Ef : firstn i (chars s) = p).
  { rewrite El, <- Ei, firstn_app, Nat.sub_diag, firstn_all. simpl.
    apply app_nil_r. }
  assert (Ek : skipn (S i) (chars s) = q).
  { rewrite El, <- Ei.
    change (p ++ d :: q) with (p ++ [d] ++ q). rewrite app_assoc.
    replace (S (List.length p)) with (List.length (p ++ [d]))
      by (rewrite length_app; simpl; lia).
    now rewrite skipn_app, skipn_all, Nat.sub_diag. }
  rewrite Ef, Ek in Hs'.
  rewrite <- (str_chars s') , Hs'. rewrite <- (str_chars s), El in V.
  exact (luhn_changed_digit p q d d' D D' N V).
Qed.

Lemma luhn_detects_single_digit_error_witness :
  validateLuhn "8001015009087" = true
  /\ validateLuhn "8001015009187" = false.
Proof.
  split; [reflexivity|].
  apply (luhn_detects_single_digit_error "8001015009087" "8001015009187" 10
           "0"%char "1"%char);
    [reflexivity | reflexivity | reflexivity | reflexivity | discriminate
    | reflexivity].
Defined.

(** ** The validators against the schema *)
Section ValidatorSchemaFacts.

Variable xss : string -> string.
Variable escape : string -> string.

Lemma match_class_bounds (cls : ascii -> bool) (lo hi : nat) (v : string) :
  match_class cls lo hi v = true ->
  (lo <= List.length (chars v) <= hi)%nat.
Proof.
  unfold match_class. intros H.
  apply andb_true_iff in H as [H Hhi]. apply andb_true_iff in H as [_ Hlo].
  apply Nat.leb_le in Hlo. apply Nat.leb_le in Hhi. lia.
Qed.

Lemma nonempty_required (v : string) :
  (1 <= List.length (chars v))%nat -> required (Some v) = true.
Proof.
  unfold required, falsy_str. destruct (chars v); simpl; [lia|reflexivity].
Qed.

Lemma matches_of_pattern (re : string -> bool) (v : string) :
  re v = true -> matches re (Some v) = true.
Proof. unfold matches. intros ->. now destruct (falsy_str _). Qed.

Lemma validateRequired_valid (rm pm : string) (pattern : string -> bool)
    (input : option string) (v : string) (n : option Number) :
  validateRequired xss escape rm pm pattern input = Valid v n ->
  pattern v = true.
Proof.
  unfold validateRequired. destruct input as [s|]; [|discriminate].
  destruct (falsy_str (Some s)); [discriminate|].
  destruct (pattern _) eqn:P; simpl; [|discriminate].
  intros H; inversion H; subst. exact P.
Qed.

Lemma validateOptional_valid (pm : string) (pattern : string -> bool)
    (input : option string) (v : string) (n : option Number) :
  pattern ""%string = true ->
  validateOptional xss escape pm pattern input = Valid v n ->
  pattern v = true.
Proof.
  unfold validateOptional. intros P0.
  destruct input as [s|]; [|intros H; inversion H; subst; exact P0].
  destruct (falsy_str (Some s)); [intros H; inversion H; subst; exact P0|].
  destruct (pattern (sanitizeInput xss escape s)) eqn:P; simpl;
    [|discriminate].
  intros H; inversion H; subst. exact P.
Qed.

Lemma class_schema (cls : ascii -> bool) (lo hi : nat) (v : string) :
  (1 <= lo)%nat -> match_class cls lo hi v = true ->
  (required (Some v) && minlength (Z.of_nat lo) (Some v)
   && maxlength (Z.of_nat hi) (Some v)
   && matches (match_class cls lo hi) (Some v)) = true.
Proof.
  intros L M. pose proof (match_class_bounds _ _ _ _ M) as [Hlo Hhi].
  rewrite nonempty_required by lia. rewrite (matches_of_pattern _ _ M).
  unfold minlength, maxlength, strlen.
  replace (Z.of_nat lo <=? Z.of_nat (List.length (chars v))) with true
    by (symmetry; apply Z.leb_le; lia).
  replace (Z.of_nat (List.length (chars v)) <=? Z.of_nat hi) with true
    by (symmetry; apply Z.leb_le; lia).
  reflexivity.
Qed.

Lemma optional_schema (cls : ascii -> bool) (hi : nat) (v : string) :
  match_class cls 0 hi v = true ->
  (maxlength (Z.of_nat hi) (Some v)
   && matches (match_class cls 0 hi) (Some v)) = true.
Proof.
  intros M. pose proof (match_class_bounds _ _ _ _ M) as [_ Hhi].
  rewrite (matches_of_pattern _ _ M). unfold maxlength, strlen.
  replace (Z.of_nat (List.length (chars v)) <=? Z.of_nat hi) with true
    by (symmetry; apply Z.leb_le; lia).
  reflexivity.
Qed.

End ValidatorSchemaFacts.

(** X10.  The validators of the payment fields are at least as strict as
    the Transaction schema: a currency, recipient name, account number,
    bank name, SWIFT code, purpose or reference that its validator accepts
    satisfies every validator the schema declares for that path (and the
    accepted SWIFT code also those of [recipientBankCode]). *)
Theorem validators_imply_schema (xss escape : string -> string) :
  (forall i v n,
     validateCurrency xss escape i = Valid v n ->
     (required (Some v) && enum Model.supportedCurrencies (Some v)) = true)
  /\ (forall i v n,
        validateRecipientName xss escape i = Valid v n ->
        (required (Some v) && minlength 3 (Some v) && maxlength 50 (Some v)
         && matches (match_class isAlphaOrWhite 3 50) (Some v)) = true)
  /\ (forall i v n,
        validateRecipientAccount xss escape i = Valid v n ->
        (required (Some v)
         && matches (match_class isAlnum 8 20) (Some v)) = true)
  /\ (forall i v n,
        validateBankName xss escape i = Valid v n ->
        (required (Some v) && minlength 3 (Some v) && maxlength 100 (Some v)
         && matches (match_class isAlphaOrWhite 3 100) (Some v)) = true)
  /\ (forall i v n,
        validateSwiftCode xss escape i = Valid v n ->
        (required (Some v) && matches swiftCodePattern (Some v)) = true
        /\ (required (Some v)
            && matches (match_class isUpperAlnum 8 11) (Some v)) = true)
  /\ (forall i v n,
        validatePurpose xss escape i = Valid v n ->
        (maxlength 100 (Some v)
         && matches (match_class isAlnumOrWhite 0 100) (Some v)) = true)
  /\ (forall i v n,
        validateReference xss escape i = Valid v n ->
        (maxlength 50 (Some v)
         && matches (match_class isAlnum 0 50) (Some v)) = true).
Proof.
  repeat split.
  - intros i v n H. unfold validateCurrency in H.
    destruct i as [s|]; [|discriminate].
    destruct (falsy_str (Some s)); [discriminate|].
    destruct (match_class isUpper 3 3 _) eqn:M; cbn [negb] in H;
      [|discriminate].
    destruct (existsb _ InputValidationMore.supportedCurrencies) eqn:E;
      cbn [negb] in H; [|discriminate].
    inversion H; subst.
    pose proof (match_class_bounds _ _ _ _ M) as [Hlo _].
    rewrite nonempty_required by lia. exact E.
  - intros i v n H. apply validateRequired_valid in H.
    exact (class_schema isAlphaOrWhite 3 50 v (le_S _ _ (le_S _ _ (le_n 1))) H).
  - intros i v n H. apply validateRequired_valid in H.
    pose proof (match_class_bounds _ _ _ _ H) as [Hlo _].
    rewrite nonempty_required by lia. now apply matches_of_pattern.
  - intros i v n H. apply validateRequired_valid in H.
    exact (class_schema isAlphaOrWhite 3 100 v
             (le_S _ _ (le_S _ _ (le_n 1))) H).
  - apply (validateSwiftCode_valid xss escape) in H as (s & _ & _ & P).
    destruct (swiftCodePattern_chars _ P) as [_ [Hlo _]].
    rewrite nonempty_required by lia. now apply matches_of_pattern.
  - apply (validateSwiftCode_valid xss escape) in H as (s & _ & _ & P).
    destruct (swiftCodePattern_chars _ P) as [Ha [Hlo Hhi]].
    rewrite nonempty_required by lia. apply matches_of_pattern.
    unfold match_class. rewrite Ha.
    apply Nat.leb_le in Hlo. apply Nat.leb_le in Hhi. now rewrite Hlo, Hhi.
  - intros i v n H. apply validateOptional_valid in H; [|reflexivity].
    exact (optional_schema isAlnumOrWhite 100 v H).
  - intros i v n H. apply validateOptional_valid in H; [|reflexivity].
    exact (optional_schema isAlnum 50 v H).
Qed.

Lemma validators_imply_schema_witness :
  (required (Some "USD"%string)
   && enum Model.supportedCurrencies (Some "USD"%string)) = true
  /\ (required (Some "John Smith"%string)
      && minlength 3 (Some "John Smith"%string)
      && maxlength 50 (Some "John Smith"%string)
      && matches (match_class isAlphaOrWhite 3 50)
                 (Some "John Smith"%string)) = true
  /\ (maxlength 100 (Some ""%string)
      && matches (match_class isAlnumOrWhite 0 100) (Some ""%string)) = true.
Proof.
  destruct (validators_imply_schema (fun x => x) (fun x => x))
    as (Hc & Hn & _ & _ & _ & Hp & _).
  split; [|split].
  - apply (Hc (Some "usd"%string) "USD"%string None). reflexivity.
  - apply (Hn (Some " John Smith "%string) "John Smith"%string None).
    reflexivity.
  - apply (Hp None ""%string None). reflexivity.
Defined.

(** ** ID numbers *)
Section IdNumberFacts.

Lemma digit_not_control (c : ascii) :
  isDigit c = true ->
  negb (between 0 31 c || (charCode c =? 127)%N) = true
  /\ negb (isWhite c) = true.
Proof.
  destruct c as [[] [] [] [] [] [] [] []]; intros D;
    try (vm_compute in D; discriminate D); split; reflexivity.
Qed.

(** Without the third-party filters, sanitizing leaves a string of digits
    as it is. *)
Lemma sanitize_digits (s : string) :
  forallb isDigit (chars s) = true ->
  sanitizeInput (fun x => x) (fun x => x) s = s.
Proof.
  intros H. unfold sanitizeInput, stripControl, trim.
  assert (F : filter (fun c => negb (between 0 31 c || (charCode c =? 127)%N))
                     (chars s) = chars s).
  { rewrite forallb_forall in H. induction (chars s) as [|c r IH]; simpl.
    - reflexivity.
    - destruct (digit_not_control c (H c (or_introl eq_refl))) as [-> _].
      f_equal. apply IH. intros x Hx. apply H. now right. }
  rewrite F, chars_str.
  assert (W : forallb (fun c => negb (isWhite c)) (chars s) = true).
  { apply forallb_forall. intros c Hc. rewrite forallb_forall in H.
    now destruct (digit_not_control c (H c Hc)). }
  rewrite (trimStartL_fixed_all _ W), (trimEndL_fixed _ W).
  apply str_chars.
Qed.

End IdNumberFacts.

(** X11.  When sanitizing leaves strings of digits as they are, an ID
    number that [validateIdNumber] accepts stops being accepted as soon as
    one of its digits is replaced by another digit: the changed number is
    refused for its checksum. *)
Theorem id_number_rejects_changed_digit (xss escape : string -> string)
    (p q : list ascii) (d d' : ascii) (v : string) (n : option Number) :
  (forall s, forallb isDigit (chars s) = true ->
             sanitizeInput xss escape s = s) ->
  forallb isDigit (p ++ d :: q) = true ->
  isDigit d' = true -> d <> d' ->
  validateIdNumber xss escape (Some (str (p ++ d :: q))) = Valid v n ->
  validateIdNumber xss escape (Some (str (p ++ d' :: q)))
  = Invalid [Text "Invalid ID number checksum"].
Proof.
  intros San Hd D' N H.
  assert (D : isDigit d = true).
  { rewrite forallb_app in Hd. apply andb_true_iff in Hd as [_ Hd].
    simpl in Hd. now apply andb_true_iff in Hd as [Hd _]. }
  assert (Hd' : forallb isDigit (p ++ d' :: q) = true).
  { rewrite forallb_app in *. apply andb_true_iff in Hd as [Hp Hq].
    simpl in *. apply andb_true_iff in Hq as [_ Hq]. now rewrite Hp, D', Hq. }
  unfold validateIdNumber in *.
  assert (Ne : forall l x r, falsy_str (Some (str (l ++ x :: r))) = false).
  { intros l x r. unfold falsy_str. rewrite chars_str. now destruct l. }
  rewrite Ne in *.
  rewrite San in H by (now rewrite chars_str).
  rewrite San by (now rewrite chars_str).
  destruct (match_class isDigit 13 13 (str (p ++ d :: q))) eqn:M;
    simpl in H; [|discriminate].
  destruct (validateLuhn (str (p ++ d :: q))) eqn:L; simpl in H;
    [|discriminate].
  replace (match_class isDigit 13 13 (str (p ++ d' :: q))) with true.
  2:{ revert M. unfold match_class. rewrite !chars_str, Hd, Hd'.
      rewrite !length_app. simpl. now intros ->. }
  simpl. now rewrite (luhn_changed_digit p q d d' D D' N L).
Qed.

Lemma id_number_rejects_changed_digit_witness :
  validateIdNumber (fun x => x) (fun x => x) (Some "8001015009087"%string)
  = Valid "8001015009087" None
  /\ validateIdNumber (fun x => x) (fun x => x) (Some "8001015009187"%string)
     = Invalid [Text "Invalid ID number checksum"].
Proof.
  split; [reflexivity|].
  apply (id_number_rejects_changed_digit (fun x => x) (fun x => x)
           (chars "8001015009") (chars "87") "0"%char "1"%char
           "8001015009087"%string None).
  - exact sanitize_digits.
  - reflexivity.
  - reflexivity.
  - discriminate.
  - reflexivity.
Defined.

(** ** Logging in *)
Import Users.

Section LoginFacts.

Variable argon2_verify : string -> string -> option bool.
Variable generateToken : ObjectId -> Date -> option string.
Variable generateRefreshToken : ObjectId -> Date -> option string.

Lemma updateUser_ids (u : User) (users : UserStore) :
  map u_id (updateUser u users) = map u_id users.
Proof.
  induction users as [|d r IH]; simpl; [reflexivity|].
  destruct (u_id d =? u_id u)%N eqn:E; simpl; [|now rewrite IH].
  apply N.eqb_eq in E. now rewrite E.
Qed.

Lemma find_updateUser (p : User -> bool) (u u' : User) (users : UserStore) :
  NoDup (map u_id users) -> find p users = Some u ->
  u_id u' = u_id u -> p u' = true ->
  find p (updateUser u' users) = Some u'.
Proof.
  intros N F Ei P. induction users as [|d r IH]; simpl in *; [discriminate|].
  inversion N as [|? ? Hd Hr]; subst.
  destruct (p d) eqn:Pd.
  - inversion F; subst. rewrite Ei, N.eqb_refl. simpl. now rewrite P.
  - destruct (u_id d =? u_id u')%N eqn:E.
    + exfalso. apply Hd. apply N.eqb_eq in E. rewrite E, Ei.
      apply in_map. now apply find_some in F as [F _].
    + simpl. rewrite Pd. now apply IH.
Qed.

(** One refused password: the counter goes up by one, and the account is
    locked when the counter reaches five. *)
Lemma failed_login_step (env : Env) (b : LoginBody) (users : UserStore)
    (u : User) :
  NoDup (map u_id users) -> find (credentials (l_username b) (l_accountNumber b)) users = Some u ->
  isAccountLocked env u = false ->
  validatePassword argon2_verify u (l_password b) = Some false ->
  exists u',
    login argon2_verify generateToken generateRefreshToken env b users = (invalidCredentials, updateUser u' users)
    /\ NoDup (map u_id (updateUser u' users))
    /\ find (credentials (l_username b) (l_accountNumber b)) (updateUser u' users) = Some u'
    /\ failedLoginAttempts u' = failedLoginAttempts u + 1
    /\ lockedUntil u'
       = (if 5 <=? failedLoginAttempts u + 1
          then Some (now env + 900000) else lockedUntil u)
    /\ validatePassword argon2_verify u' (l_password b) = Some false.
Proof.
  intros N F L V.
  set (u' := fst (incrementFailedAttempts env u users)).
  assert (Eu : incrementFailedAttempts env u users = (u', updateUser u' users))
    by reflexivity.
  exists u'.
  assert (Hf : failedLoginAttempts u' = failedLoginAttempts u + 1
               /\ lockedUntil u'
                  = (if 5 <=? failedLoginAttempts u + 1
                     then Some (now env + 900000) else lockedUntil u)
               /\ u_id u' = u_id u /\ credentials (l_username b) (l_accountNumber b) u' = credentials (l_username b) (l_accountNumber b) u
               /\ passwordHash u' = passwordHash u /\ salt u' = salt u).
  { unfold u', incrementFailedAttempts, maxAttempts, lockTime. rewrite L.
    destruct (5 <=? failedLoginAttempts u + 1); simpl; auto 10. }
  destruct Hf as (Ha & Hl & Hi & Hc & Hh & Hs).
  assert (C : credentials (l_username b) (l_accountNumber b) u' = true).
  { rewrite Hc. now apply find_some in F as [_ F]. }
  split; [|split; [|split; [|split; [|split]]]]; auto.
  - unfold login, findByCredentials.
    rewrite F, L, V, Eu. reflexivity.
  - now rewrite updateUser_ids.
  - now apply (find_updateUser _ u).
  - unfold validatePassword in *. now rewrite Hh, Hs.
Qed.

(** A locked account is refused before its password is looked at. *)
Lemma locked_login (env : Env) (b : LoginBody) (users : UserStore) (u : User) :
  find (credentials (l_username b) (l_accountNumber b)) users = Some u -> isAccountLocked env u = true ->
  login argon2_verify generateToken generateRefreshToken env b users = (invalidCredentials, users).
Proof.
  intros F L. unfold login, findByCredentials.
  now rewrite F, L.
Qed.

(** Below five, refused passwords only count. *)
Lemma failed_logins_count (b : LoginBody) (envs : list Env)
    (users : UserStore) (u : User) :
  NoDup (map u_id users) -> find (credentials (l_username b) (l_accountNumber b)) users = Some u ->
  lockedUntil u = None ->
  failedLoginAttempts u + Z.of_nat (List.length envs) < 5 ->
  validatePassword argon2_verify u (l_password b) = Some false ->
  exists u',
    NoDup (map u_id (attempts argon2_verify generateToken generateRefreshToken
                              b envs users))
    /\ find (credentials (l_username b) (l_accountNumber b))
            (attempts argon2_verify generateToken generateRefreshToken
                      b envs users) = Some u'
    /\ failedLoginAttempts u'
       = failedLoginAttempts u + Z.of_nat (List.length envs)
    /\ lockedUntil u' = None
    /\ validatePassword argon2_verify u' (l_password b) = Some false.
Proof.
  revert users u. induction envs as [|env envs IH]; intros users u N F L B V.
  - exists u. simpl. rewrite Z.add_0_r. auto.
  - assert (Lk : isAccountLocked env u = false)
      by (unfold isAccountLocked; now rewrite L).
    destruct (failed_login_step env b users u N F Lk V)
      as (u1 & E1 & N1 & F1 & A1 & L1 & V1).
    cbn [List.length] in B.
    replace (5 <=? failedLoginAttempts u + 1) with false in L1
      by (symmetry; apply Z.leb_gt; lia).
    rewrite L in L1.
    destruct (IH (updateUser u1 users) u1 N1 F1 L1) as (u' & H); [lia|exact V1|].
    exists u'. unfold attempts in *. cbn [fold_left]. rewrite E1.
    cbn [snd List.length]. rewrite A1 in H.
    replace (failedLoginAttempts u + Z.of_nat (S (List.length envs)))
      with (failedLoginAttempts u + 1 + Z.of_nat (List.length envs)) by lia.
    exact H.
Qed.

End LoginFacts.

(** ** Locking and unlocking an account *)
Section LockFacts.

Variable argon2_verify : string -> string -> option bool.
Variable generateToken : ObjectId -> Date -> option string.
Variable generateRefreshToken : ObjectId -> Date -> option string.

Lemma updateUser_twice (u1 u2 : User) (users : UserStore) :
  u_id u2 = u_id u1 ->
  updateUser u2 (updateUser u1 users) = updateUser u2 users.
Proof.
  intros E. induction users as [|d r IH]; simpl; [reflexivity|].
  destruct (u_id d =? u_id u1)%N eqn:D; simpl.
  - rewrite E, N.eqb_refl. now rewrite D.
  - rewrite E, D. now rewrite IH.
Qed.

End LockFacts.

(** X12.  Five refused passwords in a row lock a fresh account: starting
    from a user with no failure on record and no lock, after five login
    attempts with a wrong password the counter is at five and the account
    is locked until fifteen minutes after the fifth attempt; until then
    every login with these credentials, whatever the password, is answered
    401 "Invalid credentials" and changes nothing. *)
Theorem five_failures_lock_account
    (argon2_verify : string -> string -> option bool)
    (generateToken generateRefreshToken : ObjectId -> Date -> option string)
    (b : LoginBody) (users : UserStore) (u : User)
    (e1 e2 e3 e4 e5 : Env) :
  NoDup (map u_id users) ->
  find (credentials (l_username b) (l_accountNumber b)) users = Some u ->
  failedLoginAttempts u = 0 -> lockedUntil u = None ->
  validatePassword argon2_verify u (l_password b) = Some false ->
  let users5 :=
    attempts argon2_verify generateToken generateRefreshToken b
             [e1; e2; e3; e4; e5] users in
  exists u5,
    find (credentials (l_username b) (l_accountNumber b)) users5 = Some u5
    /\ failedLoginAttempts u5 = 5
    /\ lockedUntil u5 = Some (now e5 + 900000)
    /\ forall env b',
         l_username b' = l_username b ->
         l_accountNumber b' = l_accountNumber b ->
         now env < now e5 + 900000 ->
         login argon2_verify generateToken generateRefreshToken env b' users5
         = (invalidCredentials, users5).
Proof.
  intros N F A L V users5.
  destruct (failed_logins_count argon2_verify generateToken
              generateRefreshToken b [e1; e2; e3; e4] users u N F L)
    as (u4 & N4 & F4 & A4 & L4 & V4); [rewrite A; simpl; lia|exact V|].
  assert (Lk : isAccountLocked e5 u4 = false)
    by (unfold isAccountLocked; now rewrite L4).
  destruct (failed_login_step argon2_verify generateToken
              generateRefreshToken e5 b _ u4 N4 F4 Lk V4)
    as (u5 & E5 & N5 & F5 & A5 & L5 & _).
  assert (E : users5 = updateUser u5
                         (attempts argon2_verify generateToken
                                   generateRefreshToken b [e1; e2; e3; e4]
                                   users)).
  { unfold users5, attempts in *. cbn [fold_left] in *. now rewrite E5. }
  rewrite E. exists u5. rewrite A4, A in A5, L5. simpl in A5, L5.
  split; [exact F5|]. split; [exact A5|]. split; [exact L5|].
  intros env b' Hu Ha Ht.
  apply (locked_login _ _ _ env b' _ u5).
  - now rewrite Hu, Ha.
  - unfold isAccountLocked. rewrite L5. now apply Z.ltb_lt.
Qed.

Lemma five_failures_lock_account_witness :
  exists u5,
    find (credentials (Some "alice"%string) (Some "1234567890"%string))
         (attempts UserSamples.verify0 UserSamples.sign0 UserSamples.sign0
                   UserSamples.wrong UserSamples.five_times
                   UserSamples.users0) = Some u5
    /\ failedLoginAttempts u5 = 5
    /\ lockedUntil u5 = Some (1700000240000 + 900000)
    /\ forall env b',
         l_username b' = Some "alice"%string ->
         l_accountNumber b' = Some "1234567890"%string ->
         now env < 1700000240000 + 900000 ->
         login UserSamples.verify0 UserSamples.sign0 UserSamples.sign0 env b'
               (attempts UserSamples.verify0 UserSamples.sign0
                         UserSamples.sign0 UserSamples.wrong
                         UserSamples.five_times UserSamples.users0)
         = (invalidCredentials,
            attempts UserSamples.verify0 UserSamples.sign0 UserSamples.sign0
                     UserSamples.wrong UserSamples.five_times
                     UserSamples.users0).
Proof.
  apply (five_failures_lock_account UserSamples.verify0 UserSamples.sign0
           UserSamples.sign0 UserSamples.wrong UserSamples.users0
           UserSamples.alice
           (UserSamples.at_time 1700000000000)
           (UserSamples.at_time 1700000060000)
           (UserSamples.at_time 1700000120000)
           (UserSamples.at_time 1700000180000)
           (UserSamples.at_time 1700000240000)).
  - repeat constructor. intros [].
  - reflexivity.
  - reflexivity.
  - reflexivity.
  - reflexivity.
Defined.

(** X13.  The counter is not reset when a lock expires: for an account
    with four or more failures on record that is not locked at the moment,
    a single refused password locks it again, for fifteen minutes from that
    moment. *)
Theorem one_failure_relocks_after_expiry
    (argon2_verify : string -> string -> option bool)
    (generateToken generateRefreshToken : ObjectId -> Date -> option string)
    (env : Env) (b : LoginBody) (users : UserStore) (u : User) :
  NoDup (map u_id users) ->
  find (credentials (l_username b) (l_accountNumber b)) users = Some u ->
  isAccountLocked env u = false -> 4 <= failedLoginAttempts u ->
  validatePassword argon2_verify u (l_password b) = Some false ->
  exists u',
    login argon2_verify generateToken generateRefreshToken env b users
    = (invalidCredentials, updateUser u' users)
    /\ find (credentials (l_username b) (l_accountNumber b))
            (updateUser u' users) = Some u'
    /\ failedLoginAttempts u' = failedLoginAttempts u + 1
    /\ lockedUntil u' = Some (now env + 900000)
    /\ forall env', now env' < now env + 900000 ->
                    isAccountLocked env' u' = true.
Proof.
  intros N F L A V.
  destruct (failed_login_step argon2_verify generateToken
              generateRefreshToken env b users u N F L V)
    as (u' & E & _ & F' & A' & L' & _).
  replace (5 <=? failedLoginAttempts u + 1) with true in L'
    by (symmetry; apply Z.leb_le; lia).
  exists u'. repeat split; auto.
  intros env' H. unfold isAccountLocked. rewrite L'. now apply Z.ltb_lt.
Qed.

Lemma one_failure_relocks_after_expiry_witness :
  exists u',
    login UserSamples.verify0 UserSamples.sign0 UserSamples.sign0
          (UserSamples.at_time 1700000000000) UserSamples.wrong
          [UserSamples.alice_after_lock]
    = (invalidCredentials, updateUser u' [UserSamples.alice_after_lock])
    /\ find (credentials (Some "alice"%string) (Some "1234567890"%string))
            (updateUser u' [UserSamples.alice_after_lock]) = Some u'
    /\ failedLoginAttempts u' = 5 + 1
    /\ lockedUntil u' = Some (1700000000000 + 900000)
    /\ forall env', now env' < 1700000000000 + 900000 ->
                    isAccountLocked env' u' = true.
Proof.
  apply (one_failure_relocks_after_expiry UserSamples.verify0
           UserSamples.sign0 UserSamples.sign0
           (UserSamples.at_time 1700000000000) UserSamples.wrong
           [UserSamples.alice_after_lock] UserSamples.alice_after_lock).
  - repeat constructor. intros [].
  - reflexivity.
  - reflexivity.
  - discriminate.
  - reflexivity.
Defined.

(** X14.  A login with the accepted password clears the record: the
    stored user has no failure on record, no lock, and [lastLoginAt] set
    to the moment of the login.  This holds as well when signing a token
    fails, in which case the answer is nevertheless 401; otherwise the
    answer is 200 with the user and the two tokens. *)
Theorem accepted_login_resets
    (argon2_verify : string -> string -> option bool)
    (generateToken generateRefreshToken : ObjectId -> Date -> option string)
    (env : Env) (b : LoginBody) (users : UserStore) (u : User) :
  NoDup (map u_id users) ->
  find (credentials (l_username b) (l_accountNumber b)) users = Some u ->
  isAccountLocked env u = false ->
  validatePassword argon2_verify u (l_password b) = Some true ->
  exists u',
    snd (login argon2_verify generateToken generateRefreshToken env b users)
    = updateUser u' users
    /\ find (credentials (l_username b) (l_accountNumber b))
            (updateUser u' users) = Some u'
    /\ u_id u' = u_id u
    /\ failedLoginAttempts u' = 0 /\ lockedUntil u' = None
    /\ lastLoginAt u' = Some (now env)
    /\ fst (login argon2_verify generateToken generateRefreshToken env b
                  users)
       = match generateToken (u_id u) (now env),
               generateRefreshToken (u_id u) (now env) with
         | Some token, Some refreshToken =>
             Respond {| code := 200;
                        json := login_json u' token refreshToken |}
         | _, _ => invalidCredentials
         end.
Proof.
  intros N F L V.
  set (u1 := fst (resetFailedAttempts env u users)).
  set (u2 := fst (updateLastLogin env u1 (updateUser u1 users))).
  assert (E2 : updateUser u2 (updateUser u1 users) = updateUser u2 users)
    by (apply updateUser_twice; reflexivity).
  exists u2.
  assert (C : credentials (l_username b) (l_accountNumber b) u2 = true).
  { apply find_some in F as [_ F]. exact F. }
  assert (E : login argon2_verify generateToken generateRefreshToken env b
                    users
              = (match generateToken (u_id u) (now env),
                       generateRefreshToken (u_id u) (now env) with
                 | Some token, Some refreshToken =>
                     Respond {| code := 200;
                                json := login_json u2 token refreshToken |}
                 | _, _ => invalidCredentials
                 end, updateUser u2 users)).
  { unfold login, findByCredentials. rewrite F, L, V.
    change (resetFailedAttempts env u users) with (u1, updateUser u1 users).
    cbv iota beta.
    change (updateLastLogin env u1 (updateUser u1 users))
      with (u2, updateUser u2 (updateUser u1 users)).
    cbv iota beta. rewrite E2.
    change (u_id u2) with (u_id u).
    destruct (generateToken (u_id u) (now env)); [|reflexivity].
    destruct (generateRefreshToken (u_id u) (now env)); reflexivity. }
  rewrite E. simpl fst. simpl snd.
  split; [reflexivity|]. split; [now apply (find_updateUser _ u)|].
  repeat split.
Qed.

Lemma accepted_login_resets_witness :
  exists u',
    snd (login UserSamples.verify0 UserSamples.sign0 UserSamples.sign0
               (UserSamples.at_time 1700000000000) UserSamples.right
               [UserSamples.alice_after_lock])
    = updateUser u' [UserSamples.alice_after_lock]
    /\ find (credentials (Some "alice"%string) (Some "1234567890"%string))
            (updateUser u' [UserSamples.alice_after_lock]) = Some u'
    /\ u_id u' = 1%N
    /\ failedLoginAttempts u' = 0 /\ lockedUntil u' = None
    /\ lastLoginAt u' = Some 1700000000000
    /\ fst (login UserSamples.verify0 UserSamples.sign0 UserSamples.sign0
                  (UserSamples.at_time 1700000000000) UserSamples.right
                  [UserSamples.alice_after_lock])
       = Respond {| code := 200;
                    json := login_json u' "token" "token" |}.
Proof.
  apply (accepted_login_resets UserSamples.verify0 UserSamples.sign0
           UserSamples.sign0 (UserSamples.at_time 1700000000000)
           UserSamples.right [UserSamples.alice_after_lock]
           UserSamples.alice_after_lock).
  - repeat constructor. intros [].
  - reflexivity.
  - reflexivity.
  - reflexivity.
Defined.

(** ** Registration *)

Import Regex Registration.

Lemma NoDup_snoc {A} (l : list A) (x : A) :
  NoDup l -> ~ In x l -> NoDup (l ++ [x]).
Proof.
  induction l as [|y r IH]; simpl; intros N H.
  - constructor; [intros []|constructor].
  - inversion N as [|? ? Hy Hr]; subst. constructor.
    + rewrite in_app_iff. intros [I|[->|[]]]; [now apply Hy|].
      apply H. now left.
    + apply IH; [assumption|]. intros I. apply H. now right.
Qed.

Lemma find_app_none {A} (p : A -> bool) (l l' : list A) :
  find p l = None -> find p (l ++ l') = find p l'.
Proof.
  induction l as [|x r IH]; simpl; [reflexivity|].
  destruct (p x); [discriminate|exact IH].
Qed.

Lemma check_ok (path : string) (ok : bool) : check path ok = [] -> ok = true.
Proof. destruct ok; [reflexivity|discriminate]. Qed.

(** What a user document that passes validation has. *)
Lemma validateUser_nil (n : NewUser) :
  validateUser n = [] ->
  required (n_idNumber n) = true /\ required (n_accountNumber n) = true
  /\ required (n_username n) = true /\ required (n_passwordHash n) = true
  /\ emptyOr emailPattern (n_email n) = true
  /\ emptyOr phonePattern (n_phoneNumber n) = true.
Proof.
  unfold validateUser. intros V.
  repeat (apply app_eq_nil in V as [?%check_ok V]).
  apply check_ok in V.
  repeat match goal with
         | H : _ && _ = true |- _ => apply andb_prop in H as [? ?]
         end.
  repeat split; assumption.
Qed.

Lemma required_text (o : option string) :
  required o = true -> o = Some (text o).
Proof. destruct o; [reflexivity|discriminate]. Qed.

Section RegisterFacts.

Variable argon2_hash : string -> string -> option string.
Variable generateToken generateRefreshToken : ObjectId -> Date -> option string.

(** What [User.create] has done when it returns a document. *)
Lemma createUser_inr (env : Env) (randomSalt randomBytes : string)
    (n : NewUser) (users users' : UserStore) (u : User) :
  createUser argon2_hash env randomSalt randomBytes n users = inr (u, users') ->
  validateUser n = [] /\ existsb (clashes n) users = false
  /\ users' = users ++ [u]
  /\ argon2_hash randomBytes (text (n_passwordHash n) ++ randomSalt)%string
     = Some (passwordHash u)
  /\ salt u = randomSalt /\ u_id u = objectId env
  /\ idNumber u = text (n_idNumber n)
  /\ accountNumber u = text (n_accountNumber n)
  /\ username u = text (n_username n)
  /\ isActive u = true /\ lockedUntil u = None.
Proof.
  unfold createUser.
  destruct (validateUser n); [|discriminate].
  destruct (argon2_hash _ _) as [h|]; [|discriminate].
  destruct (existsb _ _); [discriminate|].
  intros E. inversion E; subst. repeat split.
Qed.

(** What the route has done when it answers 201. *)
Lemma register_created (env : Env) (randomSalt randomBytes : string)
    (b : RegisterBody) (users : UserStore) (r : Response) :
  fst (register argon2_hash generateToken generateRefreshToken env randomSalt
         randomBytes b users) = Answered r ->
  code r = 201 ->
  exists u,
    createUser argon2_hash env randomSalt randomBytes
      {| n_fullName := r_fullName b; n_idNumber := r_idNumber b;
         n_accountNumber := r_accountNumber b; n_username := r_username b;
         n_passwordHash := userPassword b; n_email := or_null (r_email b);
         n_phoneNumber := or_null (r_phoneNumber b) |} users
    = inr (u, users ++ [u])
    /\ find (existing b) users = None
    /\ snd (register argon2_hash generateToken generateRefreshToken env
              randomSalt randomBytes b users) = users ++ [u].
Proof.
  unfold register.
  destruct (find (existing b) users) eqn:F.
  { simpl. intros E C. inversion E; subst. discriminate. }
  destruct (createUser _ _ _ _ _ _) as [e|[u users']] eqn:Cr.
  { simpl. intros E C. inversion E; subst. discriminate. }
  pose proof (createUser_inr _ _ _ _ _ _ _ Cr) as (_ & _ & -> & _).
  intros E C. exists u. split; [reflexivity|]. split; [reflexivity|].
  destruct (generateToken _ _); [|discriminate].
  destruct (generateRefreshToken _ _); [reflexivity|discriminate].
Qed.

(** The state the route leaves: the one it found, or that with the new
    user at the end. *)
Lemma register_store (env : Env) (randomSalt randomBytes : string)
    (b : RegisterBody) (users : UserStore) :
  snd (register argon2_hash generateToken generateRefreshToken env randomSalt
         randomBytes b users) = users
  \/ exists n u,
       createUser argon2_hash env randomSalt randomBytes n users
       = inr (u, users ++ [u])
       /\ snd (register argon2_hash generateToken generateRefreshToken env
                 randomSalt randomBytes b users) = users ++ [u].
Proof.
  unfold register.
  destruct (find (existing b) users); [now left|].
  destruct (createUser _ _ _ _ _ _) as [e|[u users']] eqn:Cr; [now left|].
  right. pose proof (createUser_inr _ _ _ _ _ _ _ Cr) as (_ & _ & -> & _).
  eexists _, u. split; [exact Cr|].
  destruct (generateToken _ _); [|reflexivity].
  destruct (generateRefreshToken _ _); reflexivity.
Qed.

End RegisterFacts.

Lemma not_clashing (n : NewUser) (users : UserStore) (f : User -> string)
    (v : string) :
  existsb (clashes n) users = false ->
  (forall u, String.eqb v (f u) = true -> clashes n u = true) ->
  ~ In v (map f users).
Proof.
  intros E H I. apply in_map_iff in I as (u & <- & I).
  assert (C : clashes n u = true) by (apply H, String.eqb_refl).
  assert (X : existsb (clashes n) users = true)
    by (apply existsb_exists; now exists u).
  congruence.
Qed.

(** X15.  Registration keeps users apart: when no two stored users share
    a username, an ID number or an account number, that is so after any
    registration request as well, whatever the request holds and however
    it is answered. *)
Theorem register_keeps_users_distinct
    (argon2_hash : string -> string -> option string)
    (generateToken generateRefreshToken : ObjectId -> Date -> option string)
    (env : Env) (randomSalt randomBytes : string) (b : RegisterBody)
    (users : UserStore) :
  distinctUsers users ->
  distinctUsers (snd (register argon2_hash generateToken generateRefreshToken
                        env randomSalt randomBytes b users)).
Proof.
  intros (Nu & Ni & Na).
  destruct (register_store argon2_hash generateToken generateRefreshToken env
              randomSalt randomBytes b users) as [->|(n & u & Cr & ->)].
  { now repeat split. }
  apply createUser_inr in Cr
    as (_ & X & _ & _ & _ & _ & Ei & Ea & Eu & _).
  unfold distinctUsers. rewrite !map_app. simpl.
  repeat split; apply NoDup_snoc; try assumption.
  - rewrite Eu. apply (not_clashing n); [assumption|].
    intros u0 H. unfold clashes. rewrite H. now rewrite !orb_true_r.
  - rewrite Ei. apply (not_clashing n); [assumption|].
    intros u0 H. unfold clashes. now rewrite H.
  - rewrite Ea. apply (not_clashing n); [assumption|].
    intros u0 H. unfold clashes. rewrite H. now rewrite orb_true_r.
Qed.

Lemma register_keeps_users_distinct_witness :
  distinctUsers
    (snd (register RegistrationSamples.hash0 UserSamples.sign0
            UserSamples.sign0 (UserSamples.at_time 1700000000000) "s" "r"
            RegistrationSamples.bob UserSamples.users0)).
Proof.
  apply (register_keeps_users_distinct RegistrationSamples.hash0
           UserSamples.sign0 UserSamples.sign0
           (UserSamples.at_time 1700000000000) "s" "r"
           RegistrationSamples.bob UserSamples.users0).
  repeat split; repeat constructor; intros [].
Defined.

(** The answer to a login whose password is accepted. *)
Lemma login_accepted_answer
    (argon2_verify : string -> string -> option bool)
    (generateToken generateRefreshToken : ObjectId -> Date -> option string)
    (env : Env) (b : LoginBody) (users : UserStore) (u : User) :
  find (credentials (l_username b) (l_accountNumber b)) users = Some u ->
  isAccountLocked env u = false ->
  validatePassword argon2_verify u (l_password b) = Some true ->
  fst (login argon2_verify generateToken generateRefreshToken env b users)
  = match generateToken (u_id u) (now env),
          generateRefreshToken (u_id u) (now env) with
    | Some token, Some refreshToken =>
        Respond {| code := 200;
                   json := login_json
                             (fst (updateLastLogin env
                                     (fst (resetFailedAttempts env u users))
                                     (snd (resetFailedAttempts env u users))))
                             token refreshToken |}
    | _, _ => invalidCredentials
    end.
Proof.
  intros F L V. unfold login, findByCredentials. rewrite F, L, V.
  set (u1 := fst (resetFailedAttempts env u users)).
  change (resetFailedAttempts env u users) with (u1, updateUser u1 users).
  cbv iota beta.
  set (u2 := fst (updateLastLogin env u1 (updateUser u1 users))).
  change (updateLastLogin env u1 (updateUser u1 users))
    with (u2, updateUser u2 (updateUser u1 users)).
  cbv iota beta. simpl snd. simpl fst.
  change (u_id u2) with (u_id u).
  destruct (generateToken (u_id u) (now env)); [|reflexivity].
  destruct (generateRefreshToken (u_id u) (now env)); reflexivity.
Qed.

(** X16.  Whoever has just been registered can log in.  Provided
    [argon2.verify] accepts what [argon2.hash] produced, a registration
    answered 201 is followed, at any later moment and as long as nothing
    else touched the store, by a login with the same username, account
    number and password that finds the new user, accepts the password and
    answers 200 with that user (401 only if signing a token fails). *)
Theorem registered_user_can_log_in
    (argon2_hash : string -> string -> option string)
    (argon2_verify : string -> string -> option bool)
    (generateToken generateRefreshToken : ObjectId -> Date -> option string)
    (env env' : Env) (randomSalt randomBytes : string) (b : RegisterBody)
    (users : UserStore) (r : Response) :
  (forall bytes plain h,
      argon2_hash bytes plain = Some h -> argon2_verify h plain = Some true) ->
  fst (register argon2_hash generateToken generateRefreshToken env randomSalt
         randomBytes b users) = Answered r ->
  code r = 201 ->
  exists u,
    fst (login argon2_verify generateToken generateRefreshToken env'
           {| l_username := r_username b;
              l_accountNumber := r_accountNumber b;
              l_password := userPassword b |}
           (snd (register argon2_hash generateToken generateRefreshToken env
                   randomSalt randomBytes b users)))
    = match generateToken (objectId env) (now env'),
            generateRefreshToken (objectId env) (now env') with
      | Some token, Some refreshToken =>
          Respond {| code := 200; json := login_json u token refreshToken |}
      | _, _ => invalidCredentials
      end
    /\ u_id u = objectId env
    /\ r_username b = Some (username u)
    /\ r_accountNumber b = Some (accountNumber u)
    /\ lastLoginAt u = Some (now env').
Proof.
  intros HV E C.
  destruct (register_created _ _ _ _ _ _ _ _ _ E C) as (u & Cr & F & ->).
  apply createUser_inr in Cr
    as (V & _ & _ & H & Es & Ei & _ & Ea & Eu & Act & Lk).
  apply validateUser_nil in V as (_ & Ra & Ru & Rp & _).
  cbn [n_accountNumber n_username n_passwordHash] in *.
  apply required_text in Ra, Ru, Rp.
  assert (Fu : find (credentials (r_username b) (r_accountNumber b))
                 (users ++ [u]) = Some u).
  { rewrite find_app_none.
    - simpl. unfold credentials. rewrite Ru, Ra, Eu, Ea, Act. simpl.
      now rewrite !String.eqb_refl.
    - apply find_none_all. intros u0 I.
      pose proof (find_none _ _ F u0 I) as X. unfold existing in X.
      apply orb_false_iff in X as [_ X]. unfold credentials. now rewrite X. }
  assert (L : isAccountLocked env' u = false)
    by (unfold isAccountLocked; now rewrite Lk).
  assert (P : validatePassword argon2_verify u (userPassword b) = Some true).
  { unfold validatePassword. rewrite Rp, Es. apply HV with randomBytes.
    exact H. }
  eexists. split.
  - rewrite (login_accepted_answer argon2_verify generateToken
               generateRefreshToken env'
               {| l_username := r_username b;
                  l_accountNumber := r_accountNumber b;
                  l_password := userPassword b |} (users ++ [u]) u Fu L P).
    rewrite Ei. reflexivity.
  - simpl. rewrite Ei, Eu, Ea. now repeat split.
Qed.

Lemma registered_user_can_log_in_witness :
  exists u,
    fst (login UserSamples.verify0 UserSamples.sign0 UserSamples.sign0
           (UserSamples.at_time 1700000300000)
           {| l_username := Some "bob_b"%string;
              l_accountNumber := Some "9876543210"%string;
              l_password := Some "Strong#Pass7"%string |}
           (snd (register RegistrationSamples.hash0 UserSamples.sign0
                   UserSamples.sign0 (UserSamples.at_time 1700000000000)
                   "s" "r" RegistrationSamples.bob UserSamples.users0)))
    = Respond {| code := 200; json := login_json u "token" "token" |}
    /\ u_id u = 9%N
    /\ Some "bob_b"%string = Some (username u)
    /\ Some "9876543210"%string = Some (accountNumber u)
    /\ lastLoginAt u = Some 1700000300000.
Proof.
  apply (registered_user_can_log_in RegistrationSamples.hash0
           UserSamples.verify0 UserSamples.sign0 UserSamples.sign0
           (UserSamples.at_time 1700000000000)
           (UserSamples.at_time 1700000300000) "s" "r"
           RegistrationSamples.bob UserSamples.users0
           {| code := 201;
              json := registered_json
                        (last (snd (register RegistrationSamples.hash0
                                      UserSamples.sign0 UserSamples.sign0
                                      (UserSamples.at_time 1700000000000)
                                      "s" "r" RegistrationSamples.bob
                                      UserSamples.users0))
                              UserSamples.alice)
                        "token" "token" |}).
  - intros bytes plain h H. inversion H; subst. unfold UserSamples.verify0.
    now rewrite String.eqb_refl.
  - reflexivity.
  - reflexivity.
Defined.

Lemma updateUser_identity (u u' : User) (users : UserStore) :
  NoDup (map u_id users) -> In u users -> identity u' = identity u ->
  map identity (updateUser u' users) = map identity users.
Proof.
  intros N I E.
  assert (Ei : u_id u' = u_id u) by (unfold identity in E; congruence).
  induction users as [|d r IH]; simpl; [reflexivity|].
  inversion N as [|? ? Hd Hr]; subst.
  destruct (u_id d =? u_id u')%N eqn:D.
  - apply N.eqb_eq in D. simpl. f_equal. rewrite E. f_equal.
    apply (NoDup_map_inj u_id (d :: r)); [assumption| |now left|congruence].
    exact I.
  - simpl. f_equal. apply IH; [assumption|].
    destruct I as [->|I]; [|assumption].
    rewrite Ei, N.eqb_refl in D. discriminate.
Qed.

(** X17.  A login decides nothing about who the users are: as long as
    the ids of the stored users are distinct, no login request, accepted
    or refused, changes the id, name, ID number, account number,
    username, password hash, salt or activity flag of any stored user,
    nor the number or order of the users. *)
Theorem login_keeps_identities
    (argon2_verify : string -> string -> option bool)
    (generateToken generateRefreshToken : ObjectId -> Date -> option string)
    (env : Env) (b : LoginBody) (users : UserStore) :
  NoDup (map u_id users) ->
  map identity
    (snd (login argon2_verify generateToken generateRefreshToken env b users))
  = map identity users.
Proof.
  intros N. unfold login, findByCredentials.
  destruct (find _ users) as [u|] eqn:F; [|reflexivity].
  destruct (isAccountLocked env u); [reflexivity|].
  apply find_some in F as [I _].
  destruct (validatePassword argon2_verify u (l_password b)) as [[|]|];
    [| |reflexivity].
  - set (u1 := fst (resetFailedAttempts env u users)).
    change (resetFailedAttempts env u users) with (u1, updateUser u1 users).
    cbv iota beta.
    set (u2 := fst (updateLastLogin env u1 (updateUser u1 users))).
    change (updateLastLogin env u1 (updateUser u1 users))
      with (u2, updateUser u2 (updateUser u1 users)).
    cbv iota beta.
    assert (E : updateUser u2 (updateUser u1 users) = updateUser u2 users)
      by (apply updateUser_twice; reflexivity).
    assert (X : map identity (updateUser u2 users) = map identity users)
      by (now apply (updateUser_identity u)).
    destruct (generateToken _ _); [|simpl; now rewrite E].
    destruct (generateRefreshToken _ _); simpl; now rewrite E.
  - unfold incrementFailedAttempts, saveUser. simpl.
    apply (updateUser_identity u); [assumption|assumption|].
    destruct (_ && _); reflexivity.
Qed.

Lemma login_keeps_identities_witness :
  map identity
    (snd (login UserSamples.verify0 UserSamples.sign0 UserSamples.sign0
            (UserSamples.at_time 1700000000000) UserSamples.wrong
            UserSamples.users0))
  = map identity UserSamples.users0.
Proof.
  apply (login_keeps_identities UserSamples.verify0 UserSamples.sign0
           UserSamples.sign0 (UserSamples.at_time 1700000000000)
           UserSamples.wrong UserSamples.users0).
  repeat constructor. intros [].
Defined.

(** ** The email pattern of the schema *)

Lemma matchesL_empty (l : list ascii) : matchesL ReEmpty l = false.
Proof. induction l; simpl; auto. Qed.

(** A character outside every class of a pattern leaves nothing to
    match. *)
Lemma deriv_outside (P : ascii -> bool) (c : ascii) (r : Re) :
  within P r -> P c = false -> deriv c r = ReEmpty.
Proof.
  intros W N. induction r as [| |cls|a IHa b IHb|a IHa b IHb|a IHa]; simpl in *.
  - reflexivity.
  - reflexivity.
  - destruct (cls c) eqn:E; [|reflexivity].
    apply W in E. congruence.
  - destruct W as [Wa Wb]. rewrite (IHa Wa), (IHb Wb).
    destruct (nullable a); reflexivity.
  - destruct W as [Wa Wb]. now rewrite (IHa Wa), (IHb Wb).
  - now rewrite (IHa W).
Qed.

Lemma within_cat (P : ascii -> bool) (a b : Re) :
  within P a -> within P b -> within P (cat a b).
Proof. destruct a, b; simpl; tauto. Qed.

Lemma within_alt (P : ascii -> bool) (a b : Re) :
  within P a -> within P b -> within P (alt a b).
Proof. destruct a, b; simpl; tauto. Qed.

Lemma within_deriv (P : ascii -> bool) (c : ascii) (r : Re) :
  within P r -> within P (deriv c r).
Proof.
  induction r as [| |cls|a IHa b IHb|a IHa b IHb|a IHa]; simpl; intros W.
  - exact I.
  - exact I.
  - destruct (cls c); exact I.
  - destruct W as [Wa Wb]. destruct (nullable a).
    + apply within_alt; [apply within_cat|]; auto.
    + apply within_cat; auto.
  - destruct W as [Wa Wb]. apply within_alt; auto.
  - apply within_cat; auto.
Qed.

(** What a pattern matches is made of characters of its classes. *)
Lemma matchesL_within (P : ascii -> bool) (l : list ascii) (r : Re) :
  within P r -> matchesL r l = true -> forallb P l = true.
Proof.
  revert r. induction l as [|c l IH]; simpl; intros r W M; [reflexivity|].
  destruct (P c) eqn:Pc; simpl.
  - apply (IH (deriv c r)); [now apply within_deriv|assumption].
  - rewrite (deriv_outside P c r W Pc), matchesL_empty in M. discriminate.
Qed.

Lemma emailPattern_within : within isEmailChar emailPattern.
Proof.
  cbn [emailPattern within rePlus reOpt reRange reTimes reUpTo Nat.sub].
  repeat split; try exact I; intros c H; unfold isEmailChar;
    rewrite ?orb_true_iff in *; tauto.
Qed.

(** X18.  The email pattern of the schema knows letters, digits,
    underscores, dots, hyphens and the at sign only.  So a registration
    whose email address holds any other character (a plus sign, say)
    creates no user: it is answered 400 and the store is left as it
    was, whatever the other fields are. *)
Theorem register_refuses_other_email_characters
    (argon2_hash : string -> string -> option string)
    (generateToken generateRefreshToken : ObjectId -> Date -> option string)
    (env : Env) (randomSalt randomBytes : string) (b : RegisterBody)
    (users : UserStore) (e : string) (c : ascii) :
  r_email b = Some e -> In c (chars e) -> isEmailChar c = false ->
  exists r,
    register argon2_hash generateToken generateRefreshToken env randomSalt
      randomBytes b users = (Answered r, users)
    /\ code r = 400.
Proof.
  intros E I N. unfold register.
  destruct (find (existing b) users); [eexists; split; reflexivity|].
  destruct (createUser _ _ _ _ _ _) as [err|[u users']] eqn:Cr;
    [eexists; split; reflexivity|].
  exfalso. apply createUser_inr in Cr as (V & _).
  apply validateUser_nil in V as (_ & _ & _ & _ & M & _).
  cbn [n_email] in M. rewrite E in M.
  assert (O : or_null (Some e) = Some e).
  { unfold or_null, str_or, falsy_str. destruct (chars e); [destruct I|].
    reflexivity. }
  rewrite O in M. unfold emptyOr, falsy_str in M.
  destruct (chars e) as [|c0 l] eqn:Ce; [destruct I|].
  unfold test in M. rewrite Ce in M.
  apply (matchesL_within isEmailChar _ _ emailPattern_within) in M.
  rewrite forallb_forall in M. rewrite (M c I) in N. discriminate.
Qed.

Lemma register_refuses_other_email_characters_witness :
  exists r,
    register RegistrationSamples.hash0 UserSamples.sign0 UserSamples.sign0
      (UserSamples.at_time 1700000000000) "s" "r"
      RegistrationSamples.bob_tagged UserSamples.users0
    = (Answered r, UserSamples.users0)
    /\ code r = 400.
Proof.
  apply (register_refuses_other_email_characters RegistrationSamples.hash0
           UserSamples.sign0 UserSamples.sign0
           (UserSamples.at_time 1700000000000) "s" "r"
           RegistrationSamples.bob_tagged UserSamples.users0
           "bob+bank@example.com" "+").
  - reflexivity.
  - simpl. tauto.
  - reflexivity.
Defined.

(** ** Validated registrations *)

Import UserValidation.

Lemma trim_idem (s : string) : trim (trim s) = trim s.
Proof. unfold trim. now rewrite chars_str, trim_idem_chars. Qed.

Section UserValidatorFacts.

Variable xss : string -> string.
Variable escape : string -> string.

Lemma validateFullName_valid (name : option string) (v : string)
    (n : option Number) :
  validateFullName xss escape name = Valid v n ->
  match_class isAlphaOrWhite 3 50 v = true /\ trim v = v.
Proof.
  unfold validateFullName. destruct name as [s|]; [|discriminate].
  destruct (falsy_str (Some s)); [discriminate|].
  destruct (match_class isAlphaOrWhite 3 50 (sanitizeInput xss escape s))
    eqn:P; simpl; [|discriminate].
  destruct (repeated4 _); [discriminate|].
  intros H; inversion H; subst. split; [exact P|].
  unfold sanitizeInput. apply trim_idem.
Qed.

Lemma validateIdNumber_valid (idNumber : option string) (v : string)
    (n : option Number) :
  validateIdNumber xss escape idNumber = Valid v n ->
  match_class isDigit 13 13 v = true.
Proof.
  unfold validateIdNumber. destruct idNumber as [s|]; [|discriminate].
  destruct (falsy_str (Some s)); [discriminate|].
  destruct (match_class isDigit 13 13 (sanitizeInput xss escape s))
    eqn:P; simpl; [|discriminate].
  destruct (validateLuhn _); simpl; [|discriminate].
  intros H; inversion H; subst. exact P.
Qed.

Lemma validateUsername_valid (username : option string) (v : string)
    (n : option Number) :
  validateUsername xss escape username = Valid v n ->
  match_class isUsernameChar 3 30 v = true.
Proof.
  unfold validateUsername. destruct username as [s|]; [|discriminate].
  destruct (falsy_str (Some s)); [discriminate|].
  destruct (match_class isUsernameChar 3 30 (sanitizeInput xss escape s))
    eqn:P; cbn [negb]; [|discriminate].
  repeat match goal with
         | |- (if ?c then _ else _) = _ -> _ =>
             destruct c; [discriminate|]
         end.
  intros H; inversion H; subst. exact P.
Qed.

End UserValidatorFacts.

Lemma no_clash_string (v : string) (f : User -> string) (users : UserStore)
    (u : User) :
  (forall x, In x users -> f x <> v) -> In u users ->
  String.eqb v (f u) = false.
Proof.
  intros H I. apply String.eqb_neq. intros E. now apply (H u I).
Qed.

(** X19.  A registration made of what the validators of the input
    middleware return is accepted.  When the full name, ID number,
    account number, username and phone number of the request are values
    returned by [validateFullName], [validateIdNumber],
    [validateAccountNumber], [validateUsername] and [validatePhoneNumber],
    the password is not empty, the email address passes the pattern of
    the schema, no stored user has the ID number, account number or
    username, and hashing and signing succeed, the route stores one new
    user with these values and answers 201. *)
Theorem validated_registration_is_accepted
    (xss escape : string -> string)
    (argon2_hash : string -> string -> option string)
    (generateToken generateRefreshToken : ObjectId -> Date -> option string)
    (env : Env) (randomSalt randomBytes : string) (users : UserStore)
    (x1 x2 x3 x4 x5 e : option string) (v1 v2 v3 v4 v5 pw h tk rt : string)
    (n1 n2 n3 n4 n5 : option Number) :
  validateFullName xss escape x1 = Valid v1 n1 ->
  validateIdNumber xss escape x2 = Valid v2 n2 ->
  validateAccountNumber xss escape x3 = Valid v3 n3 ->
  validateUsername xss escape x4 = Valid v4 n4 ->
  validatePhoneNumber xss escape x5 = Valid v5 n5 ->
  falsy_str (Some pw) = false ->
  emptyOr emailPattern (or_null e) = true ->
  (forall u, In u users -> idNumber u <> v2) ->
  (forall u, In u users -> accountNumber u <> v3) ->
  (forall u, In u users -> username u <> v4) ->
  argon2_hash randomBytes (pw ++ randomSalt)%string = Some h ->
  generateToken (objectId env) (now env) = Some tk ->
  generateRefreshToken (objectId env) (now env) = Some rt ->
  exists u,
    register argon2_hash generateToken generateRefreshToken env randomSalt
      randomBytes
      {| r_fullName := Some v1; r_idNumber := Some v2;
         r_accountNumber := Some v3; r_username := Some v4;
         r_password := Some pw; r_passwordHash := None; r_email := e;
         r_phoneNumber := Some v5 |} users
    = (Answered {| code := 201; json := registered_json u tk rt |},
       users ++ [u])
    /\ fullName u = v1 /\ idNumber u = v2 /\ accountNumber u = v3
    /\ username u = v4 /\ passwordHash u = h /\ salt u = randomSalt
    /\ phoneNumber u = Some v5 /\ email u = or_null e.
Proof.
  intros H1 H2 H3 H4 H5 Hp He Ni Na Nu Hh Ht Hr.
  apply validateFullName_valid in H1 as [P1 T1].
  apply validateIdNumber_valid in H2.
  apply validateRequired_valid in H3.
  apply validateUsername_valid in H4.
  apply validateRequired_valid in H5.
  pose proof (match_class_bounds _ _ _ _ H2) as [B2 _].
  pose proof (match_class_bounds _ _ _ _ H3) as [B3 _].
  assert (O5 : or_null (Some v5) = Some v5).
  { unfold or_null, str_or, falsy_str. unfold test in H5.
    destruct (chars v5); [discriminate|reflexivity]. }
  assert (F : find (existing
                      {| r_fullName := Some v1; r_idNumber := Some v2;
                         r_accountNumber := Some v3; r_username := Some v4;
                         r_password := Some pw; r_passwordHash := None;
                         r_email := e; r_phoneNumber := Some v5 |}) users
              = None).
  { apply find_none_all. intros u I. unfold existing, sameString.
    cbn [r_idNumber r_accountNumber r_username].
    now rewrite (no_clash_string v2 idNumber users),
      (no_clash_string v3 accountNumber users),
      (no_clash_string v4 username users). }
  set (n := {| n_fullName := Some v1; n_idNumber := Some v2;
               n_accountNumber := Some v3; n_username := Some v4;
               n_passwordHash := Some pw; n_email := or_null e;
               n_phoneNumber := Some v5 |}).
  assert (V : validateUser n = []).
  { unfold validateUser. cbn [n n_fullName n_idNumber n_accountNumber
                                n_username n_passwordHash n_email
                                n_phoneNumber trimmed].
    rewrite T1.
    pose proof (class_schema isAlphaOrWhite 3 50 v1 ltac:(lia) P1) as C1.
    pose proof (class_schema isUsernameChar 3 30 v4 ltac:(lia) H4) as C4.
    change (Z.of_nat 3) with 3 in C1, C4.
    change (Z.of_nat 50) with 50 in C1. change (Z.of_nat 30) with 30 in C4.
    rewrite C1, C4.
    rewrite (nonempty_required v2) by lia.
    rewrite (nonempty_required v3) by lia.
    rewrite (matches_of_pattern _ _ H2), (matches_of_pattern _ _ H3).
    rewrite He. unfold required. rewrite Hp.
    unfold emptyOr. rewrite H5. now destruct (falsy_str (Some v5)). }
  assert (X : existsb (clashes n) users = false).
  { destruct (existsb (clashes n) users) eqn:X; [|reflexivity].
    apply existsb_exists in X as (u & I & C). unfold clashes in C.
    cbn [n n_idNumber n_accountNumber n_username text] in C.
    now rewrite (no_clash_string v2 idNumber users),
      (no_clash_string v3 accountNumber users),
      (no_clash_string v4 username users) in C. }
  unfold register. rewrite F. unfold userPassword.
  cbn [r_fullName r_idNumber r_accountNumber r_username r_password
         r_passwordHash r_email r_phoneNumber falsy_str].
  rewrite O5. fold n. unfold createUser. rewrite V.
  cbn [n n_passwordHash text]. rewrite Hh. fold n. rewrite X.
  cbn [u_id]. rewrite Ht, Hr.
  eexists. split; [reflexivity|].
  cbn [n n_fullName trimmed text]. rewrite T1. now repeat split.
Qed.

Lemma validated_registration_is_accepted_witness :
  exists u,
    register RegistrationSamples.hash0 UserSamples.sign0 UserSamples.sign0
      (UserSamples.at_time 1700000000000) "s" "r"
      RegistrationSamples.carol UserSamples.users0
    = (Answered {| code := 201;
                   json := registered_json u "token" "token" |},
       UserSamples.users0 ++ [u])
    /\ fullName u = "Carol Danvers"%string
    /\ idNumber u = "9202204720083"%string
    /\ accountNumber u = "55501234567"%string
    /\ username u = "carol-d"%string
    /\ passwordHash u = "Strong#Pass7s"%string /\ salt u = "s"%string
    /\ phoneNumber u = Some "+27821234567"%string
    /\ email u = Some "carol@example.com"%string.
Proof.
  apply (validated_registration_is_accepted RegistrationSamples.plain
           RegistrationSamples.plain RegistrationSamples.hash0
           UserSamples.sign0 UserSamples.sign0
           (UserSamples.at_time 1700000000000) "s" "r" UserSamples.users0
           (Some "  Carol Danvers "%string) (Some "9202204720083"%string)
           (Some "55501234567"%string) (Some " carol-d"%string)
           (Some "+27821234567"%string) (Some "carol@example.com"%string)
           "Carol Danvers" "9202204720083" "55501234567" "carol-d"
           "+27821234567" "Strong#Pass7" "Strong#Pass7s" "token" "token"
           None None None None None).
  - reflexivity.
  - reflexivity.
  - reflexivity.
  - reflexivity.
  - reflexivity.
  - reflexivity.
  - reflexivity.
  - intros u [<-|[]]. discriminate.
  - intros u [<-|[]]. discriminate.
  - intros u [<-|[]]. discriminate.
  - reflexivity.
  - reflexivity.
  - reflexivity.
Defined.
